(** * Flow aggregation and forecasting engine of Cash_Flow_Manager2

    Shallow embedding of the pure computations performed inside the
    [useMemo] blocks of the flow views:
    - [DailyFlowView] (src/unnamed/part_000),
    - [MonthlyFlowView] (src/components/views/MonthlyFlowView.tsx),
    - [RealWeeklyFlowView.getWeekStartDate] (src/unnamed/part_002),
    - [ForecastedMonthlyFlowView] (src/components/views/ForecastedMonthlyFlowView.tsx).

    Conventions of the embedding:
    - JavaScript numbers are modelled as exact rationals [Q]; equalities
      between amounts are stated with [Qeq] ([==]).
    - A JavaScript [Date] is modelled by its day number (days since
      1970-01-01, UTC); the views parse "YYYY-MM-DD" strings and format
      back with [toISOString], both of which are written out below.
    - A JavaScript [Map] is an association list that keeps insertion order;
      [Map.set] on an existing key replaces the value in place, on a new key
      appends; in-place mutation of a stored object is a [set] of the
      updated object. *)

From Stdlib Require Import ZArith QArith Qabs String Ascii List Bool Lia Lqa Sorted Permutation.
Import ListNotations.

Local Open Scope Z_scope.

(** ** JavaScript [Map] as an insertion-ordered association list *)
Module JsMap.
Section Ops.
Context {K V : Type} (keq : forall x y : K, {x = y} + {x <> y}).

Fixpoint get (k : K) (m : list (K * V)) : option V :=
  match m with
  | [] => None
  | (k', v) :: r => if keq k k' then Some v else get k r
  end.

Fixpoint set (k : K) (v : V) (m : list (K * V)) : list (K * V) :=
  match m with
  | [] => [(k, v)]
  | (k', v') :: r => if keq k k' then (k', v) :: r else (k', v') :: set k v r
  end.

Definition has (k : K) (m : list (K * V)) : bool :=
  match get k m with Some _ => true | None => false end.

Lemma get_set_eq : forall m k v, get k (set k v m) = Some v.
Proof.
  induction m as [|[k' v'] r IH]; intros k v; simpl.
  - destruct (keq k k); congruence.
  - destruct (keq k k') as [->|Hne]; simpl.
    + destruct (keq k' k'); congruence.
    + destruct (keq k k'); [contradiction|apply IH].
Qed.

Lemma get_set_neq : forall m k k' v, k' <> k -> get k' (set k v m) = get k' m.
Proof.
  induction m as [|[k0 v0] r IH]; intros k k' v Hne; simpl.
  - destruct (keq k' k); congruence.
  - destruct (keq k k0) as [->|Hne0]; simpl.
    + destruct (keq k' k0); congruence.
    + destruct (keq k' k0); [reflexivity|apply IH; assumption].
Qed.

Lemma in_keys_set : forall m k k' v,
  In k' (map fst (set k v m)) <-> k' = k \/ In k' (map fst m).
Proof.
  induction m as [|[k0 v0] r IH]; intros k k' v; simpl.
  - split; intros; intuition congruence.
  - destruct (keq k k0) as [->|Hne]; simpl.
    + split; intros; intuition congruence.
    + rewrite IH. split; intros; intuition congruence.
Qed.

Lemma nodup_set : forall m k v,
  NoDup (map fst m) -> NoDup (map fst (set k v m)).
Proof.
  induction m as [|[k0 v0] r IH]; intros k v Hnd; simpl.
  - constructor; [simpl; tauto|constructor].
  - inversion Hnd as [|? ? Hnin Hnd']; subst.
    destruct (keq k k0) as [->|Hne]; simpl.
    + constructor; assumption.
    + constructor; [|apply IH; assumption].
      rewrite in_keys_set. intros [H|H]; [congruence|contradiction].
Qed.

Lemma get_none_iff : forall m k, get k m = None <-> ~ In k (map fst m).
Proof.
  induction m as [|[k0 v0] r IH]; intros k; simpl.
  - tauto.
  - destruct (keq k k0) as [->|Hne].
    + split; [discriminate|intros H; exfalso; apply H; left; reflexivity].
    + rewrite IH. split; [intros H [H'|H']; [congruence|contradiction]|tauto].
Qed.
End Ops.
End JsMap.

(** ** Dates: ISO "YYYY-MM-DD" strings and day numbers (UTC) *)
Module Dates.

(** Day number of a proleptic Gregorian date (days since 1970-01-01). *)
Definition days_from_civil (y m d : Z) : Z :=
  let y' := if m <=? 2 then y - 1 else y in
  let era := y' / 400 in
  let yoe := y' - era * 400 in
  let mp := (m + 9) mod 12 in
  let doy := (153 * mp + 2) / 5 + d - 1 in
  let doe := yoe * 365 + yoe / 4 - yoe / 100 + doy in
  era * 146097 + doe - 719468.

(** Inverse of [days_from_civil]: what [Date.prototype.getUTC*] read. *)
Definition civil_from_days (z : Z) : Z * Z * Z :=
  let z' := z + 719468 in
  let era := z' / 146097 in
  let doe := z' - era * 146097 in
  let yoe := (doe - doe / 1460 + doe / 36524 - doe / 146096) / 365 in
  let y := yoe + era * 400 in
  let doy := doe - (365 * yoe + yoe / 4 - yoe / 100) in
  let mp := (5 * doy + 2) / 153 in
  let d := doy - (153 * mp + 2) / 5 + 1 in
  let m := if mp <? 10 then mp + 3 else mp - 9 in
  (if m <=? 2 then y + 1 else y, m, d).

Definition is_leap (y : Z) : bool :=
  (y mod 4 =? 0) && (negb (y mod 100 =? 0) || (y mod 400 =? 0)).

Definition days_in_month (y m : Z) : Z :=
  if m =? 2 then (if is_leap y then 29 else 28)
  else if (m =? 4) || (m =? 6) || (m =? 9) || (m =? 11) then 30 else 31.

Definition digit (c : ascii) : option Z :=
  let n := nat_of_ascii c in
  if (48 <=? n)%nat && (n <=? 57)%nat then Some (Z.of_nat n - 48) else None.

Fixpoint number (s : string) (acc : Z) : option Z :=
  match s with
  | EmptyString => Some acc
  | String c r =>
      match digit c with Some k => number r (acc * 10 + k) | None => None end
  end.

(** [new Date("YYYY-MM-DD")] (optionally with a fixed time suffix such as
    "T12:00:00Z"): the day number, or [None] for an Invalid Date. *)
Definition parse (s : string) : option Z :=
  if (String.length s =? 10)%nat
     && String.eqb (substring 4 1 s) "-" && String.eqb (substring 7 1 s) "-"
  then
    match number (substring 0 4 s) 0, number (substring 5 2 s) 0,
          number (substring 8 2 s) 0 with
    | Some y, Some m, Some d =>
        if (1 <=? m) && (m <=? 12) && (1 <=? d) && (d <=? days_in_month y m)
        then Some (days_from_civil y m d) else None
    | _, _, _ => None
    end
  else None.

Definition digit_char (k : Z) : ascii := ascii_of_nat (Z.to_nat (48 + k)).

(** [width] decimal digits of [z], zero padded. *)
Fixpoint pad (width : nat) (z : Z) : string :=
  match width with
  | O => EmptyString
  | S w => String (digit_char ((z / 10 ^ Z.of_nat w) mod 10)) (pad w z)
  end.

(** [d.toISOString().split('T')[0]] *)
Definition iso (z : Z) : string :=
  let '(y, m, d) := civil_from_days z in
  pad 4 y ++ "-" ++ pad 2 m ++ "-" ++ pad 2 d.

(** [Date.prototype.getUTCDay]: 0 = Sunday, ..., 6 = Saturday
    (1970-01-01 was a Thursday). *)
Definition utc_day (z : Z) : Z := (z + 4) mod 7.

End Dates.

(** ** [getWeekStartDate] (src/unnamed/part_002, lines 17-30)
    [today] is the day number of [new Date()], used for unparsable input. *)
Definition getWeekStartDate (today : Z) (dateStr : string) : string :=
  match Dates.parse dateStr with
  | None =>
      let offset := (Dates.utc_day today + 1) mod 7 in
      Dates.iso (today - offset)
  | Some date =>
      let offset := (Dates.utc_day date + 1) mod 7 in
      Dates.iso (date - offset)
  end.

(** The day number the week bucket stands for (the value of [saturday]). *)
Definition week_start_day (date : Z) : Z := date - (Dates.utc_day date + 1) mod 7.

Example iso_parse_2024 : Dates.parse "2024-01-06" = Some 19728.
Proof. reflexivity. Qed.
Example iso_2024 : Dates.iso 19728 = "2024-01-06"%string.
Proof. reflexivity. Qed.
Example week_2024 : getWeekStartDate 0 "2024-01-12" = "2024-01-06"%string.
Proof. reflexivity. Qed.

(** ** DailyFlowView (src/unnamed/part_000) and MonthlyFlowView *)

Inductive TransactionType := Income | Expense.

Record Transaction := mkTransaction {
  t_guide : string;
  t_date : string;
  t_type : TransactionType;
  t_amountMN : Q;
  t_amountME : Q
}.

Record Guide := mkGuide {
  g_id : string;
  g_name : string;
  g_isInactiveForForecast : bool
}.

Record Totals := mkTotals { income : Q; expense : Q; net : Q }.

Definition zeroTotals : Totals := mkTotals 0 0 0.

(** [t[amountField]] with [amountField = useME ? 'amountME' : 'amountMN'] *)
Definition amountOf (useME : bool) (t : Transaction) : Q :=
  if useME then t_amountME t else t_amountMN t.

Definition sget {V} := @JsMap.get string V string_dec.
Definition sset {V} := @JsMap.set string V string_dec.

(** [new Map(guides.map(g => [g.id, g.name]))] *)
Definition guideMap (guides : list Guide) : list (string * string) :=
  fold_left (fun m g => sset (g_id g) (g_name g) m) guides [].

Definition sinCategoria : string := "Sin Categoría".

(** [getGuideName = (id) => guideMap.get(id) || 'Sin Categoría'] *)
Definition getGuideName (guides : list Guide) (id : string) : string :=
  match sget id (guideMap guides) with
  | Some n => if String.eqb n "" then sinCategoria else n
  | None => sinCategoria
  end.

Definition transferGuideId : string := "13".

Definition is_transfer (t : Transaction) : bool := String.eqb (t_guide t) transferGuideId.

(** [(m.get(k) || 0)] for a map of numbers *)
Definition get0 (k : string) (m : list (string * Q)) : Q :=
  match sget k m with Some v => v | None => 0%Q end.

(** [const totals = map.get(k); if (totals) { ...mutate... }] *)
Definition update_totals (k : string) (f : Totals -> Totals)
    (m : list (string * Totals)) : list (string * Totals) :=
  match sget k m with Some tot => sset k (f tot) m | None => m end.

(** [if (!byGuide.has(name)) byGuide.set(name, {}); byGuide.get(name)![k] = v] *)
Definition set_guide_cell (name k : string) (v : Q)
    (byGuide : list (string * list (string * Q))) : list (string * list (string * Q)) :=
  let inner := match sget name byGuide with Some d => d | None => [] end in
  sset name (sset k v inner) byGuide.

(** [guideData[k] = (guideData[k] || 0) + v] *)
Definition add_guide_cell (name k : string) (v : Q)
    (byGuide : list (string * list (string * Q))) : list (string * list (string * Q)) :=
  let inner := match sget name byGuide with Some d => d | None => [] end in
  sset name (sset k (get0 k inner + v)%Q inner) byGuide.

Record DailyFlow := mkDailyFlow {
  df_dates : list string;
  df_dataByGuide : list (string * list (string * Q));
  df_dailyTotals : list (string * Totals);
  df_initialBalance : Q
}.

Section DailyAggregate.
Variable guides : list Guide.
Variable useME : bool.
(** The bucket key of a transaction: [t.date] in this view. *)
Variable bucketOf : Transaction -> string.

(** Lines 107-109 *)
Definition init_totals (dates : list string) : list (string * Totals) :=
  fold_left (fun m d => sset d zeroTotals m) dates [].

(** Lines 111-116: first pass, net transfers per day *)
Definition net_transfers (sorted : list Transaction) : list (string * Q) :=
  fold_left (fun m t =>
    if is_transfer t then sset (bucketOf t) (get0 (bucketOf t) m + amountOf useME t)%Q m
    else m) sorted [].

(** Lines 119-138: second pass, body of the loop *)
Definition daily_step (st : list (string * list (string * Q)) * list (string * Totals))
    (t : Transaction) :=
  let '(byGuide, totals) := st in
  if negb (is_transfer t) then
    let a := amountOf useME t in
    (add_guide_cell (getGuideName guides (t_guide t)) (bucketOf t) a byGuide,
     update_totals (bucketOf t) (fun tot =>
       match t_type t with
       | Income => mkTotals (income tot + a) (expense tot) (net tot + a)
       | Expense => mkTotals (income tot) (expense tot + a) (net tot + a)
       end) totals)
  else (byGuide, totals).

(** Lines 148-158: body of [dailyNetTransfers.forEach] *)
Definition net_transfer_step (name : string)
    (st : list (string * list (string * Q)) * list (string * Totals))
    (entry : string * Q) :=
  let '(byGuide, totals) := st in
  let '(date, netAmount) := entry in
  (set_guide_cell name date netAmount byGuide,
   update_totals date (fun tot =>
     mkTotals (income tot + netAmount) (expense tot) (net tot + netAmount)) totals).

(** Lines 141-159: third pass, the netted transfers *)
Definition add_net_transfers (netT : list (string * Q))
    (st : list (string * list (string * Q)) * list (string * Totals)) :=
  match netT with
  | [] => st
  | _ :: _ =>
      let name := getGuideName guides transferGuideId in
      let '(byGuide, totals) := st in
      let byGuide := match sget name byGuide with
                     | Some _ => byGuide
                     | None => sset name [] byGuide end in
      fold_left (net_transfer_step name) netT (byGuide, totals)
  end.

(** Lines 103-159: the aggregation of the sorted, filtered transactions
    over the enumerated [dates]. *)
Definition daily_aggregate (dates : list string) (sorted : list Transaction) :=
  let netT := net_transfers sorted in
  let st := fold_left daily_step sorted ([], init_totals dates) in
  add_net_transfers netT st.
End DailyAggregate.

(** [Array.prototype.sort] with comparator [(a, b) => key a - key b]:
    a stable sort, written as insertion sort. *)
Fixpoint insert_by {A} (key : A -> Z) (x : A) (l : list A) : list A :=
  match l with
  | [] => [x]
  | y :: r => if key x <? key y then x :: y :: r else y :: insert_by key x r
  end.

Definition sort_by {A} (key : A -> Z) (l : list A) : list A :=
  fold_left (fun acc x => insert_by key x acc) l [].

(** The filter states hold [null] or the text of a date input; the empty
    string is falsy like [null]. *)
Definition filter_value (f : option string) : option string :=
  match f with Some s => if String.eqb s "" then None else Some s | None => None end.

(** [new Date(s)] for a date-only string, [None] standing for NaN. *)
Definition dayOf (s : string) : option Z := Dates.parse s.

(** [d1 < d2] and [d1 > d2] on dates: false as soon as one is NaN. *)
Definition date_lt (a b : option Z) : bool :=
  match a, b with Some x, Some y => x <? y | _, _ => false end.

(** Lines 98-100: [for (d = start; d <= end; d.setDate(d.getDate() + 1))
    dates.push(iso(d))], with its trip count written out. *)
Fixpoint enum_days (count : nat) (d : Z) : list string :=
  match count with
  | O => []
  | S c => Dates.iso d :: enum_days c (d + 1)
  end.

Definition sortKey (t : Transaction) : Z :=
  match dayOf (t_date t) with Some z => z | None => 0 end.

Fixpoint last_or {A} (d : A) (l : list A) : A :=
  match l with [] => d | [x] => x | _ :: r => last_or d r end.

Definition sumQ (l : list Q) : Q := fold_left Qplus l 0%Q.

(** DailyFlowView [flowData] (lines 69-162). *)
Definition daily_flowData (transactions : list Transaction) (guides : list Guide)
    (startDateFilter endDateFilter : option string) (useME : bool) : DailyFlow :=
  let start := filter_value startDateFilter in
  let stop := filter_value endDateFilter in
  let validTransactions := filter (fun t =>
        negb (String.eqb (t_date t) "") &&
        match dayOf (t_date t) with Some _ => true | None => false end) transactions in
  match validTransactions with
  | [] => mkDailyFlow [] [] [] 0%Q
  | _ :: _ =>
    let startDay := match start with Some s => dayOf s | None => None end in
    let endDay := match stop with Some s => dayOf s | None => None end in
    let initialBalance := sumQ (map (amountOf useME)
          (filter (fun t => match start with
                            | Some _ => date_lt (dayOf (t_date t)) startDay
                            | None => false end) validTransactions)) in
    let filteredTransactions := filter (fun t =>
          let date := dayOf (t_date t) in
          negb (match start with Some _ => date_lt date startDay | None => false end) &&
          negb (match stop with Some _ => date_lt endDay date | None => false end))
          validTransactions in
    match filteredTransactions with
    | [] => mkDailyFlow [] [] [] initialBalance
    | t0 :: _ =>
      let sorted := sort_by sortKey filteredTransactions in
      let tableStartDate := match start with
                            | Some _ => startDay
                            | None => dayOf (t_date (hd t0 sorted)) end in
      let tableEndDate := match stop with
                          | Some _ => endDay
                          | None => dayOf (t_date (last_or t0 sorted)) end in
      let dates := match tableStartDate, tableEndDate with
                   | Some s, Some e => enum_days (Z.to_nat (e - s + 1)) s
                   | _, _ => []
                   end in
      let '(byGuide, totals) := daily_aggregate guides useME t_date dates sorted in
      mkDailyFlow dates byGuide totals initialBalance
    end
  end.

Definition tx (g d : string) (ty : TransactionType) (a : Q) : Transaction :=
  mkTransaction g d ty a a.

Definition spec_guides : list Guide :=
  [mkGuide "1" "1-Ventas" false; mkGuide "13" "13-Traspasos" false].

(** The scenario of the spec, section 8. *)
Definition spec_records : list Transaction :=
  [tx "1" "2024-01-05" Income 100; tx "13" "2024-01-05" Income 50;
   tx "13" "2024-01-06" Expense (-50)].

Example spec_scenario_daily :
  map (fun '(d, tot) => (d, Qred (income tot), Qred (expense tot)))
    (df_dailyTotals (daily_flowData spec_records spec_guides None None false))
  = [("2024-01-05"%string, 150%Q, 0%Q); ("2024-01-06"%string, (-50)%Q, 0%Q)].
Proof. vm_compute. reflexivity. Qed.

Section MonthlyAggregate.
Variable guides : list Guide.
Variable useME : bool.
(** The bucket key of a transaction: [t.date.substring(0, 7)] in this view. *)
Variable bucketOf : Transaction -> string.

(** MonthlyFlowView lines 82-90: [dataByGuide], transfers included. *)
Definition monthly_dataByGuide (yearly : list Transaction) :=
  fold_left (fun byGuide t =>
    add_guide_cell (getGuideName guides (t_guide t)) (bucketOf t) (amountOf useME t) byGuide)
    yearly [].

(** MonthlyFlowView lines 99-116: the single pass over the transactions. *)
Definition monthly_step (totals : list (string * Totals)) (t : Transaction) :=
  let a := amountOf useME t in
  update_totals (bucketOf t) (fun tot =>
    if is_transfer t then mkTotals (income tot + a) (expense tot) (net tot + a)
    else match t_type t with
         | Income => mkTotals (income tot + a) (expense tot) (net tot + a)
         | Expense => mkTotals (income tot) (expense tot + a) (net tot + a)
         end) totals.

Definition monthly_totals (months : list string) (yearly : list Transaction) :=
  fold_left monthly_step yearly (init_totals months).
End MonthlyAggregate.

Record MonthlyFlow := mkMonthlyFlow {
  mf_months : list string;
  mf_dataByGuide : list (string * list (string * Q));
  mf_monthlyTotals : list (string * Totals);
  mf_initialBalance : Q
}.

(** [new Date(t.date).getFullYear()], read in UTC; [None] for NaN. *)
Definition yearOf (s : string) : option Z :=
  match dayOf s with
  | Some z => let '(y, _, _) := Dates.civil_from_days z in Some y
  | None => None
  end.

(** [`${selectedYear}-${month}`] for the twelve months. *)
Definition year_months (selectedYear : Z) : list string :=
  map (fun i => Dates.pad 4 selectedYear ++ "-" ++ Dates.pad 2 (Z.of_nat i))%string
    (seq 1 12).

Definition monthKey (t : Transaction) : string := substring 0 7 (t_date t).

(** MonthlyFlowView [flowData] (lines 67-119). *)
Definition monthly_flowData (transactions : list Transaction) (guides : list Guide)
    (useME : bool) (selectedYear : Z) : MonthlyFlow :=
  let months := year_months selectedYear in
  let initialBalance := sumQ (map (amountOf useME)
        (filter (fun t => match yearOf (t_date t) with
                          | Some y => y <? selectedYear | None => false end)
           transactions)) in
  let yearlyTransactions := filter (fun t =>
        negb (String.eqb (t_date t) "") &&
        match yearOf (t_date t) with Some y => y =? selectedYear | None => false end)
        transactions in
  mkMonthlyFlow months
    (monthly_dataByGuide guides useME monthKey yearlyTransactions)
    (monthly_totals useME monthKey months yearlyTransactions)
    initialBalance.

Example spec_scenario_monthly :
  map (fun '(d, tot) => (d, Qred (income tot), Qred (expense tot)))
    (firstn 1 (mf_monthlyTotals (monthly_flowData spec_records spec_guides false 2024)))
  = [("2024-01"%string, 100%Q, 0%Q)].
Proof. vm_compute. reflexivity. Qed.

(** ** Per-bucket closed forms of the aggregations *)

Definition teqv (a b : Totals) : Prop :=
  (income a == income b /\ expense a == expense b /\ net a == net b)%Q.

Definition oteqv (a b : option Totals) : Prop :=
  match a, b with
  | Some x, Some y => teqv x y
  | None, None => True
  | _, _ => False
  end.

Lemma oteqv_map : forall (r o : option Totals) (F G : Totals -> Totals),
  oteqv r (option_map F o) -> (forall tot, teqv (F tot) (G tot)) ->
  oteqv r (option_map G o).
Proof.
  intros r [tot|] F G H HFG; destruct r as [x|]; simpl in *; try tauto.
  destruct H as (H1 & H2 & H3). destruct (HFG tot) as (G1 & G2 & G3).
  unfold teqv. repeat split; eapply Qeq_trans; eassumption.
Qed.

Lemma get_update_totals : forall m k k' f,
  sget k (update_totals k' f m) =
  if string_dec k k' then option_map f (sget k m) else sget k m.
Proof.
  intros m k k' f. unfold update_totals, sget, sset.
  destruct (string_dec k k') as [->|Hne].
  - destruct (JsMap.get string_dec k' m) eqn:E; simpl.
    + apply JsMap.get_set_eq.
    + exact E.
  - destruct (JsMap.get string_dec k' m); [apply JsMap.get_set_neq; assumption|reflexivity].
Qed.

Lemma get_init_totals_gen : forall dates m k,
  sget k (fold_left (fun m d => sset d zeroTotals m) dates m) =
  if in_dec string_dec k dates then Some zeroTotals else sget k m.
Proof.
  induction dates as [|d r IH]; intros m k; simpl.
  - reflexivity.
  - rewrite IH. destruct (in_dec string_dec k r) as [Hin|Hnin].
    + destruct (string_dec d k); reflexivity.
    + destruct (string_dec d k) as [->|Hne].
      * apply JsMap.get_set_eq.
      * apply JsMap.get_set_neq. congruence.
Qed.

Lemma get_init_totals : forall dates k,
  sget k (init_totals dates) =
  if in_dec string_dec k dates then Some zeroTotals else None.
Proof. intros. unfold init_totals. rewrite get_init_totals_gen. reflexivity. Qed.

Section Sums.
Variable useME : bool.
Variable bucketOf : Transaction -> string.

(** Amounts of the bucket [k]: non-transfer items of type Income,
    non-transfer items of type Expense, and transfer legs. *)
Definition income_sum (k : string) (l : list Transaction) : Q :=
  fold_right (fun t acc =>
    if String.eqb (bucketOf t) k && negb (is_transfer t)
       && match t_type t with Income => true | Expense => false end
    then (amountOf useME t + acc)%Q else acc) 0%Q l.

Definition expense_sum (k : string) (l : list Transaction) : Q :=
  fold_right (fun t acc =>
    if String.eqb (bucketOf t) k && negb (is_transfer t)
       && match t_type t with Income => false | Expense => true end
    then (amountOf useME t + acc)%Q else acc) 0%Q l.

Definition transfer_sum (k : string) (l : list Transaction) : Q :=
  fold_right (fun t acc =>
    if String.eqb (bucketOf t) k && is_transfer t
    then (amountOf useME t + acc)%Q else acc) 0%Q l.
End Sums.

Ltac qsplit := unfold teqv; simpl; repeat split; ring.

Lemma teqv_trans : forall a b c, teqv a b -> teqv b c -> teqv a c.
Proof.
  intros a b c (H1 & H2 & H3) (G1 & G2 & G3).
  unfold teqv. repeat split; eapply Qeq_trans; eassumption.
Qed.

Lemma oteqv_some : forall r x y, oteqv r (Some x) -> teqv x y -> oteqv r (Some y).
Proof. intros [z|] x y H Hxy; simpl in *; [eapply teqv_trans; eassumption|exact H]. Qed.

Lemma daily_pass2_totals : forall guides useME bucketOf l bg T k,
  oteqv (sget k (snd (fold_left (daily_step guides useME bucketOf) l (bg, T))))
        (option_map (fun tot => mkTotals
           (income tot + income_sum useME bucketOf k l)
           (expense tot + expense_sum useME bucketOf k l)
           (net tot + income_sum useME bucketOf k l + expense_sum useME bucketOf k l))%Q
         (sget k T)).
Proof.
  intros guides useME bucketOf l. induction l as [|t r IH]; intros bg T k; simpl.
  - destruct (sget k T) as [tot|]; simpl; [qsplit|exact I].
  - destruct (is_transfer t) eqn:Htr; simpl.
    + eapply oteqv_map; [apply IH|]. intros tot. rewrite !andb_false_r. simpl. qsplit.
    + match goal with |- context [fold_left _ r (?bg', ?T')] =>
        specialize (IH bg' T' k) end.
      rewrite get_update_totals in IH.
      destruct (string_dec k (bucketOf t)) as [->|Hne].
      * rewrite String.eqb_refl. simpl.
        destruct (sget (bucketOf t) T) as [tot|]; simpl in *; [|exact IH].
        eapply oteqv_some; [exact IH|].
        destruct (t_type t); simpl; qsplit.
      * assert (Hb : String.eqb (bucketOf t) k = false)
          by (apply String.eqb_neq; congruence).
        rewrite Hb. simpl.
        eapply oteqv_map; [exact IH|]. intros tot. qsplit.
Qed.

Lemma get0_set : forall m k k' v,
  get0 k (sset k' v m) = if string_dec k k' then v else get0 k m.
Proof.
  intros m k k' v. unfold get0, sset, sget.
  destruct (string_dec k k') as [->|Hne].
  - rewrite JsMap.get_set_eq. reflexivity.
  - rewrite JsMap.get_set_neq by assumption. reflexivity.
Qed.

Lemma net_transfers_gen : forall useME bucketOf l m k,
  (get0 k (fold_left (fun m t =>
      if is_transfer t then sset (bucketOf t) (get0 (bucketOf t) m + amountOf useME t)%Q m
      else m) l m)
   == get0 k m + transfer_sum useME bucketOf k l)%Q
  /\ (NoDup (map fst m) -> NoDup (map fst (fold_left (fun m t =>
      if is_transfer t then sset (bucketOf t) (get0 (bucketOf t) m + amountOf useME t)%Q m
      else m) l m))).
Proof.
  intros useME bucketOf l. induction l as [|t r IH]; intros m k; simpl.
  - split; [ring|tauto].
  - destruct (is_transfer t) eqn:Htr.
    + destruct (IH (sset (bucketOf t) (get0 (bucketOf t) m + amountOf useME t)%Q m) k)
        as [IH1 IH2].
      split.
      * rewrite IH1, get0_set. rewrite andb_true_r.
        destruct (string_dec k (bucketOf t)) as [->|Hne].
        -- rewrite String.eqb_refl. ring.
        -- assert (Hb : String.eqb (bucketOf t) k = false)
             by (apply String.eqb_neq; congruence).
           rewrite Hb. reflexivity.
      * intros Hnd. apply IH2. apply JsMap.nodup_set. exact Hnd.
    + destruct (IH m k) as [IH1 IH2]. split; [|exact IH2].
      rewrite IH1. rewrite andb_false_r. reflexivity.
Qed.

Lemma net_transfers_value : forall useME bucketOf l k,
  (get0 k (net_transfers useME bucketOf l) == transfer_sum useME bucketOf k l)%Q.
Proof.
  intros. unfold net_transfers. rewrite (proj1 (net_transfers_gen _ _ _ _ _)).
  unfold get0. simpl. ring.
Qed.

Lemma net_transfers_nodup : forall useME bucketOf l,
  NoDup (map fst (net_transfers useME bucketOf l)).
Proof.
  intros. unfold net_transfers. apply (proj2 (net_transfers_gen _ _ _ [] "")).
  constructor.
Qed.

Lemma get0_notin : forall m k, ~ In k (map fst m) -> get0 k m = 0%Q.
Proof.
  intros m k H. unfold get0, sget. apply (JsMap.get_none_iff string_dec) in H. rewrite H. reflexivity.
Qed.

Lemma pass3_totals : forall name netT bg T k,
  NoDup (map fst netT) ->
  oteqv (sget k (snd (fold_left (net_transfer_step name) netT (bg, T))))
        (option_map (fun tot => mkTotals (income tot + get0 k netT)
                                         (expense tot) (net tot + get0 k netT))%Q
           (sget k T)).
Proof.
  intros name netT. induction netT as [|[d x] r IH]; intros bg T k Hnd; simpl.
  - unfold get0; simpl. destruct (sget k T) as [tot|]; simpl; [qsplit|exact I].
  - inversion Hnd as [|? ? Hnin Hnd']; subst.
    specialize (IH (set_guide_cell name d x bg)
      (update_totals d (fun tot => mkTotals (income tot + x) (expense tot) (net tot + x))%Q T)
      k Hnd').
    rewrite get_update_totals in IH.
    unfold get0 at 1 2; simpl.
    destruct (string_dec k d) as [->|Hne].
    + rewrite (get0_notin r d Hnin) in IH.
      destruct (sget d T) as [tot|]; simpl in *; [|exact IH].
      eapply oteqv_some; [exact IH|]. qsplit.
    + exact IH.
Qed.

Lemma add_net_transfers_totals : forall guides netT bg T k,
  NoDup (map fst netT) ->
  oteqv (sget k (snd (add_net_transfers guides netT (bg, T))))
        (option_map (fun tot => mkTotals (income tot + get0 k netT)
                                         (expense tot) (net tot + get0 k netT))%Q
           (sget k T)).
Proof.
  intros guides netT bg T k Hnd. destruct netT as [|e r].
  - unfold get0; simpl. destruct (sget k T) as [tot|]; simpl; [qsplit|exact I].
  - unfold add_net_transfers. apply pass3_totals. exact Hnd.
Qed.

(** The totals of the daily aggregation, bucket by bucket. *)
Lemma daily_totals_closed : forall guides useME bucketOf dates l k,
  oteqv (sget k (snd (daily_aggregate guides useME bucketOf dates l)))
    (if in_dec string_dec k dates then
       Some (mkTotals (income_sum useME bucketOf k l + transfer_sum useME bucketOf k l)
                      (expense_sum useME bucketOf k l)
                      (income_sum useME bucketOf k l + expense_sum useME bucketOf k l
                       + transfer_sum useME bucketOf k l))%Q
     else None).
Proof.
  intros guides useME bucketOf dates l k. unfold daily_aggregate.
  pose proof (daily_pass2_totals guides useME bucketOf l [] (init_totals dates) k) as H2.
  destruct (fold_left (daily_step guides useME bucketOf) l ([], init_totals dates))
    as [bg T] eqn:HF.
  pose proof (add_net_transfers_totals guides (net_transfers useME bucketOf l) bg T k
                (net_transfers_nodup _ _ _)) as H3.
  pose proof (net_transfers_value useME bucketOf l k) as HX.
  cbn [snd] in H2. rewrite get_init_totals in H2.
  destruct (in_dec string_dec k dates); cbn [option_map oteqv] in *.
  - destruct (sget k T) as [tot|]; [|contradiction].
    destruct (sget k (snd (add_net_transfers guides (net_transfers useME bucketOf l) (bg, T))))
      as [res|]; [|contradiction].
    destruct H2 as (A1 & A2 & A3). destruct H3 as (B1 & B2 & B3).
    unfold teqv in *; cbn [income expense net zeroTotals] in *. rewrite HX in B1, B3.
    rewrite A1 in B1. rewrite A2 in B2. rewrite A3 in B3.
    repeat split; cbn [income expense net]; [rewrite B1|rewrite B2|rewrite B3]; ring.
  - destruct (sget k T); [contradiction|]. exact H3.
Qed.

Lemma monthly_totals_gen : forall useME bucketOf l T k,
  oteqv (sget k (fold_left (monthly_step useME bucketOf) l T))
        (option_map (fun tot => mkTotals
           (income tot + income_sum useME bucketOf k l + transfer_sum useME bucketOf k l)
           (expense tot + expense_sum useME bucketOf k l)
           (net tot + income_sum useME bucketOf k l + expense_sum useME bucketOf k l
            + transfer_sum useME bucketOf k l))%Q
         (sget k T)).
Proof.
  intros useME bucketOf l. induction l as [|t r IH]; intros T k; simpl.
  - destruct (sget k T) as [tot|]; simpl; [qsplit|exact I].
  - specialize (IH (monthly_step useME bucketOf T t) k).
    unfold monthly_step at 3 in IH. rewrite get_update_totals in IH.
    destruct (string_dec k (bucketOf t)) as [->|Hne].
    + rewrite String.eqb_refl. simpl.
      destruct (sget (bucketOf t) T) as [tot|]; simpl in *; [|exact IH].
      eapply oteqv_some; [exact IH|].
      destruct (is_transfer t); destruct (t_type t); simpl; qsplit.
    + assert (Hb : String.eqb (bucketOf t) k = false)
        by (apply String.eqb_neq; congruence).
      rewrite Hb. simpl.
      eapply oteqv_map; [exact IH|]. intros tot. qsplit.
Qed.

(** The totals of the monthly aggregation, bucket by bucket. *)
Lemma monthly_totals_closed : forall useME bucketOf months l k,
  oteqv (sget k (monthly_totals useME bucketOf months l))
    (if in_dec string_dec k months then
       Some (mkTotals (income_sum useME bucketOf k l + transfer_sum useME bucketOf k l)
                      (expense_sum useME bucketOf k l)
                      (income_sum useME bucketOf k l + expense_sum useME bucketOf k l
                       + transfer_sum useME bucketOf k l))%Q
     else None).
Proof.
  intros. unfold monthly_totals.
  pose proof (monthly_totals_gen useME bucketOf l (init_totals months) k) as H.
  rewrite get_init_totals in H.
  destruct (in_dec string_dec k months); simpl in *; [|exact H].
  eapply oteqv_some; [exact H|]. qsplit.
Qed.

Lemma teqv_sym : forall a b, teqv a b -> teqv b a.
Proof. intros a b (H1 & H2 & H3). unfold teqv. repeat split; symmetry; assumption. Qed.

Lemma oteqv_sym_trans : forall a b c, oteqv a c -> oteqv b c -> oteqv a b.
Proof.
  intros [a|] [b|] [c|]; simpl; try tauto.
  intros Hac Hbc. eapply teqv_trans; [exact Hac|apply teqv_sym; exact Hbc].
Qed.

(** DailyFlowView lines 353-362: the rows of the expense section, before
    [sortGuidesByName] orders them. *)
Definition expense_section (guides : list Guide)
    (byGuide : list (string * list (string * Q))) : list (string * list (string * Q)) :=
  filter (fun '(guideName, data) =>
    if String.eqb guideName (getGuideName guides transferGuideId) then false
    else existsb (fun '(_, v) => negb (Qle_bool 0 v)) data) byGuide.

(** DailyFlowView lines 312-321: the rows of the income section. *)
Definition income_section (guides : list Guide)
    (byGuide : list (string * list (string * Q))) : list (string * list (string * Q)) :=
  filter (fun '(guideName, data) =>
    if String.eqb guideName (getGuideName guides transferGuideId)
    then existsb (fun '(_, v) => negb (Qeq_bool v 0)) data
    else existsb (fun '(_, v) => negb (Qle_bool v 0)) data) byGuide.

Lemma daily_totals_in : forall guides useME bucketOf dates l k,
  In k dates ->
  exists tot, sget k (snd (daily_aggregate guides useME bucketOf dates l)) = Some tot /\
    (income tot == income_sum useME bucketOf k l + transfer_sum useME bucketOf k l)%Q /\
    (expense tot == expense_sum useME bucketOf k l)%Q /\
    (net tot == income_sum useME bucketOf k l + expense_sum useME bucketOf k l
                + transfer_sum useME bucketOf k l)%Q.
Proof.
  intros guides useME bucketOf dates l k Hin.
  pose proof (daily_totals_closed guides useME bucketOf dates l k) as H.
  destruct (in_dec string_dec k dates); [|contradiction].
  destruct (sget k (snd (daily_aggregate guides useME bucketOf dates l))) as [tot|];
    [|contradiction].
  exists tot. destruct H as (H1 & H2 & H3). cbn [income expense net] in *. auto.
Qed.

Lemma monthly_totals_in : forall useME bucketOf months l k,
  In k months ->
  exists tot, sget k (monthly_totals useME bucketOf months l) = Some tot /\
    (income tot == income_sum useME bucketOf k l + transfer_sum useME bucketOf k l)%Q /\
    (expense tot == expense_sum useME bucketOf k l)%Q /\
    (net tot == income_sum useME bucketOf k l + expense_sum useME bucketOf k l
                + transfer_sum useME bucketOf k l)%Q.
Proof.
  intros useME bucketOf months l k Hin.
  pose proof (monthly_totals_closed useME bucketOf months l k) as H.
  destruct (in_dec string_dec k months); [|contradiction].
  destruct (sget k (monthly_totals useME bucketOf months l)) as [tot|]; [|contradiction].
  exists tot. destruct H as (H1 & H2 & H3). cbn [income expense net] in *. auto.
Qed.

(** ** Claims *)

(** C2. In the daily aggregation, for every bucket [k] of the table, the
    transfer legs (category "13") of the bucket reach the totals only as
    their net [transfer_sum], added to the income total; the expense total
    is the sum of the non-transfer Expense items alone; a bucket whose
    transfer net is 0 gets nothing from its transfers in either total; and
    no row of the expense section carries the transfer category's name. *)
Theorem C2_transfer_net_in_income : forall guides useME bucketOf dates l k,
  In k dates ->
  let '(byGuide, totals) := daily_aggregate guides useME bucketOf dates l in
  (exists tot, sget k totals = Some tot /\
     (income tot == income_sum useME bucketOf k l + transfer_sum useME bucketOf k l)%Q /\
     (expense tot == expense_sum useME bucketOf k l)%Q /\
     ((transfer_sum useME bucketOf k l == 0)%Q ->
        (income tot == income_sum useME bucketOf k l)%Q /\
        (expense tot == expense_sum useME bucketOf k l)%Q)) /\
  (forall row, In row (expense_section guides byGuide) ->
     fst row <> getGuideName guides transferGuideId).
Proof.
  intros guides useME bucketOf dates l k Hin.
  destruct (daily_totals_in guides useME bucketOf dates l k Hin) as (tot & Hg & H1 & H2 & _).
  destruct (daily_aggregate guides useME bucketOf dates l) as [byGuide totals] eqn:E.
  cbn [snd] in Hg. split.
  - exists tot. split; [exact Hg|]. split; [exact H1|]. split; [exact H2|].
    intros H0. split; [|exact H2]. rewrite H1, H0. ring.
  - intros [name data] Hrow. unfold expense_section in Hrow.
    apply filter_In in Hrow. destruct Hrow as [_ Hf]. simpl.
    destruct (String.eqb_spec name (getGuideName guides transferGuideId)); [discriminate|].
    assumption.
Qed.

Lemma C2_witness :
  In "2024-01-06"%string ["2024-01-05"; "2024-01-06"]%string /\
  let '(byGuide, totals) :=
    daily_aggregate spec_guides false t_date ["2024-01-05"; "2024-01-06"]%string
      spec_records in
  (exists tot, sget "2024-01-06"%string totals = Some tot /\
     (income tot == income_sum false t_date "2024-01-06" spec_records
                    + transfer_sum false t_date "2024-01-06" spec_records)%Q /\
     (expense tot == expense_sum false t_date "2024-01-06" spec_records)%Q /\
     ((transfer_sum false t_date "2024-01-06" spec_records == 0)%Q ->
        (income tot == income_sum false t_date "2024-01-06" spec_records)%Q /\
        (expense tot == expense_sum false t_date "2024-01-06" spec_records)%Q)) /\
  (forall row, In row (expense_section spec_guides byGuide) ->
     fst row <> getGuideName spec_guides transferGuideId).
Proof.
  split; [simpl; tauto|].
  apply (C2_transfer_net_in_income spec_guides false t_date
           ["2024-01-05"; "2024-01-06"]%string spec_records "2024-01-06"%string).
  simpl; tauto.
Defined.

(** C10. For every bucketing, bucket list, transaction list and bucket, the
    two-phase transfer scheme of DailyFlowView and the single-pass scheme of
    MonthlyFlowView give the same income, expense and net totals (and the
    same set of buckets). *)
Theorem C10_daily_monthly_same_totals : forall guides useME bucketOf buckets l k,
  oteqv (sget k (snd (daily_aggregate guides useME bucketOf buckets l)))
        (sget k (monthly_totals useME bucketOf buckets l)).
Proof.
  intros. eapply oteqv_sym_trans.
  - apply daily_totals_closed.
  - apply monthly_totals_closed.
Qed.






(** ** Column sums of [dataByGuide] *)

(** The sum, over the category rows of [dataByGuide], of their value in
    bucket [k] (an absent cell counts 0). *)
Definition colsum (k : string) (byGuide : list (string * list (string * Q))) : Q :=
  fold_right (fun e acc => (get0 k (snd e) + acc)%Q) 0%Q byGuide.

Definition row_of (name : string) (byGuide : list (string * list (string * Q))) :=
  match sget name byGuide with Some d => d | None => [] end.

Lemma sget_sset_eq : forall {V} (m : list (string * V)) k v, sget k (sset k v m) = Some v.
Proof. intros. apply JsMap.get_set_eq. Qed.

Lemma colsum_set : forall byGuide k name v,
  (colsum k (sset name v byGuide)
   == colsum k byGuide - get0 k (row_of name byGuide) + get0 k v)%Q.
Proof.
  induction byGuide as [|[n x] r IH]; intros k name v; unfold row_of, sget, sset in *; simpl.
  - unfold get0 at 2. simpl. ring.
  - destruct (string_dec name n) as [->|Hne]; simpl.
    + ring.
    + rewrite IH. ring.
Qed.

Lemma colsum_add_guide_cell : forall byGuide k name k' a,
  (colsum k (add_guide_cell name k' a byGuide)
   == colsum k byGuide + (if string_dec k k' then a else 0))%Q.
Proof.
  intros. unfold add_guide_cell. rewrite colsum_set. fold (row_of name byGuide).
  rewrite get0_set. destruct (string_dec k k') as [->|Hne]; ring.
Qed.

Lemma colsum_monthly_gen : forall guides useME bucketOf l byGuide k,
  (colsum k (fold_left (fun byGuide t =>
      add_guide_cell (getGuideName guides (t_guide t)) (bucketOf t) (amountOf useME t) byGuide)
      l byGuide)
   == colsum k byGuide + income_sum useME bucketOf k l + expense_sum useME bucketOf k l
      + transfer_sum useME bucketOf k l)%Q.
Proof.
  intros guides useME bucketOf l. induction l as [|t r IH]; intros byGuide k; simpl.
  - ring.
  - rewrite IH, colsum_add_guide_cell.
    destruct (string_dec k (bucketOf t)) as [->|Hne].
    + rewrite String.eqb_refl. simpl.
      destruct (is_transfer t); destruct (t_type t); simpl; ring.
    + assert (Hb : String.eqb (bucketOf t) k = false)
        by (apply String.eqb_neq; congruence).
      rewrite Hb. simpl. ring.
Qed.

Lemma colsum_daily_pass2 : forall guides useME bucketOf l bg T k,
  (colsum k (fst (fold_left (daily_step guides useME bucketOf) l (bg, T)))
   == colsum k bg + income_sum useME bucketOf k l + expense_sum useME bucketOf k l)%Q.
Proof.
  intros guides useME bucketOf l. induction l as [|t r IH]; intros bg T k; simpl.
  - ring.
  - destruct (is_transfer t) eqn:Htr; simpl.
    + rewrite IH. rewrite !andb_false_r. simpl. ring.
    + rewrite IH, colsum_add_guide_cell.
      destruct (string_dec k (bucketOf t)) as [->|Hne].
      * rewrite String.eqb_refl. simpl. destruct (t_type t); simpl; ring.
      * assert (Hb : String.eqb (bucketOf t) k = false)
          by (apply String.eqb_neq; congruence).
        rewrite Hb. simpl. ring.
Qed.

Lemma keys_daily_pass2 : forall guides useME bucketOf l bg T n,
  In n (map fst (fst (fold_left (daily_step guides useME bucketOf) l (bg, T)))) ->
  In n (map fst bg) \/
  exists t, In t l /\ is_transfer t = false /\ getGuideName guides (t_guide t) = n.
Proof.
  intros guides useME bucketOf l. induction l as [|t r IH]; intros bg T n Hn; simpl in *.
  - left; exact Hn.
  - destruct (is_transfer t) eqn:Htr; simpl in Hn.
    + destruct (IH _ _ _ Hn) as [H|(t' & H1 & H2 & H3)]; [left; exact H|].
      right. exists t'. auto.
    + destruct (IH _ _ _ Hn) as [H|(t' & H1 & H2 & H3)].
      * unfold add_guide_cell, sset in H. rewrite JsMap.in_keys_set in H.
        destruct H as [H|H]; [|left; exact H].
        right. exists t. auto.
      * right. exists t'. auto.
Qed.

Lemma colsum_pass3 : forall name netT bg T k,
  NoDup (map fst netT) ->
  (forall k', In k' (map fst netT) -> get0 k' (row_of name bg) = 0%Q) ->
  (colsum k (fst (fold_left (net_transfer_step name) netT (bg, T)))
   == colsum k bg + get0 k netT)%Q.
Proof.
  intros name netT. induction netT as [|[d x] r IH]; intros bg T k Hnd Hz; simpl.
  - replace (get0 k []) with 0%Q by reflexivity. ring.
  - inversion Hnd as [|? ? Hnin Hnd']; subst.
    rewrite IH; [|exact Hnd'|].
    + unfold set_guide_cell. rewrite colsum_set. fold (row_of name bg).
      rewrite get0_set.
      unfold get0 at 4; simpl.
      destruct (string_dec k d) as [->|Hne].
      * rewrite (Hz d (or_introl eq_refl)), (get0_notin r d Hnin). ring.
      * fold (get0 k r). ring.
    + intros k' Hk'. unfold set_guide_cell, row_of. rewrite sget_sset_eq.
      rewrite get0_set. destruct (string_dec k' d) as [->|Hne]; [contradiction|].
      apply Hz. right. exact Hk'.
Qed.

Lemma colsum_daily : forall guides useME bucketOf dates l k,
  (forall t, In t l -> is_transfer t = false ->
     getGuideName guides (t_guide t) <> getGuideName guides transferGuideId) ->
  (colsum k (fst (daily_aggregate guides useME bucketOf dates l))
   == income_sum useME bucketOf k l + expense_sum useME bucketOf k l
      + transfer_sum useME bucketOf k l)%Q.
Proof.
  intros guides useME bucketOf dates l k Hname. unfold daily_aggregate.
  pose proof (colsum_daily_pass2 guides useME bucketOf l [] (init_totals dates) k) as H2.
  pose proof (keys_daily_pass2 guides useME bucketOf l [] (init_totals dates)) as HK.
  destruct (fold_left (daily_step guides useME bucketOf) l ([], init_totals dates))
    as [bg T] eqn:HF.
  cbn [fst] in H2, HK.
  rewrite <- (net_transfers_value useME bucketOf l k).
  pose proof (net_transfers_nodup useME bucketOf l) as Hnd.
  destruct (net_transfers useME bucketOf l) as [|e r] eqn:HN.
  - simpl. rewrite H2. replace (get0 k []) with 0%Q by reflexivity. simpl. ring.
  - unfold add_net_transfers.
    set (name := getGuideName guides transferGuideId).
    assert (Hnone : sget name bg = None).
    { apply (JsMap.get_none_iff string_dec). intros Hin.
      destruct (HK name Hin) as [[]|(t & Ht & Htr & Hn)].
      exact (Hname t Ht Htr Hn). }
    rewrite Hnone. rewrite colsum_pass3; [|exact Hnd|].
    + rewrite colsum_set. unfold row_of. rewrite Hnone, H2.
      replace (get0 k []) with 0%Q by reflexivity. simpl. ring.
    + intros k' _. unfold row_of. rewrite sget_sset_eq. reflexivity.
Qed.

(** C6 (amended). For every bucket [k] of the table, income + expense ==
    net in the daily and in the monthly aggregation. The net equals the
    sum over the category rows of [dataByGuide] of their value in [k] in
    the monthly aggregation always, and in the daily aggregation whenever
    no non-transfer item shows under the display name of the transfer
    category (the netted transfer cell is written over that row's cell). *)
Theorem C6_net_conservation : forall guides useME bucketOf buckets l k,
  In k buckets ->
  (exists tot, sget k (snd (daily_aggregate guides useME bucketOf buckets l)) = Some tot /\
     (income tot + expense tot == net tot)%Q /\
     ((forall t, In t l -> is_transfer t = false ->
         getGuideName guides (t_guide t) <> getGuideName guides transferGuideId) ->
      (net tot == colsum k (fst (daily_aggregate guides useME bucketOf buckets l)))%Q)) /\
  (exists tot, sget k (monthly_totals useME bucketOf buckets l) = Some tot /\
     (income tot + expense tot == net tot)%Q /\
     (net tot == colsum k (monthly_dataByGuide guides useME bucketOf l))%Q).
Proof.
  intros guides useME bucketOf buckets l k Hin. split.
  - destruct (daily_totals_in guides useME bucketOf buckets l k Hin)
      as (tot & Hg & H1 & H2 & H3).
    exists tot. split; [exact Hg|]. split.
    + rewrite H1, H2, H3. ring.
    + intros Hname. rewrite H3, colsum_daily by exact Hname. reflexivity.
  - destruct (monthly_totals_in useME bucketOf buckets l k Hin)
      as (tot & Hg & H1 & H2 & H3).
    exists tot. split; [exact Hg|]. split.
    + rewrite H1, H2, H3. ring.
    + unfold monthly_dataByGuide. rewrite colsum_monthly_gen, H3.
      replace (colsum k []) with 0%Q by reflexivity. ring.
Qed.

Lemma C6_witness :
  (exists tot, sget "2024-01-05"%string
       (snd (daily_aggregate spec_guides false t_date ["2024-01-05"%string] spec_records))
       = Some tot /\
     (income tot + expense tot == net tot)%Q /\
     ((forall t, In t spec_records -> is_transfer t = false ->
         getGuideName spec_guides (t_guide t) <> getGuideName spec_guides transferGuideId) ->
      (net tot == colsum "2024-01-05"
         (fst (daily_aggregate spec_guides false t_date ["2024-01-05"%string]
                 spec_records)))%Q)) /\
  (exists tot, sget "2024-01-05"%string
       (monthly_totals false t_date ["2024-01-05"%string] spec_records) = Some tot /\
     (income tot + expense tot == net tot)%Q /\
     (net tot == colsum "2024-01-05"
        (monthly_dataByGuide spec_guides false t_date spec_records))%Q).
Proof.
  apply (C6_net_conservation spec_guides false t_date ["2024-01-05"%string]
           spec_records "2024-01-05"%string).
  simpl; tauto.
Defined.

(** A catalog without the transfer category: guide "13" and the deleted
    guide "7" both display as "Sin Categoría". *)
Definition cex_guides : list Guide := [mkGuide "1" "1-Ventas" false].

Definition cex_records : list Transaction :=
  [tx "7" "2024-01-05" Expense (-30); tx "13" "2024-01-05" Income 50].

(** C6 fails as stated: the daily bucket 2024-01-05 has net 20, while the
    category rows hold 50 (the transfer net overwrote the -30 cell). *)
Lemma C6_counterexample :
  ~ (forall d tot,
       sget d (df_dailyTotals (daily_flowData cex_records cex_guides None None false))
       = Some tot ->
       (income tot + expense tot == net tot)%Q /\
       (net tot == colsum d (df_dataByGuide
                               (daily_flowData cex_records cex_guides None None false)))%Q).
Proof.
  intros H.
  destruct (H "2024-01-05"%string {| income := 50; expense := -30; net := 20 |})
    as [_ Hn].
  - vm_compute. reflexivity.
  - vm_compute in Hn. discriminate.
Qed.

(** ** Running balance (DailyFlowView lines 236, 299-306, 378-385;
    the same loops build the CSV rows, lines 174-181 and 222-229) *)

(** [flowData.dailyTotals.get(date)?.net || 0] *)
Definition netOf (totals : list (string * Totals)) (d : string) : Q :=
  match sget d totals with Some tot => net tot | None => 0%Q end.

(** "Saldo Inicial" row: [balanceToShow = runningBalance; runningBalance += dailyNet] *)
Fixpoint opening_row (totals : list (string * Totals)) (runningBalance : Q)
    (dates : list string) : list Q :=
  match dates with
  | [] => []
  | d :: r => runningBalance :: opening_row totals (runningBalance + netOf totals d)%Q r
  end.

(** "Saldo Final" row: [finalRunningBalance += dailyNet; push(finalRunningBalance)] *)
Fixpoint closing_row (totals : list (string * Totals)) (finalRunningBalance : Q)
    (dates : list string) : list Q :=
  match dates with
  | [] => []
  | d :: r =>
      let b := (finalRunningBalance + netOf totals d)%Q in
      b :: closing_row totals b r
  end.

Lemma rows_length : forall totals dates rb,
  length (opening_row totals rb dates) = length dates /\
  length (closing_row totals rb dates) = length dates.
Proof.
  intros totals dates. induction dates as [|d r IH]; intros rb; simpl; [auto|].
  destruct (IH (rb + netOf totals d)%Q). auto.
Qed.

Lemma rows_nth : forall totals dates rb i,
  (i < length dates)%nat ->
  nth i (closing_row totals rb dates) 0%Q
  = (nth i (opening_row totals rb dates) 0 + netOf totals (nth i dates ""%string))%Q /\
  ((S i < length dates)%nat ->
   nth (S i) (opening_row totals rb dates) 0%Q = nth i (closing_row totals rb dates) 0%Q).
Proof.
  intros totals dates. induction dates as [|d r IH]; intros rb i Hi; simpl in *; [lia|].
  destruct i as [|i].
  - split; [reflexivity|]. intros Hs. destruct r as [|d' r']; simpl in *; [lia|reflexivity].
  - destruct (IH (rb + netOf totals d)%Q i ltac:(lia)) as [H1 H2].
    split; [exact H1|]. intros Hs. apply H2. lia.
Qed.

Lemma closing_last : forall totals dates rb,
  dates <> [] ->
  (last (closing_row totals rb dates) 0
   == rb + fold_right (fun d acc => netOf totals d + acc) 0 dates)%Q.
Proof.
  intros totals dates. induction dates as [|d r IH]; intros rb Hne; [congruence|].
  destruct r as [|d' r'].
  - simpl. ring.
  - change (last (closing_row totals rb (d :: d' :: r')) 0%Q)
      with (last (closing_row totals (rb + netOf totals d)%Q (d' :: r')) 0%Q).
    rewrite IH by discriminate. simpl. ring.
Qed.

(** C5. For every initial balance, bucket sequence and totals: the two rows
    have one cell per bucket; the first opening balance is the initial
    balance; each closing balance is its opening balance plus the bucket's
    net; each opening balance after the first is the previous closing
    balance; the last closing balance is the initial balance plus the sum
    of the nets of all buckets. *)
Theorem C5_running_balance : forall totals initialBalance dates,
  length (opening_row totals initialBalance dates) = length dates /\
  length (closing_row totals initialBalance dates) = length dates /\
  (forall d r, dates = d :: r -> nth 0 (opening_row totals initialBalance dates) 0%Q
                                 = initialBalance) /\
  (forall i, (i < length dates)%nat ->
     nth i (closing_row totals initialBalance dates) 0%Q
     = (nth i (opening_row totals initialBalance dates) 0
        + netOf totals (nth i dates ""%string))%Q) /\
  (forall i, (S i < length dates)%nat ->
     nth (S i) (opening_row totals initialBalance dates) 0%Q
     = nth i (closing_row totals initialBalance dates) 0%Q) /\
  (dates <> [] ->
   (last (closing_row totals initialBalance dates) 0
    == initialBalance + fold_right (fun d acc => netOf totals d + acc) 0 dates)%Q).
Proof.
  intros totals initialBalance dates.
  destruct (rows_length totals dates initialBalance) as [L1 L2].
  split; [exact L1|]. split; [exact L2|]. split.
  - intros d r ->. reflexivity.
  - split; [intros i Hi; apply (rows_nth totals dates initialBalance i Hi)|].
    split.
    + intros i Hi. apply (rows_nth totals dates initialBalance i); [lia|exact Hi].
    + apply closing_last.
Qed.

(** ** Week buckets *)

Lemma week_start_day_spec : forall date,
  Dates.utc_day (week_start_day date) = 6 /\
  date - 6 <= week_start_day date <= date.
Proof.
  intros date. unfold week_start_day, Dates.utc_day.
  split; [|Z.div_mod_to_equations; lia].
  set (u := (date + 4) mod 7).
  assert (Hu : 0 <= u < 7) by (apply Z.mod_pos_bound; lia).
  assert (Hd : date + 4 = 7 * ((date + 4) / 7) + u) by (apply Z.div_mod; lia).
  assert (Hc : u = 0 \/ u = 1 \/ u = 2 \/ u = 3 \/ u = 4 \/ u = 5 \/ u = 6) by lia.
  replace (date - (u + 1) mod 7 + 4) with (7 * ((date + 4) / 7) + (u - (u + 1) mod 7))
    by lia.
  rewrite Z.add_comm, Z.mul_comm, Z.mod_add by lia.
  destruct Hc as [-> | [-> | [-> | [-> | [-> | [-> | ->]]]]]]; reflexivity.
Qed.

(** C9. For every date string that parses, [getWeekStartDate] returns the
    ISO date of day number [week_start_day date], which is a Saturday
    ([getUTCDay] 6) at most 6 days before the date (the Saturday-to-Friday
    window); the two dates of the spec's scenario map to "2024-01-06". *)
Theorem C9_week_bucket_saturday : forall today s date,
  Dates.parse s = Some date ->
  getWeekStartDate today s = Dates.iso (week_start_day date) /\
  Dates.utc_day (week_start_day date) = 6 /\
  date - 6 <= week_start_day date <= date /\
  getWeekStartDate today "2024-01-06" = "2024-01-06"%string /\
  getWeekStartDate today "2024-01-12" = "2024-01-06"%string.
Proof.
  intros today s date H. unfold getWeekStartDate at 1. rewrite H.
  destruct (week_start_day_spec date) as [H1 H2].
  split; [reflexivity|]. split; [exact H1|]. split; [exact H2|].
  split; reflexivity.
Qed.

Lemma C9_witness :
  Dates.parse "2024-01-12" = Some 19734 /\
  getWeekStartDate 0 "2024-01-12" = Dates.iso (week_start_day 19734) /\
  Dates.utc_day (week_start_day 19734) = 6 /\
  19734 - 6 <= week_start_day 19734 <= 19734 /\
  getWeekStartDate 0 "2024-01-06" = "2024-01-06"%string /\
  getWeekStartDate 0 "2024-01-12" = "2024-01-06"%string.
Proof.
  split; [reflexivity|].
  apply (C9_week_bucket_saturday 0 "2024-01-12" 19734). reflexivity.
Defined.

(** ** Bucket range of the daily view *)

Lemma enum_days_spec : forall n d,
  length (enum_days n d) = n /\
  (forall i, (i < n)%nat -> nth i (enum_days n d) ""%string = Dates.iso (d + Z.of_nat i)).
Proof.
  induction n as [|n IH]; intros d; simpl.
  - split; [reflexivity|intros; lia].
  - destruct (IH (d + 1)) as [H1 H2]. split; [congruence|].
    intros [|i] Hi; simpl.
    + f_equal. lia.
    + rewrite H2 by lia. f_equal. lia.
Qed.

Lemma parse_not_empty : forall s z, Dates.parse s = Some z -> String.eqb s "" = false.
Proof. intros [|c r] z H; [discriminate|reflexivity]. Qed.

Lemma filter_not_nil : forall {A} (f : A -> bool) l x,
  In x l -> f x = true -> filter f l <> [].
Proof.
  intros A f l x Hin Hf Hnil. assert (Hx : In x (filter f l)) by (apply filter_In; auto).
  rewrite Hnil in Hx. exact Hx.
Qed.

Lemma daily_dates_range : forall transactions guides useME s e sd ed t td,
  Dates.parse s = Some sd -> Dates.parse e = Some ed -> In t transactions ->
  Dates.parse (t_date t) = Some td -> sd <= td <= ed ->
  df_dates (daily_flowData transactions guides (Some s) (Some e) useME)
  = enum_days (Z.to_nat (ed - sd + 1)) sd.
Proof.
  intros transactions guides useME s e sd ed t td Hs He Ht Htd Hr.
  unfold daily_flowData, filter_value.
  rewrite (parse_not_empty s sd Hs), (parse_not_empty e ed He).
  unfold dayOf. rewrite Hs, He. cbv zeta.
  match goal with |- context [match filter ?f transactions with _ => _ end] =>
    assert (Hv : In t (filter f transactions))
      by (apply filter_In; split; [exact Ht|];
          rewrite (parse_not_empty _ td Htd), Htd; reflexivity);
    destruct (filter f transactions) as [|v0 vs] eqn:HV; [contradiction|]
  end.
  match goal with |- context [match filter ?f (v0 :: vs) with _ => _ end] =>
    assert (Hf : In t (filter f (v0 :: vs)))
      by (apply filter_In; split; [exact Hv|];
          unfold dayOf, date_lt; rewrite Htd;
          destruct (Z.ltb_spec td sd); [lia|];
          destruct (Z.ltb_spec ed td); [lia|]; reflexivity);
    destruct (filter f (v0 :: vs)) as [|w0 ws] eqn:HW; [contradiction|]
  end.
  match goal with |- context [daily_aggregate ?g ?u ?b ?d ?l] =>
    destruct (daily_aggregate g u b d l) end.
  reflexivity.
Qed.

(** C8 (amended). With an empty record set the daily view returns an empty
    bucket sequence, no totals and initial balance 0, whatever the
    start/end filter. *)
Theorem C8_empty_records_empty_table : forall guides useME start stop,
  daily_flowData [] guides start stop useME = mkDailyFlow [] [] [] 0%Q.
Proof. intros guides useME start stop. reflexivity. Qed.

(** C8 fails as stated: no record and the filter 2024-01-01..2024-01-03
    give no bucket at all. *)
Lemma C8_counterexample :
  df_dates (daily_flowData [] spec_guides (Some "2024-01-01"%string)
              (Some "2024-01-03"%string) false)
  <> ["2024-01-01"; "2024-01-02"; "2024-01-03"]%string.
Proof. vm_compute. discriminate. Qed.

Example daily_range_example :
  df_dates (daily_flowData spec_records spec_guides (Some "2024-01-04"%string)
              (Some "2024-01-07"%string) false)
  = ["2024-01-04"; "2024-01-05"; "2024-01-06"; "2024-01-07"]%string.
Proof. vm_compute. reflexivity. Qed.

(** ** ForecastedMonthlyFlowView (src/components/views/ForecastedMonthlyFlowView.tsx) *)

Record Cell := mkCell { c_amount : Q; c_isForecast : bool }.

Record VatDetailData := mkVatDetail {
  vd_incomes : list (string * Q);
  vd_expenses : list (string * Q);
  vd_totalIncome : Q;
  vd_totalExpense : Q;
  vd_ivaCobrado : Q;
  vd_ivaAcreditable : Q;
  vd_netVat : Q
}.

(** [\w] of a JavaScript regular expression without the [u] flag. *)
Definition is_word_char (c : ascii) : bool :=
  let n := nat_of_ascii c in
  (((48 <=? n) && (n <=? 57)) || ((65 <=? n) && (n <=? 90))
   || ((97 <=? n) && (n <=? 122)) || (n =? 95))%nat.

Definition is_digit_char (c : ascii) : bool :=
  let n := nat_of_ascii c in ((48 <=? n) && (n <=? 57))%nat.

(** Search for [/\bP\d{4}\b/]; [prevWord] tells whether the previous
    character is a word character. *)
Fixpoint scanP4 (prevWord : bool) (l : list ascii) : bool :=
  match l with
  | [] => false
  | c :: r =>
      (negb prevWord && Ascii.eqb c "P"%char &&
       match r with
       | d1 :: d2 :: d3 :: d4 :: rest =>
           is_digit_char d1 && is_digit_char d2 && is_digit_char d3 && is_digit_char d4 &&
           match rest with [] => true | c5 :: _ => negb (is_word_char c5) end
       | _ => false
       end)
      || scanP4 (is_word_char c) r
  end.

Definition has_P4_code (s : string) : bool := scanP4 false (list_ascii_of_string s).

Example has_P4_code_examples :
  map has_P4_code ["P1234 Ventas"; "Ingresos P0001"; "XP1234"; "P12345"; "P123"]%string
  = [true; true; false; false; false].
Proof. reflexivity. Qed.

(** Lines 96-105 *)
Definition excludedExpenseNamesForVat : list string :=
  ["19-Nómina"; "20-Aguinaldo"; "22-PTU Garantizada"; "25-Nómina generico"; "23-Finiquitos";
   "26-IMSS, RCV e INFONAVIT"; "27-Impuesto Sobre Remuneraciones"; "28-ISR Personas Morales";
   "30-ISR Retenido"; "31-IVA Retenido"; "32-Otros impuestos federales";
   "59-American Express Company mexic"; "65-ISR por pagar"; "66-IVA por pagar";
   "67-Retenidos por pagar"; "68-IMSS, RCV e INFONAVIT por pagar";
   "69-Impuesto Sobre Remuneraciones por pagar"; "70-Otros impuestos por pagar";
   "71-AMEXCO PYPSA Cta. 51003"; "72-Carbures Europe, S.A (Suc)"; "74-Fonacot";
   "75-Gratificacion Garantizada"; "76-Gratificacion FA"; "80-Otros Acreedores por Pagar"]%string.

(** [s.endsWith(suffix)] *)
Definition endsWith (s suffix : string) : bool :=
  let n := String.length s in
  let k := String.length suffix in
  (k <=? n)%nat && String.eqb (substring (n - k) k s) suffix.

(** [x < y] on numbers *)
Definition qlt (x y : Q) : bool := if Qlt_le_dec x y then true else false.

(** [map.delete(k)] *)
Definition sdel {V} (k : string) (m : list (string * V)) : list (string * V) :=
  filter (fun e => negb (String.eqb (fst e) k)) m.

(** [o === id] for an id found with [guides.find(...)?.id] (possibly undefined). *)
Definition is_id (o : option string) (id : string) : bool :=
  match o with Some x => String.eqb x id | None => false end.

(** Times of day in half-days since the epoch: noon of day [d] is [2d+1];
    [None] is an Invalid Date. *)
Definition noon (d : Z) : Z := 2 * d + 1.

(** [a > b] on dates *)
Definition time_gt (a b : option Z) : bool :=
  match a, b with Some x, Some y => y <? x | _, _ => false end.

(** [new Date(month + '-01T12:00:00Z')] for a month key "YYYY-MM". *)
Definition monthStart (month : string) : option Z :=
  option_map noon (dayOf (month ++ "-01")).

(** *** Local time (ECMA-262, section 21.4.1)

    Time values are milliseconds since the epoch. The browser's time zone is
    given by [tz_offset t], the offset of local time from UTC at the time
    value [t] (LocalTZA(t, true)), and by [tz_utc l], the time value UTC(l)
    of the local time [l] (for a local time repeated or skipped by a
    daylight-saving change, the one the engine picks). *)
Record TimeZone := mkTimeZone { tz_offset : Z -> Z; tz_utc : Z -> Z }.

(** A browser running in UTC. *)
Definition utcZone : TimeZone := mkTimeZone (fun _ => 0) (fun l => l).

Definition msPerDay : Z := 86400000.
Definition msPerHalfDay : Z := 43200000.

(** LocalTime(t) *)
Definition LocalTime (tz : TimeZone) (t : Z) : Z := t + tz_offset tz t.

(** TimeClip: [None] for a time value out of range (an Invalid Date). *)
Definition TimeClip (t : Z) : option Z :=
  if Z.abs t <=? 8640000000000000 then Some t else None.

(** [d.getFullYear()] of the time value [t]. *)
Definition localYear (tz : TimeZone) (t : Z) : Z :=
  let '(y, _, _) := Dates.civil_from_days (LocalTime tz t / msPerDay) in y.

(** [d.setMonth(d.getMonth() - 3)] on the time value [t]: MakeDay with its
    month and day overflow, the local time of day kept, then UTC and
    TimeClip. *)
Definition setMonth_minus3 (tz : TimeZone) (t : Z) : option Z :=
  let lt := LocalTime tz t in
  let '(y, m, dt) := Dates.civil_from_days (lt / msPerDay) in
  let m0 := m - 1 - 3 in
  let ym := y + m0 / 12 in
  let mn := m0 mod 12 in
  TimeClip (tz_utc tz ((Dates.days_from_civil ym (mn + 1) 1 + dt - 1) * msPerDay
                       + lt mod msPerDay)).

(** Number of distinct elements, [new Set(...).size] *)
Fixpoint dedup (l : list string) : list string :=
  match l with
  | [] => []
  | x :: r => let r' := dedup r in if existsb (String.eqb x) r' then r' else x :: r'
  end.

Section Forecast.
Variable tz : TimeZone.
Variable transactions : list Transaction.
Variable guides : list Guide.
Variable excludedGuideIds : list string.
Variable useME : bool.
Variable selectedYear : Z.

(** Lines 86-87 *)
Definition activeGuides : list Guide :=
  filter (fun g => negb (g_isInactiveForForecast g)
                   && negb (existsb (String.eqb (g_id g)) excludedGuideIds)) guides.

Definition isActive (id : string) : bool :=
  existsb (fun g => String.eqb (g_id g) id) activeGuides.

(** [guides.find(g => g.name === n)?.id] *)
Definition guideIdNamed (n : string) : option string :=
  option_map g_id (find (fun g => String.eqb (g_name g) n) guides).

Definition initialBalanceGuideId := guideIdNamed "0-Saldo Inicial".
Definition aguinaldoGuideId := guideIdNamed "20-Aguinaldo".
Definition nominaGuideId := guideIdNamed "19-Nómina".
Definition ptuGuideId := guideIdNamed "22-PTU Garantizada".

(** An id found with [guides.find(...)?.id] used as a condition: the
    empty id is falsy. *)
Definition truthy (o : option string) : option string :=
  match o with Some s => if String.eqb s "" then None else o | None => None end.

(** Line 94 *)
Definition vatGuideId : option string :=
  option_map g_id (find (fun g => String.prefix "29-" (g_name g)) guides).

(** Line 95: [operatingIncomeGuideIds.has(id)] *)
Definition isOperatingIncome (id : string) : bool :=
  existsb (fun g => String.eqb (g_id g) id && has_P4_code (g_name g)) guides.

(** Line 106: [excludedExpenseIdsForVat.has(id)] *)
Definition isExcludedExpenseForVat (id : string) : bool :=
  existsb (fun g => String.eqb (g_id g) id
                    && existsb (String.eqb (g_name g)) excludedExpenseNamesForVat) guides.

(** [getGuide(id)?.name || 'Unknown'] *)
Definition guideNameOrUnknown (id : string) : string :=
  match sget id (fold_left (fun m g => sset (g_id g) g m) guides []) with
  | Some g => if String.eqb (g_name g) "" then "Unknown" else g_name g
  | None => "Unknown"
  end.

(** Lines 108-109 *)
Definition lastRealDate : option Z :=
  match sort_by (fun t => - sortKey t) transactions with
  | t :: _ => option_map noon (dayOf (t_date t))
  | [] => Some 0
  end.

(** Lines 112-119 *)
Definition historicalTransactions : list Transaction :=
  let lastTime := option_map (fun x => x * msPerHalfDay) lastRealDate in
  let historyStartDate := match lastTime with Some t => setMonth_minus3 tz t | None => None end in
  filter (fun t =>
    negb (String.eqb (t_guide t) "") && isActive (t_guide t)
    && negb (is_id initialBalanceGuideId (t_guide t))
    && (let tDate := option_map (fun d => noon d * msPerHalfDay) (dayOf (t_date t)) in
        negb (time_gt historyStartDate tDate) && negb (time_gt tDate lastTime)
        && match tDate, historyStartDate, lastTime with
           | Some _, Some _, Some _ => true | _, _, _ => false end))
    transactions.

(** Lines 111-135 *)
Definition baseMonthlyAverages : list (string * Q) :=
  match historicalTransactions with
  | [] => []
  | _ :: _ =>
    let sumsByGuide := fold_left (fun m t =>
          sset (t_guide t) (get0 (t_guide t) m + amountOf useME t)%Q m)
          historicalTransactions [] in
    let monthsInHistory := dedup (map (fun t => substring 0 7 (t_date t))
                                      historicalTransactions) in
    let monthCount := match length monthsInHistory with O => 1%nat | n => n end in
    map (fun '(g, totalAmount) => (g, totalAmount / inject_Z (Z.of_nat monthCount))%Q)
      sumsByGuide
  end.

(** Line 137 *)
Definition isFutureYear : bool :=
  match lastRealDate with
  | Some x => localYear tz (x * msPerHalfDay) <? selectedYear
  | None => false
  end.

(** Lines 145-170: one month of the previous year *)
Definition prev_year_month (totals : list (string * Q)) (month : string) :=
  if time_gt (monthStart month) lastRealDate then
    fold_left (fun totals '(guideId, avg) =>
      if negb (isActive guideId) || is_id initialBalanceGuideId guideId then totals
      else if is_id aguinaldoGuideId guideId then
        match truthy nominaGuideId with
        | Some nomina =>
            if endsWith month "-12" then
              sset guideId (get0 guideId totals
                            - Qabs (get0 nomina baseMonthlyAverages) / 2)%Q totals
            else totals
        | None => totals
        end
      else sset guideId (get0 guideId totals + avg)%Q totals)
      baseMonthlyAverages totals
  else
    fold_left (fun totals t =>
      if negb (String.eqb (t_guide t) "") then
        sset (t_guide t) (get0 (t_guide t) totals + amountOf useME t)%Q totals
      else totals)
      (filter (fun t => String.eqb (substring 0 7 (t_date t)) month
                        && isActive (t_guide t)
                        && negb (is_id initialBalanceGuideId (t_guide t)))
         transactions)
      totals.

Definition previousYearTotals : list (string * Q) :=
  fold_left prev_year_month (year_months (selectedYear - 1)) [].

(** Lines 173-182 *)
Definition dampen (avg previousTotal : Q) : Q :=
  if Qlt_le_dec (Qabs previousTotal) (Qabs (avg * 12)) then
    if Qeq_dec previousTotal 0 then avg else (previousTotal / 12)%Q
  else avg.

(** Lines 137-184 *)
Definition monthlyAverages : list (string * Q) :=
  if isFutureYear then
    map (fun '(guideId, avg) => (guideId, dampen avg (get0 guideId previousYearTotals)))
      baseMonthlyAverages
  else baseMonthlyAverages.

(** Lines 194-300: the state threaded through [months.forEach]: the
    [dataByGuide], [forecastCorrection] and [vatDetailsByMonth] maps, and
    the number of [Math.random()] calls made so far. *)
Record FState := mkFState {
  fs_dataByGuide : list (string * list (string * Cell));
  fs_forecastCorrection : list (string * Q);
  fs_vatDetailsByMonth : list (string * VatDetailData);
  fs_rnd : nat
}.

(** The successive results of [Math.random()], each in [0, 1). *)
Variable random : nat -> Q.

(** Lines 188 and 192 *)
Definition months : list string := year_months selectedYear.

(** [months[months.length - 1]] *)
Definition lastMonth : string := nth 11 months EmptyString.

(** Line 195-196: [new Date(month + '-01T12:00:00Z') > lastRealDate] *)
Definition isForecastMonth (month : string) : bool :=
  time_gt (monthStart month) lastRealDate.

(** [dataByGuide.get(guideId)?.[month]] *)
Definition cellOf (guideId month : string) (data : list (string * list (string * Cell)))
    : option Cell :=
  match sget guideId data with Some gd => sget month gd | None => None end.

(** [if (!dataByGuide.has(g)) dataByGuide.set(g, {}); dataByGuide.get(g)![month] = c] *)
Definition set_cell (guideId month : string) (c : Cell)
    (data : list (string * list (string * Cell))) :=
  let gd := match sget guideId data with Some gd => gd | None => [] end in
  sset guideId (sset month c gd) data.

(** Lines 200-206, one transaction of a real month *)
Definition actual_tx_step (month : string) (data : list (string * list (string * Cell)))
    (t : Transaction) :=
  if String.eqb (t_guide t) "" then data
  else
    let c := match cellOf (t_guide t) month data with
             | Some c => c | None => mkCell 0 false end in
    set_cell (t_guide t) month (mkCell (c_amount c + amountOf useME t)%Q (c_isForecast c)) data.

(** Lines 209-256, one active guide of a forecast month *)
Definition forecast_guide_step (month : string) (st : FState) (guide : Guide) : FState :=
  let id := g_id guide in
  if is_id vatGuideId id then st
  else
    let corr := fs_forecastCorrection st in
    let isDecember := endsWith month "-12" in
    let isMay := endsWith month "-05" in
    let '(amount, corr', rnd') :=
      if is_id aguinaldoGuideId id then
        (match truthy nominaGuideId with
         | Some nomina =>
             if isDecember then (- (Qabs (get0 nomina monthlyAverages) / 2))%Q else 0%Q
         | None => 0%Q
         end, corr, fs_rnd st)
      else if is_id ptuGuideId id then
        (match truthy nominaGuideId with
         | Some nomina =>
             if isMay then (- (Qabs (get0 nomina monthlyAverages) / 2))%Q else 0%Q
         | None => 0%Q
         end, corr, fs_rnd st)
      else
        let originalAmount := get0 id monthlyAverages in
        if qlt (Qabs originalAmount) (1 # 100) then (0%Q, corr, fs_rnd st)
        else if negb (String.eqb month lastMonth) then
          let variation := ((random (fs_rnd st) - (1 # 2)) * (4 # 10))%Q in
          let variedAmount := (originalAmount * (1 + variation))%Q in
          let error := (variedAmount - originalAmount)%Q in
          (variedAmount, sset id (get0 id corr + error)%Q corr, S (fs_rnd st))
        else
          ((originalAmount - get0 id corr)%Q, sdel id corr, fs_rnd st)
    in
    let data := if qlt (1 # 100) (Qabs amount)
                then set_cell id month (mkCell amount true) (fs_dataByGuide st)
                else fs_dataByGuide st in
    mkFState data corr' (fs_vatDetailsByMonth st) rnd'.

Definition emptyVatDetail : VatDetailData := mkVatDetail [] [] 0 0 0 0 0.

(** Lines 267-279, one row of [dataByGuide] *)
Definition vat_row_step (month : string) (vd : VatDetailData)
    (row : string * list (string * Cell)) : VatDetailData :=
  let '(guideId, monthData) := row in
  match sget month monthData with
  | Some c =>
      if c_isForecast c then
        let amount := c_amount c in
        let guideName := guideNameOrUnknown guideId in
        if isOperatingIncome guideId then
          mkVatDetail (vd_incomes vd ++ [(guideName, amount)]) (vd_expenses vd)
            (vd_totalIncome vd + amount)%Q (vd_totalExpense vd)
            (vd_ivaCobrado vd) (vd_ivaAcreditable vd) (vd_netVat vd)
        else if qlt amount 0 && negb (isExcludedExpenseForVat guideId) then
          mkVatDetail (vd_incomes vd) (vd_expenses vd ++ [(guideName, amount)])
            (vd_totalIncome vd) (vd_totalExpense vd + amount)%Q
            (vd_ivaCobrado vd) (vd_ivaAcreditable vd) (vd_netVat vd)
        else vd
      else vd
  | None => vd
  end.

(** Lines 258-298 *)
Definition vat_step (month : string) (st : FState) : FState :=
  match truthy vatGuideId with
  | Some vat =>
      if isActive vat then
        let vd := fold_left (vat_row_step month) (fs_dataByGuide st) emptyVatDetail in
        let ivaCobrado := (vd_totalIncome vd / (116 # 100) * (16 # 100))%Q in
        let ivaAcreditable := (Qabs (vd_totalExpense vd) / (116 # 100) * (16 # 100))%Q in
        let netVatToPay := (ivaCobrado - ivaAcreditable)%Q in
        let vatDetail := mkVatDetail (vd_incomes vd) (vd_expenses vd)
                           (vd_totalIncome vd) (vd_totalExpense vd)
                           ivaCobrado ivaAcreditable (- netVatToPay)%Q in
        if qlt (1 # 100) (Qabs (vd_netVat vatDetail)) then
          mkFState (set_cell vat month (mkCell (vd_netVat vatDetail) true) (fs_dataByGuide st))
            (fs_forecastCorrection st)
            (sset month vatDetail (fs_vatDetailsByMonth st)) (fs_rnd st)
        else st
      else st
  | None => st
  end.

(** Lines 194-300, one month *)
Definition month_step (st : FState) (month : string) : FState :=
  if isForecastMonth month then
    vat_step month (fold_left (forecast_guide_step month) activeGuides st)
  else
    mkFState
      (fold_left (actual_tx_step month)
         (filter (fun t => String.eqb (substring 0 7 (t_date t)) month) transactions)
         (fs_dataByGuide st))
      (fs_forecastCorrection st) (fs_vatDetailsByMonth st) (fs_rnd st).

Definition forecast_loop : FState := fold_left month_step months (mkFState [] [] [] 0).

Record FTotals := mkFTotals { ft_income : Q; ft_expense : Q; ft_net : Q; ft_isForecast : bool }.

(** Lines 302-311 *)
Definition forecast_totals (data : list (string * list (string * Cell))) :=
  let init := map (fun m => (m, mkFTotals 0 0 0 (isForecastMonth m))) months in
  fold_left (fun totals '(_, guideData) =>
    fold_left (fun totals '(month, c) =>
      match sget month totals with
      | Some tot =>
          let a := c_amount c in
          sset month
            (mkFTotals (if qlt 0 a then ft_income tot + a else ft_income tot)%Q
                       (if qlt 0 a then ft_expense tot else ft_expense tot + a)%Q
                       (ft_net tot + a)%Q (ft_isForecast tot)) totals
      | None => totals
      end) guideData totals) data init.

Record ForecastFlow := mkForecastFlow {
  ff_months : list string;
  ff_dataByGuide : list (string * list (string * Cell));
  ff_monthlyTotals : list (string * FTotals);
  ff_initialBalance : Q;
  ff_vatDetailsByMonth : list (string * VatDetailData)
}.

(** [flowData] (lines 85-318) *)
Definition forecast_flowData : ForecastFlow :=
  let st := forecast_loop in
  (* [new Date(t.date).getFullYear() < selectedYear]: a date-only string
     is midnight UTC, its year is read in local time. *)
  let initialBalance := sumQ (map (amountOf useME)
        (filter (fun t => match dayOf (t_date t) with
                          | Some z => localYear tz (z * msPerDay) <? selectedYear
                          | None => false end)
           transactions)) in
  mkForecastFlow months (fs_dataByGuide st) (forecast_totals (fs_dataByGuide st))
    initialBalance (fs_vatDetailsByMonth st).
End Forecast.

(** *** Maps of the forecast view *)

Lemma get0_sdel : forall (m : list (string * Q)) k k',
  get0 k (sdel k' m) = if string_dec k k' then 0%Q else get0 k m.
Proof.
  induction m as [|[k0 v0] r IH]; intros k k'; simpl.
  - destruct (string_dec k k'); reflexivity.
  - destruct (String.eqb_spec k0 k') as [->|Hne]; simpl.
    + rewrite IH. destruct (string_dec k k') as [->|Hk]; [reflexivity|].
      unfold get0, sget. simpl. destruct (string_dec k k'); [contradiction|reflexivity].
    + unfold get0, sget in *. simpl. destruct (string_dec k k0) as [->|Hk0].
      * destruct (string_dec k0 k'); [contradiction|reflexivity].
      * apply IH.
Qed.

Lemma cellOf_set_cell_same : forall g m c data, cellOf g m (set_cell g m c data) = Some c.
Proof.
  intros. unfold cellOf, set_cell. rewrite !sget_sset_eq. reflexivity.
Qed.

Lemma cellOf_set_cell_other : forall g m g' m' c data,
  g <> g' \/ m <> m' -> cellOf g m (set_cell g' m' c data) = cellOf g m data.
Proof.
  intros g m g' m' c data H. unfold cellOf, set_cell, sget, sset.
  destruct (string_dec g g') as [->|Hg].
  - rewrite JsMap.get_set_eq. destruct H as [H|H]; [congruence|].
    rewrite JsMap.get_set_neq by assumption.
    destruct (JsMap.get string_dec g' data); reflexivity.
  - rewrite JsMap.get_set_neq by assumption. reflexivity.
Qed.

Lemma sumQ_app1 : forall l x, (sumQ (l ++ [x]) == sumQ l + x)%Q.
Proof. intros. unfold sumQ. rewrite fold_left_app. reflexivity. Qed.

Lemma nodup_map_filter : forall {A B} (f : A -> B) (p : A -> bool) l,
  NoDup (map f l) -> NoDup (map f (filter p l)).
Proof.
  induction l as [|x r IH]; intros H; simpl; [constructor|].
  inversion H as [|? ? Hn Hd]; subst.
  destruct (p x); simpl; [|apply IH; assumption].
  constructor; [|apply IH; assumption].
  intros Hin. apply Hn. apply in_map_iff in Hin as (y & Hy & Hy').
  apply filter_In in Hy' as [Hy' _]. rewrite <- Hy. apply in_map. assumption.
Qed.

Lemma append_inj : forall s a b : string, (s ++ a)%string = (s ++ b)%string -> a = b.
Proof.
  induction s as [|c s IH]; intros a b H; simpl in H; [assumption|].
  injection H as H. apply IH. assumption.
Qed.

Lemma nodup_map_append : forall s l,
  NoDup l -> NoDup (map (fun x => (s ++ x)%string) l).
Proof.
  intros s l. induction l as [|x r IH]; intros H; simpl; [constructor|].
  inversion H as [|? ? Hn Hd]; subst. constructor; [|apply IH; assumption].
  intros Hin. apply in_map_iff in Hin as (y & Hy & Hy').
  apply append_inj in Hy. subst. contradiction.
Qed.

Lemma year_months_nodup : forall y, NoDup (year_months y).
Proof.
  intros y. unfold year_months.
  replace (map (fun i => (Dates.pad 4 y ++ "-" ++ Dates.pad 2 (Z.of_nat i))%string) (seq 1 12))
    with (map (fun x => (Dates.pad 4 y ++ x)%string)
            (map (fun i => ("-" ++ Dates.pad 2 (Z.of_nat i))%string) (seq 1 12)))
    by (rewrite map_map; reflexivity).
  apply nodup_map_append. vm_compute.
  repeat constructor; simpl; intuition discriminate.
Qed.

(** [months] is the eleven first months followed by [lastMonth]. *)
Lemma months_split : forall y,
  months y = firstn 11 (months y) ++ [lastMonth y] /\ ~ In (lastMonth y) (firstn 11 (months y)).
Proof.
  intros y.
  assert (Hsp : months y = firstn 11 (months y) ++ [lastMonth y]) by reflexivity.
  split; [exact Hsp|].
  pose proof (year_months_nodup y) as Hnd. change (NoDup (months y)) in Hnd.
  rewrite Hsp in Hnd. intros Hin. apply (NoDup_remove_2 _ [] _ Hnd).
  rewrite app_nil_r. exact Hin.
Qed.

(** *** Per-guide effect of the forecast loop (towards C1) *)
Section Reconciliation.
Variables (tz : TimeZone) (transactions : list Transaction) (guides : list Guide)
  (excludedGuideIds : list string) (useME : bool) (selectedYear : Z)
  (random : nat -> Q) (gid : string).
Hypothesis Hvat : is_id (vatGuideId guides) gid = false.
Hypothesis Hagu : is_id (aguinaldoGuideId guides) gid = false.
Hypothesis Hptu : is_id (ptuGuideId guides) gid = false.

(** The monthly average the loop reads for the guide, and the amount a
    year of forecasts must add up to per month. *)
Definition rc_avg : Q :=
  get0 gid (monthlyAverages tz transactions guides excludedGuideIds useME selectedYear).
Definition rc_small : bool := qlt (Qabs rc_avg) (1 # 100).
Definition rc_target : Q := if rc_small then 0%Q else rc_avg.

Definition stored (v : Q) : option Cell :=
  if qlt (1 # 100) (Qabs v) then Some (mkCell v true) else None.

Definition unchanged_for (st st' : FState) : Prop :=
  (forall m, cellOf gid m (fs_dataByGuide st') = cellOf gid m (fs_dataByGuide st)) /\
  get0 gid (fs_forecastCorrection st') = get0 gid (fs_forecastCorrection st).

Definition own_effect (month : string) (st st' : FState) : Prop :=
  exists v,
    (forall m, m <> month ->
       cellOf gid m (fs_dataByGuide st') = cellOf gid m (fs_dataByGuide st)) /\
    cellOf gid month (fs_dataByGuide st') =
      (if qlt (1 # 100) (Qabs v) then Some (mkCell v true)
       else cellOf gid month (fs_dataByGuide st)) /\
    (v + get0 gid (fs_forecastCorrection st)
     == rc_target + get0 gid (fs_forecastCorrection st'))%Q /\
    (rc_small = true -> v == 0)%Q /\
    (month = lastMonth selectedYear -> rc_small = false ->
     get0 gid (fs_forecastCorrection st') == 0)%Q.

Lemma other_guide_step : forall month st h, g_id h <> gid ->
  unchanged_for st
    (forecast_guide_step tz transactions guides excludedGuideIds useME selectedYear random
       month st h).
Proof.
  intros month st h Hne. unfold forecast_guide_step, unchanged_for.
  destruct (is_id (vatGuideId guides) (g_id h)); [split; reflexivity|].
  repeat match goal with
    | |- context [if ?b then _ else _] => destruct b
    | |- context [match ?o with Some _ => _ | None => _ end] => destruct o
    end;
  cbn [fs_dataByGuide fs_forecastCorrection];
  (split; [intros m; try (apply cellOf_set_cell_other; left; congruence); reflexivity|]);
  try reflexivity;
  first [ rewrite get0_set | rewrite get0_sdel ];
  destruct (string_dec gid (g_id h)); congruence.
Qed.

Lemma own_guide_step : forall month st h, g_id h = gid ->
  own_effect month st
    (forecast_guide_step tz transactions guides excludedGuideIds useME selectedYear random
       month st h).
Proof.
  intros month st h Hid. unfold forecast_guide_step.
  rewrite Hid, Hvat, Hagu, Hptu. cbv beta iota zeta.
  unfold own_effect, rc_target, rc_small, rc_avg.
  destruct (qlt (Qabs (get0 gid (monthlyAverages tz transactions guides excludedGuideIds
                                   useME selectedYear))) (1 # 100)) eqn:Hs.
  - exists 0%Q. replace (qlt (1 # 100) (Qabs 0)) with false by reflexivity.
    cbn [fs_dataByGuide fs_forecastCorrection].
    repeat split; intros; try reflexivity; try discriminate; ring.
  - set (A := get0 gid (monthlyAverages tz transactions guides excludedGuideIds
                          useME selectedYear)).
    destruct (String.eqb month (lastMonth selectedYear)) eqn:Hl; cbn [negb].
    + exists (A - get0 gid (fs_forecastCorrection st))%Q. split; [|split; [|split; [|split]]].
      * intros m Hm. cbn [fs_dataByGuide].
        destruct (qlt (1 # 100) _); [apply cellOf_set_cell_other; right; assumption|reflexivity].
      * cbn [fs_dataByGuide]. destruct (qlt (1 # 100) _); [apply cellOf_set_cell_same|reflexivity].
      * cbn [fs_forecastCorrection]. rewrite get0_sdel.
        destruct (string_dec gid gid); [|congruence]. ring.
      * discriminate.
      * intros _ _. cbn [fs_forecastCorrection]. rewrite get0_sdel.
        destruct (string_dec gid gid); [reflexivity|congruence].
    + exists (A * (1 + (random (fs_rnd st) - (1 # 2)) * (4 # 10)))%Q.
      split; [|split; [|split; [|split]]].
      * intros m Hm. cbn [fs_dataByGuide].
        destruct (qlt (1 # 100) _); [apply cellOf_set_cell_other; right; assumption|reflexivity].
      * cbn [fs_dataByGuide]. destruct (qlt (1 # 100) _); [apply cellOf_set_cell_same|reflexivity].
      * cbn [fs_forecastCorrection]. rewrite get0_set.
        destruct (string_dec gid gid); [|congruence]. ring.
      * discriminate.
      * intros Hm. apply String.eqb_neq in Hl. contradiction.
Qed.

Lemma unchanged_refl : forall st, unchanged_for st st.
Proof. intros st. split; reflexivity. Qed.

Lemma unchanged_trans : forall st1 st2 st3,
  unchanged_for st1 st2 -> unchanged_for st2 st3 -> unchanged_for st1 st3.
Proof.
  intros st1 st2 st3 [H1 G1] [H2 G2]. split; [intros m; rewrite H2; apply H1|congruence].
Qed.

Lemma own_unchanged : forall month st1 st2 st3,
  own_effect month st1 st2 -> unchanged_for st2 st3 -> own_effect month st1 st3.
Proof.
  intros month st1 st2 st3 (v & H1 & H2 & H3 & H4 & H5) [U1 U2].
  exists v. rewrite U1, U2. refine (conj _ (conj H2 (conj H3 (conj H4 H5)))).
  intros m Hm. rewrite U1. apply H1. assumption.
Qed.

Lemma unchanged_own : forall month st1 st2 st3,
  unchanged_for st1 st2 -> own_effect month st2 st3 -> own_effect month st1 st3.
Proof.
  intros month st1 st2 st3 [U1 U2] (v & H1 & H2 & H3 & H4 & H5).
  exists v. rewrite <- U1, <- U2. refine (conj _ (conj H2 (conj H3 (conj H4 H5)))).
  intros m Hm. rewrite <- U1. apply H1. assumption.
Qed.

Lemma fold_guides_other : forall L month st, ~ In gid (map g_id L) ->
  unchanged_for st (fold_left (forecast_guide_step tz transactions guides excludedGuideIds
                                 useME selectedYear random month) L st).
Proof.
  induction L as [|h L IH]; intros month st Hn; simpl; [apply unchanged_refl|].
  simpl in Hn.
  refine (unchanged_trans _ _ _ (other_guide_step month st h _) (IH _ _ _)); intuition.
Qed.

Lemma fold_guides_own : forall L month st, NoDup (map g_id L) -> In gid (map g_id L) ->
  own_effect month st (fold_left (forecast_guide_step tz transactions guides excludedGuideIds
                                    useME selectedYear random month) L st).
Proof.
  induction L as [|h L IH]; intros month st Hnd Hin; simpl in *; [contradiction|].
  inversion Hnd as [|? ? Hn Hnd']; subst.
  destruct (string_dec (g_id h) gid) as [Heq|Hne].
  - refine (own_unchanged _ _ _ _ (own_guide_step month st h Heq)
              (fold_guides_other _ _ _ _)).
    rewrite <- Heq. assumption.
  - refine (unchanged_own _ _ _ _ (other_guide_step month st h Hne) (IH _ _ Hnd' _)).
    destruct Hin; [congruence|assumption].
Qed.

Lemma vat_step_unchanged : forall month st,
  unchanged_for st (vat_step guides excludedGuideIds month st).
Proof.
  intros month st. unfold vat_step.
  destruct (truthy (vatGuideId guides)) as [vat|] eqn:Hv; [|apply unchanged_refl].
  assert (Hne : gid <> vat).
  { intros ->. unfold truthy in Hv. unfold is_id in Hvat.
    destruct (vatGuideId guides) as [x|]; [|discriminate].
    destruct (String.eqb x "") eqn:He; [discriminate|]. injection Hv as ->.
    rewrite String.eqb_refl in Hvat. discriminate. }
  destruct (isActive guides excludedGuideIds vat); [|apply unchanged_refl].
  destruct (qlt (1 # 100) _); [|apply unchanged_refl].
  split; [intros m; apply cellOf_set_cell_other; left; assumption|reflexivity].
Qed.

Lemma actual_month_cells : forall l month data m, m <> month ->
  cellOf gid m (fold_left (actual_tx_step useME month) l data) = cellOf gid m data.
Proof.
  induction l as [|t l IH]; intros month data m Hm; simpl; [reflexivity|].
  rewrite IH by assumption. unfold actual_tx_step.
  destruct (String.eqb (t_guide t) ""); [reflexivity|].
  apply cellOf_set_cell_other. right. assumption.
Qed.

(** Invariant of [months.forEach] for the guide, after the months [P]:
    the forecast cells hold the values [f m] that survive the 0.01 cut,
    and those values add up to the target plus the pending correction. *)
Definition rc_inv (P : list string) (st : FState) : Prop :=
  exists f : string -> Q,
    (forall m, In m P -> isForecastMonth transactions m = true ->
       cellOf gid m (fs_dataByGuide st) = stored (f m)) /\
    (forall m, ~ In m P -> cellOf gid m (fs_dataByGuide st) = None) /\
    (sumQ (map f (filter (isForecastMonth transactions) P))
     == rc_target * inject_Z (Z.of_nat (length (filter (isForecastMonth transactions) P)))
        + get0 gid (fs_forecastCorrection st))%Q /\
    (rc_small = true -> forall m, In m P -> isForecastMonth transactions m = true ->
       f m == 0)%Q /\
    (rc_small = true -> get0 gid (fs_forecastCorrection st) == 0)%Q.

Hypothesis Hnodup : NoDup (map g_id guides).
Hypothesis Hactive : isActive guides excludedGuideIds gid = true.

Lemma active_once : NoDup (map g_id (activeGuides guides excludedGuideIds)) /\
                    In gid (map g_id (activeGuides guides excludedGuideIds)).
Proof.
  split; [apply nodup_map_filter; assumption|].
  unfold isActive in Hactive. apply existsb_exists in Hactive as (g & Hg & He).
  apply String.eqb_eq in He. rewrite <- He. apply in_map. assumption.
Qed.

Lemma month_step_inv : forall P st m, ~ In m P -> rc_inv P st ->
  rc_inv (P ++ [m]) (month_step tz transactions guides excludedGuideIds useME selectedYear
                       random st m) /\
  (m = lastMonth selectedYear -> isForecastMonth transactions m = true ->
   get0 gid (fs_forecastCorrection (month_step tz transactions guides excludedGuideIds useME
                                      selectedYear random st m)) == 0)%Q.
Proof.
  intros P st m HnP (f & I1 & I2 & I3 & I4 & I5).
  unfold month_step.
  destruct (isForecastMonth transactions m) eqn:Hf.
  - destruct active_once as [Hnd Hin].
    pose proof (own_unchanged _ _ _ _
                  (fold_guides_own _ m st Hnd Hin)
                  (vat_step_unchanged m _)) as (v & E1 & E2 & E3 & E4 & E5).
    set (st' := vat_step guides excludedGuideIds m _) in *.
    rewrite (I2 m HnP) in E2.
    assert (Hsm : rc_small = true -> rc_target = 0%Q)
      by (intros Hs; unfold rc_target; rewrite Hs; reflexivity).
    split.
    + exists (fun x => if string_dec x m then v else f x).
      split; [|split; [|split; [|split]]].
      * intros x Hx Hfx. destruct (string_dec x m) as [->|Hxm].
        -- rewrite E2. reflexivity.
        -- rewrite E1 by assumption. apply in_app_or in Hx.
           destruct Hx as [Hx|[Hx|[]]]; [apply I1; assumption|congruence].
      * intros x Hx. destruct (string_dec x m) as [->|Hxm].
        -- exfalso. apply Hx. apply in_or_app. right. left. reflexivity.
        -- rewrite E1 by assumption. apply I2. intros Hx'. apply Hx. apply in_or_app.
           left. assumption.
      * rewrite filter_app. cbn [filter]. rewrite Hf, map_app.
        rewrite (map_ext_in _ f (filter (isForecastMonth transactions) P)).
        2:{ intros x Hx. apply filter_In in Hx as [Hx _].
            destruct (string_dec x m) as [->|]; [contradiction|reflexivity]. }
        cbn [map]. destruct (string_dec m m) as [_|]; [|congruence].
        rewrite sumQ_app1, length_app, Nat2Z.inj_add, inject_Z_plus, I3.
        change (inject_Z (Z.of_nat (length [m]))) with 1%Q.
        setoid_replace (rc_target * (inject_Z (Z.of_nat
                         (length (filter (isForecastMonth transactions) P))) + 1))%Q
          with (rc_target * inject_Z (Z.of_nat
                         (length (filter (isForecastMonth transactions) P))) + rc_target)%Q
          by ring.
        lra.
      * intros Hs x Hx Hfx. destruct (string_dec x m) as [->|Hxm]; [apply E4; assumption|].
        apply in_app_or in Hx. destruct Hx as [Hx|[Hx|[]]]; [apply I4; assumption|congruence].
      * intros Hs. specialize (E4 Hs). specialize (I5 Hs). rewrite (Hsm Hs) in E3. lra.
    + intros Hm _. destruct rc_small eqn:Hs.
      * specialize (E4 eq_refl). specialize (I5 eq_refl).
        rewrite (Hsm eq_refl) in E3. lra.
      * apply E5; [assumption|reflexivity].
  - split; [|intros _ Ht; discriminate].
    exists f. cbn [fs_dataByGuide fs_forecastCorrection].
    split; [|split; [|split; [|split]]].
    * intros x Hx Hfx. destruct (string_dec x m) as [->|Hxm]; [congruence|].
      rewrite actual_month_cells by assumption. apply in_app_or in Hx.
      destruct Hx as [Hx|[Hx|[]]]; [apply I1; assumption|congruence].
    * intros x Hx. rewrite actual_month_cells.
      -- apply I2. intros Hx'. apply Hx. apply in_or_app. left. assumption.
      -- intros ->. apply Hx. apply in_or_app. right. left. reflexivity.
    * rewrite filter_app. cbn [filter]. rewrite Hf, app_nil_r. assumption.
    * intros Hs x Hx Hfx. apply I4; [assumption| |assumption].
      apply in_app_or in Hx. destruct Hx as [Hx|[Hx|[]]]; [assumption|congruence].
    * assumption.
Qed.

Lemma months_fold_inv : forall ms P st, NoDup (P ++ ms) -> rc_inv P st ->
  rc_inv (P ++ ms) (fold_left (month_step tz transactions guides excludedGuideIds useME
                                 selectedYear random) ms st).
Proof.
  induction ms as [|m ms IH]; intros P st Hnd Hinv; simpl.
  - rewrite app_nil_r. assumption.
  - replace (P ++ m :: ms) with ((P ++ [m]) ++ ms) by (rewrite <- app_assoc; reflexivity).
    apply IH.
    + rewrite <- app_assoc. assumption.
    + apply month_step_inv; [|assumption].
      intros Hm. apply (NoDup_remove_2 P ms m Hnd). apply in_or_app. left. assumption.
Qed.

Lemma rc_inv_init : rc_inv [] (mkFState [] [] [] 0).
Proof.
  exists (fun _ => 0%Q). cbn [fs_dataByGuide fs_forecastCorrection].
  split; [|split; [|split; [|split]]]; intros; try contradiction; try reflexivity.
  unfold get0, sumQ. simpl. ring.
Qed.

Lemma rc_loop : isForecastMonth transactions (lastMonth selectedYear) = true ->
  rc_inv (months selectedYear)
    (forecast_loop tz transactions guides excludedGuideIds useME selectedYear random) /\
  (get0 gid (fs_forecastCorrection
               (forecast_loop tz transactions guides excludedGuideIds useME selectedYear
                  random)) == 0)%Q.
Proof.
  intros Hdec. unfold forecast_loop.
  destruct (months_split selectedYear) as [Hsp Hnl].
  pose proof (year_months_nodup selectedYear) as Hndm.
  change (NoDup (months selectedYear)) in Hndm.
  revert Hsp Hnl. generalize (firstn 11 (months selectedYear)) as ms11.
  intros ms11 Hsp Hnl. rewrite Hsp in Hndm |- *. rewrite fold_left_app. cbn [fold_left].
  destruct (month_step_inv ms11 _ (lastMonth selectedYear) Hnl
              (months_fold_inv ms11 [] _ (NoDup_app_remove_r _ _ Hndm) rc_inv_init))
    as [H1 H2].
  split; [exact H1|exact (H2 eq_refl Hdec)].
Qed.
End Reconciliation.

(** The value shown in a cell ([undefined] counts as 0). *)
Definition forecastCellAmount (gid m : string) (data : list (string * list (string * Cell))) : Q :=
  match cellOf gid m data with Some c => c_amount c | None => 0%Q end.


Lemma sum_stored_cells : forall gid (fl : list string) (f : string -> Q) data (A T c : Q),
  (forall m, In m fl -> cellOf gid m data = stored (f m)) ->
  (forall m, In m fl -> cellOf gid m data <> None) ->
  (sumQ (map f fl) == T * inject_Z (Z.of_nat (length fl)) + c)%Q ->
  (c == 0)%Q ->
  (T = A \/ (T = 0%Q /\ forall m, In m fl -> f m == 0))%Q ->
  (sumQ (map (fun m => forecastCellAmount gid m data) fl)
   == A * inject_Z (Z.of_nat (length fl)))%Q.
Proof.
  intros gid fl f data A T c Hst Hall Hsum Hc HT.
  assert (Hcells : forall m, In m fl -> cellOf gid m data = Some (mkCell (f m) true)).
  { intros m Hm. pose proof (Hall m Hm) as Hs. rewrite (Hst m Hm) in Hs |- *.
    unfold stored in *. destruct (qlt (1 # 100) (Qabs (f m))); [reflexivity|contradiction]. }
  rewrite (map_ext_in _ f fl)
    by (intros m Hm; unfold forecastCellAmount; rewrite (Hcells m Hm); reflexivity).
  rewrite Hsum, Hc.
  destruct HT as [->|[-> Hz]]; [ring|].
  destruct fl as [|m r].
  - change (inject_Z (Z.of_nat (length []))) with 0%Q. ring.
  - exfalso. assert (Hm : In m (m :: r)) by (left; reflexivity).
    pose proof (Hall m Hm) as Hc'. rewrite (Hst m Hm) in Hc'. unfold stored, qlt in Hc'.
    destruct (Qlt_le_dec (1 # 100) (Qabs (f m))) as [Hlt|]; [|contradiction].
    pose proof (Qabs_wd _ _ (Hz m Hm)) as Habs. change (Qabs 0) with 0%Q in Habs. lra.
Qed.

Lemma ff_dataByGuide_flowData : forall tz transactions guides excludedGuideIds useME selectedYear random,
  ff_dataByGuide (forecast_flowData tz transactions guides excludedGuideIds useME selectedYear random)
  = fs_dataByGuide (forecast_loop tz transactions guides excludedGuideIds useME selectedYear random).
Proof. intros. reflexivity. Qed.
Lemma ff_months_flowData : forall tz transactions guides excludedGuideIds useME selectedYear random,
  ff_months (forecast_flowData tz transactions guides excludedGuideIds useME selectedYear random)
  = months selectedYear.
Proof. intros. reflexivity. Qed.

(** C1 (as amended). Let [A] be the monthly average the forecast uses for
    an active guide that is neither the VAT, the Aguinaldo nor the PTU guide
    (ids unique), and let December of the selected year be a forecast month.
    If every forecast month of the year keeps a cell for the guide, those
    cells add up exactly to [A] times the number of forecast months,
    whatever the values drawn by [Math.random()]. *)
Theorem C1_forecast_reconciliation :
  forall tz transactions guides excludedGuideIds useME selectedYear random gid,
  NoDup (map g_id guides) ->
  isActive guides excludedGuideIds gid = true ->
  is_id (vatGuideId guides) gid = false ->
  is_id (aguinaldoGuideId guides) gid = false ->
  is_id (ptuGuideId guides) gid = false ->
  isForecastMonth transactions (lastMonth selectedYear) = true ->
  let flow := forecast_flowData tz transactions guides excludedGuideIds useME selectedYear random in
  let forecastMonths := filter (isForecastMonth transactions) (ff_months flow) in
  (forall m, In m forecastMonths -> cellOf gid m (ff_dataByGuide flow) <> None) ->
  (sumQ (map (fun m => forecastCellAmount gid m (ff_dataByGuide flow)) forecastMonths)
   == get0 gid (monthlyAverages tz transactions guides excludedGuideIds useME selectedYear)
      * inject_Z (Z.of_nat (length forecastMonths)))%Q.
Proof.
  intros tz transactions guides excludedGuideIds useME selectedYear random gid
    Hnd Hact Hvat Hagu Hptu Hdec flow forecastMonths Hall.
  destruct (rc_loop tz transactions guides excludedGuideIds useME selectedYear random gid
              Hvat Hagu Hptu Hnd Hact Hdec) as [(f & I1 & _ & I3 & I4 & _) Hcorr].
  unfold forecastMonths, flow in *. clear forecastMonths flow.
  rewrite ff_dataByGuide_flowData, ff_months_flowData in *.
  set (st := forecast_loop tz transactions guides excludedGuideIds useME selectedYear random) in *.
  set (fl := filter (isForecastMonth transactions) (months selectedYear)) in *.
  set (T := rc_target tz transactions guides excludedGuideIds useME selectedYear gid) in *.
  set (A := get0 gid (monthlyAverages tz transactions guides excludedGuideIds useME selectedYear)).
  refine (sum_stored_cells gid fl f (fs_dataByGuide st) A T
           (get0 gid (fs_forecastCorrection st))
           (fun m Hm => let (H1, H2) := proj1 (filter_In _ _ _) Hm in I1 m H1 H2)
           Hall I3 Hcorr _).
  unfold T, rc_target. destruct (rc_small tz transactions guides excludedGuideIds useME selectedYear gid)
    eqn:Hs; [right|left; reflexivity].
  split; [reflexivity|]. intros m Hm. apply filter_In in Hm as [Hm Hfm]. apply I4; auto.
Qed.

(** A guide with a single transaction of 100 in January 2024: its forecast
    months are February to December 2024. *)
Definition rent_guides : list Guide := [mkGuide "1" "5-Renta" false].
Definition rent_transactions (a : Q) : list Transaction := [tx "1" "2024-01-15" Expense a].

Lemma C1_witness :
  isActive rent_guides [] "1" = true /\
  (forall m, In m (filter (isForecastMonth (rent_transactions (-100)))
                      (ff_months (forecast_flowData utcZone (rent_transactions (-100)) rent_guides []
                                    false 2024 (fun _ => 0%Q)))) ->
     cellOf "1" m (ff_dataByGuide (forecast_flowData utcZone (rent_transactions (-100)) rent_guides []
                                    false 2024 (fun _ => 0%Q))) <> None) /\
  let flow := forecast_flowData utcZone (rent_transactions (-100)) rent_guides [] false 2024
                (fun _ => 0%Q) in
  let forecastMonths := filter (isForecastMonth (rent_transactions (-100))) (ff_months flow) in
  (sumQ (map (fun m => forecastCellAmount "1" m (ff_dataByGuide flow)) forecastMonths)
   == get0 "1" (monthlyAverages utcZone (rent_transactions (-100)) rent_guides [] false 2024)
      * inject_Z (Z.of_nat (length forecastMonths)))%Q.
Proof.
  assert (Hcells : forall m, In m (filter (isForecastMonth (rent_transactions (-100)))
                      (ff_months (forecast_flowData utcZone (rent_transactions (-100)) rent_guides []
                                    false 2024 (fun _ => 0%Q)))) ->
     cellOf "1" m (ff_dataByGuide (forecast_flowData utcZone (rent_transactions (-100)) rent_guides []
                                    false 2024 (fun _ => 0%Q))) <> None).
  { intros m Hm. vm_compute in Hm.
    repeat (destruct Hm as [<-|Hm]; [vm_compute; discriminate|]). contradiction. }
  split; [vm_compute; reflexivity|]. split; [exact Hcells|].
  apply (C1_forecast_reconciliation utcZone (rent_transactions (-100)) rent_guides [] false 2024
           (fun _ => 0%Q) "1").
  - repeat constructor. simpl. tauto.
  - vm_compute. reflexivity.
  - vm_compute. reflexivity.
  - vm_compute. reflexivity.
  - vm_compute. reflexivity.
  - vm_compute. reflexivity.
  - exact Hcells.
Defined.

(** C1 fails for an average of 0.011: with [Math.random()] returning 0.1
    every varied month is 0.00924, under the 0.01 cut, so only December
    (0.0286) is kept, against 11 x 0.011 = 0.121. *)
Lemma C1_counterexample :
  let flow := forecast_flowData utcZone (rent_transactions (11 # 1000)) rent_guides [] false 2024
                (fun _ => 1 # 10) in
  let forecastMonths := filter (isForecastMonth (rent_transactions (11 # 1000)))
                          (ff_months flow) in
  let A := get0 "1" (monthlyAverages utcZone (rent_transactions (11 # 1000)) rent_guides [] false 2024) in
  A = (11 # 1000)%Q /\
  length forecastMonths = 11%nat /\
  (sumQ (map (fun m => forecastCellAmount "1" m (ff_dataByGuide flow)) forecastMonths)
   == 286 # 10000)%Q /\
  Qle_bool (Qabs (sumQ (map (fun m => forecastCellAmount "1" m (ff_dataByGuide flow))
                             forecastMonths)
                  - A * inject_Z (Z.of_nat (length forecastMonths)))) (1 # 1000000) = false.
Proof.
  vm_compute. split; [reflexivity|]. split; [reflexivity|]. split; reflexivity.
Qed.

(** *** Year-over-year dampening (towards C4) *)

Lemma fold_Qplus_acc : forall l a, (fold_left Qplus l a == a + fold_left Qplus l 0)%Q.
Proof.
  induction l as [|x l IH]; intros a; simpl; [ring|].
  rewrite (IH (a + x)%Q), (IH (0 + x)%Q). ring.
Qed.

Lemma sumQ_cons : forall x l, (sumQ (x :: l) == x + sumQ l)%Q.
Proof. intros x l. unfold sumQ. simpl. rewrite fold_Qplus_acc. ring. Qed.

Lemma sget_map_values : forall {V W} (F : string -> V -> W) (l : list (string * V)) k,
  sget k (map (fun '(k', v) => (k', F k' v)) l) = option_map (F k) (sget k l).
Proof.
  intros V W F l k. induction l as [|[k' v] l IH]; [reflexivity|].
  unfold sget in *. simpl. destruct (string_dec k k') as [->|]; [reflexivity|]. exact IH.
Qed.

Lemma keys_map_values : forall {V W} (F : string -> V -> W) (l : list (string * V)),
  map fst (map (fun '(k', v) => (k', F k' v)) l) = map fst l.
Proof. intros V W F l. induction l as [|[k v] l IH]; simpl; congruence. Qed.

Lemma nodup_fold_sset : forall {A} (key : A -> string) (val : list (string * Q) -> A -> Q) l m,
  NoDup (map fst m) -> NoDup (map fst (fold_left (fun m t => sset (key t) (val m t) m) l m)).
Proof.
  intros A key val l. induction l as [|t l IH]; intros m Hm; simpl; [assumption|].
  apply IH. apply JsMap.nodup_set. assumption.
Qed.

Lemma dampen_wd : forall a p p', (p == p')%Q -> (dampen a p == dampen a p')%Q.
Proof.
  intros a p p' H. unfold dampen.
  destruct (Qlt_le_dec (Qabs p) (Qabs (a * 12))) as [H1|H1];
  destruct (Qlt_le_dec (Qabs p') (Qabs (a * 12))) as [H2|H2];
  try (rewrite H in H1; exfalso; apply (Qlt_not_le _ _ H1); assumption);
  try (rewrite H in H1; exfalso; apply (Qlt_not_le _ _ H2); assumption);
  try reflexivity.
  destruct (Qeq_dec p 0) as [E1|E1]; destruct (Qeq_dec p' 0) as [E2|E2];
  try reflexivity; [rewrite H in E1; contradiction|rewrite H in E1; contradiction|].
  rewrite H. reflexivity.
Qed.

(** Total of the guide's transactions in a month. *)
Definition month_actual_sum (transactions : list Transaction) (useME : bool)
    (gid month : string) : Q :=
  sumQ (map (amountOf useME)
         (filter (fun t => String.eqb (substring 0 7 (t_date t)) month
                           && String.eqb (t_guide t) gid) transactions)).

Section Dampening.
Variables (tz : TimeZone) (transactions : list Transaction) (guides : list Guide)
  (excludedGuideIds : list string) (useME : bool) (gid : string).
Hypothesis Hactive : isActive guides excludedGuideIds gid = true.
Hypothesis Hinit : is_id (initialBalanceGuideId guides) gid = false.
Hypothesis Hagu : is_id (aguinaldoGuideId guides) gid = false.
Hypothesis Hne : gid <> EmptyString.

Lemma base_keys_nodup :
  NoDup (map fst (baseMonthlyAverages tz transactions guides excludedGuideIds useME)).
Proof.
  unfold baseMonthlyAverages.
  destruct (historicalTransactions tz transactions guides excludedGuideIds); [constructor|].
  rewrite keys_map_values. apply nodup_fold_sset. constructor.
Qed.

Lemma fold_keyed_absent : forall (F : list (string * Q) -> string * Q -> list (string * Q))
    L totals,
  (forall totals k a, k <> gid -> get0 gid (F totals (k, a)) = get0 gid totals) ->
  ~ In gid (map fst L) -> get0 gid (fold_left F L totals) = get0 gid totals.
Proof.
  intros F L. induction L as [|[k a] L IH]; intros totals Hoth Hn; simpl in *; [reflexivity|].
  rewrite IH by (assumption || tauto). apply Hoth. intros ->. tauto.
Qed.

Lemma fold_keyed : forall (F : list (string * Q) -> string * Q -> list (string * Q))
    L totals avg,
  (forall totals k a, k <> gid -> get0 gid (F totals (k, a)) = get0 gid totals) ->
  (forall totals a, get0 gid (F totals (gid, a)) == get0 gid totals + a)%Q ->
  NoDup (map fst L) -> sget gid L = Some avg ->
  (get0 gid (fold_left F L totals) == get0 gid totals + avg)%Q.
Proof.
  intros F L. induction L as [|[k a] L IH]; intros totals avg Hoth Hown Hnd Hget;
    [discriminate|].
  inversion Hnd as [|? ? Hn Hnd']; subst. unfold sget in Hget. simpl in Hget.
  cbn [fold_left].
  destruct (string_dec gid k) as [<-|Hk].
  - injection Hget as <-. rewrite fold_keyed_absent by assumption. apply Hown.
  - change (sget gid L = Some avg) in Hget.
    eapply Qeq_trans; [apply (IH _ avg); assumption|].
    rewrite Hoth by congruence. reflexivity.
Qed.

Lemma prev_year_month_forecast : forall totals month avg,
  isForecastMonth transactions month = true ->
  sget gid (baseMonthlyAverages tz transactions guides excludedGuideIds useME) = Some avg ->
  (get0 gid (prev_year_month tz transactions guides excludedGuideIds useME totals month)
   == get0 gid totals + avg)%Q.
Proof.
  intros totals month avg Hf Hget. unfold prev_year_month.
  unfold isForecastMonth in Hf. rewrite Hf.
  apply fold_keyed; [| |apply base_keys_nodup|exact Hget].
  - intros tot k a Hk.
    destruct (negb (isActive guides excludedGuideIds k)
              || is_id (initialBalanceGuideId guides) k); [reflexivity|].
    destruct (is_id (aguinaldoGuideId guides) k);
      [destruct (truthy (nominaGuideId guides)); [destruct (endsWith month "-12")|]|];
      try reflexivity; rewrite get0_set; destruct (string_dec gid k); congruence.
  - intros tot a. rewrite Hactive, Hinit, Hagu. cbn [negb orb].
    rewrite get0_set. destruct (string_dec gid gid); [reflexivity|congruence].
Qed.

Lemma actual_month_fold : forall month l totals,
  (get0 gid (fold_left (fun totals t =>
      if negb (String.eqb (t_guide t) "") then
        sset (t_guide t) (get0 (t_guide t) totals + amountOf useME t)%Q totals
      else totals)
      (filter (fun t => String.eqb (substring 0 7 (t_date t)) month
                        && isActive guides excludedGuideIds (t_guide t)
                        && negb (is_id (initialBalanceGuideId guides) (t_guide t))) l)
      totals)
   == get0 gid totals + month_actual_sum l useME gid month)%Q.
Proof.
  intros month l. unfold month_actual_sum. induction l as [|t l IH]; intros tot.
  - cbn [filter fold_left map]. unfold sumQ. cbn [fold_left]. ring.
  - cbn [filter].
    destruct (String.eqb (substring 0 7 (t_date t)) month) eqn:Hm;
    destruct (String.eqb (t_guide t) gid) eqn:Hg; cbn [andb].
    + apply String.eqb_eq in Hg. rewrite Hg, Hactive, Hinit. cbn [negb andb].
      cbn [fold_left map]. rewrite IH, sumQ_cons, Hg.
      destruct (String.eqb gid "") eqn:He; [apply String.eqb_eq in He; contradiction|].
      cbn [negb]. rewrite get0_set. destruct (string_dec gid gid); [ring|congruence].
    + destruct (isActive guides excludedGuideIds (t_guide t)
                && negb (is_id (initialBalanceGuideId guides) (t_guide t))); cbn [fold_left];
        rewrite IH; [|reflexivity].
      destruct (negb (String.eqb (t_guide t) "")); [|reflexivity].
      rewrite get0_set. apply String.eqb_neq in Hg.
      destruct (string_dec gid (t_guide t)); [congruence|reflexivity].
    + cbn [fold_left]. apply IH.
    + cbn [fold_left]. apply IH.
Qed.

Lemma prev_year_month_actual : forall totals month,
  isForecastMonth transactions month = false ->
  (get0 gid (prev_year_month tz transactions guides excludedGuideIds useME totals month)
   == get0 gid totals + month_actual_sum transactions useME gid month)%Q.
Proof.
  intros totals month Hf. unfold prev_year_month.
  unfold isForecastMonth in Hf. rewrite Hf. apply actual_month_fold.
Qed.

Lemma previousYearTotals_closed : forall avg selectedYear,
  sget gid (baseMonthlyAverages tz transactions guides excludedGuideIds useME) = Some avg ->
  (get0 gid (previousYearTotals tz transactions guides excludedGuideIds useME selectedYear)
   == sumQ (map (fun m => if isForecastMonth transactions m then avg
                          else month_actual_sum transactions useME gid m)
                (year_months (selectedYear - 1))))%Q.
Proof.
  intros avg selectedYear Hget. unfold previousYearTotals.
  assert (H : forall ms totals,
    (get0 gid (fold_left (prev_year_month tz transactions guides excludedGuideIds useME) ms totals)
     == get0 gid totals + sumQ (map (fun m => if isForecastMonth transactions m then avg
                          else month_actual_sum transactions useME gid m) ms))%Q).
  { induction ms as [|m ms IH]; intros totals.
    - cbn [fold_left map]. unfold sumQ. cbn [fold_left]. ring.
    - cbn [fold_left map]. rewrite IH, sumQ_cons.
      destruct (isForecastMonth transactions m) eqn:Hf.
      + rewrite (prev_year_month_forecast _ _ avg) by assumption. ring.
      + rewrite prev_year_month_actual by assumption. ring. }
  rewrite H. unfold get0 at 1. cbn [sget JsMap.get]. ring.
Qed.
End Dampening.

(** C4 (as amended). When every transaction's date is a valid YYYY-MM-DD
    date and the selected year lies after [lastRealDate.getFullYear()], the
    year, in the browser's local time zone [tz], of 12:00 UTC of the last
    transaction's date, the average used for an active guide with trailing average
    [avg] (not the initial-balance or the Aguinaldo guide) is
    [dampen avg P]: [P / 12] when [|avg * 12| > |P|] and [P <> 0], else
    [avg]. Here [P] is the previous year's total of the guide, taken month by
    month: its transactions in a real month, and the undampened trailing
    average [avg] in a forecast month. *)
Theorem C4_yoy_dampening :
  forall tz transactions guides excludedGuideIds useME selectedYear gid avg,
  (forall t, In t transactions -> Dates.parse (t_date t) <> None) ->
  isFutureYear tz transactions selectedYear = true ->
  sget gid (baseMonthlyAverages tz transactions guides excludedGuideIds useME) = Some avg ->
  isActive guides excludedGuideIds gid = true ->
  is_id (initialBalanceGuideId guides) gid = false ->
  is_id (aguinaldoGuideId guides) gid = false ->
  gid <> EmptyString ->
  exists adjusted,
    sget gid (monthlyAverages tz transactions guides excludedGuideIds useME selectedYear)
      = Some adjusted /\
    (adjusted == dampen avg
       (sumQ (map (fun m => if isForecastMonth transactions m then avg
                            else month_actual_sum transactions useME gid m)
                  (year_months (selectedYear - 1)))))%Q.
Proof.
  intros tz transactions guides excludedGuideIds useME selectedYear gid avg
    _ Hfut Hget Hact Hinit Hagu Hne.
  unfold monthlyAverages. rewrite Hfut, sget_map_values, Hget.
  eexists. split; [reflexivity|]. cbn [option_map].
  apply dampen_wd. apply previousYearTotals_closed; assumption.
Qed.

(** A guide with 100 in each of October, November and December 2023 (the
    three months of history) and 300 in June 2023. *)
Definition sales_guides : list Guide := [mkGuide "1" "1-Ventas" false].
Definition sales_transactions : list Transaction :=
  [tx "1" "2023-06-15" Income 300; tx "1" "2023-10-01" Income 100;
   tx "1" "2023-11-01" Income 100; tx "1" "2023-12-31" Income 100].

Example sales_averages :
  (get0 "1" (baseMonthlyAverages utcZone sales_transactions sales_guides [] false) == 100)%Q /\
  (get0 "1" (monthlyAverages utcZone sales_transactions sales_guides [] false 2024) == 50)%Q /\
  (get0 "1" (monthlyAverages utcZone sales_transactions sales_guides [] false 2025) == 100)%Q.
Proof. vm_compute. split; [reflexivity|split; reflexivity]. Qed.

(** The claim's reading of the previous-year total (for comparison with
    [previousYearTotals]): what the view shows for the guide over the twelve
    months of the previous year, that is, the actual totals of its real
    months and that year's own (themselves dampened) forecasts. *)
Definition claim_priorYearTotal (tz : TimeZone) (transactions : list Transaction) (guides : list Guide)
    (excludedGuideIds : list string) (useME : bool) (selectedYear : Z)
    (random : nat -> Q) (gid : string) : Q :=
  let flow := forecast_flowData tz transactions guides excludedGuideIds useME
                (selectedYear - 1) random in
  sumQ (map (fun m => forecastCellAmount gid m (ff_dataByGuide flow)) (ff_months flow)).

Definition claim_adjustedAverage (tz : TimeZone) (transactions : list Transaction) (guides : list Guide)
    (excludedGuideIds : list string) (useME : bool) (selectedYear : Z)
    (random : nat -> Q) (gid : string) : Q :=
  dampen (get0 gid (baseMonthlyAverages tz transactions guides excludedGuideIds useME))
    (claim_priorYearTotal tz transactions guides excludedGuideIds useME selectedYear random gid).

Lemma C4_witness :
  isFutureYear utcZone sales_transactions 2025 = true /\
  exists adjusted,
    sget "1" (monthlyAverages utcZone sales_transactions sales_guides [] false 2025) = Some adjusted /\
    (adjusted == dampen (300 # 3)
       (sumQ (map (fun m => if isForecastMonth sales_transactions m then 300 # 3
                            else month_actual_sum sales_transactions false "1" m)
                  (year_months (2025 - 1)))))%Q.
Proof.
  split; [vm_compute; reflexivity|].
  apply (C4_yoy_dampening utcZone sales_transactions sales_guides [] false 2025 "1" (300 # 3)).
  - intros t Ht. simpl in Ht.
    repeat (destruct Ht as [<-|Ht]; [vm_compute; discriminate|]). contradiction.
  - vm_compute. reflexivity.
  - vm_compute. reflexivity.
  - vm_compute. reflexivity.
  - vm_compute. reflexivity.
  - vm_compute. reflexivity.
  - discriminate.
Defined.

(** C4 as stated fails for 2025: the 2024 forecast of the guide is dampened
    to 50 a month, 600 for the year, so the recursive reading keeps the
    2025 average at 50; the code compares with 12 x 100 = 1200 (forecast
    months of 2024 taken at the trailing average) and uses 100. *)
Lemma C4_counterexample :
  isFutureYear utcZone sales_transactions 2025 = true /\
  (claim_priorYearTotal utcZone sales_transactions sales_guides [] false 2025 (fun _ => 1 # 2) "1"
   == 600)%Q /\
  (claim_adjustedAverage utcZone sales_transactions sales_guides [] false 2025 (fun _ => 1 # 2) "1"
   == 50)%Q /\
  (get0 "1" (monthlyAverages utcZone sales_transactions sales_guides [] false 2025) == 100)%Q.
Proof. vm_compute. split; [reflexivity|split; [reflexivity|split; reflexivity]]. Qed.

(** *** The VAT line of a forecast month (towards C3) *)

(** The forecast value of a [dataByGuide] row for the month, if any. *)
Definition forecastCell (month : string) (row : string * list (string * Cell)) : option Q :=
  match sget month (snd row) with
  | Some c => if c_isForecast c then Some (c_amount c) else None
  | None => None
  end.

Definition cellValue (month : string) (row : string * list (string * Cell)) : Q :=
  match forecastCell month row with Some a => a | None => 0%Q end.

(** Rows counted as VAT income: operating-income guides, whatever the sign. *)
Definition vat_income_row (guides : list Guide) (month : string)
    (row : string * list (string * Cell)) : bool :=
  match forecastCell month row with
  | Some _ => isOperatingIncome guides (fst row)
  | None => false
  end.

(** Rows counted as VAT expense: other guides with a negative value, not in
    the exclusion list. *)
Definition vat_expense_row (guides : list Guide) (month : string)
    (row : string * list (string * Cell)) : bool :=
  match forecastCell month row with
  | Some a => negb (isOperatingIncome guides (fst row)) && qlt a 0
              && negb (isExcludedExpenseForVat guides (fst row))
  | None => false
  end.

Definition vat_lines (guides : list Guide) (month : string)
    (rows : list (string * list (string * Cell))) : list (string * Q) :=
  map (fun row => (guideNameOrUnknown guides (fst row), cellValue month row)) rows.

Lemma vat_fold_closed : forall guides month rows vd,
  fold_left (vat_row_step guides month) rows vd =
  mkVatDetail
    (vd_incomes vd ++ vat_lines guides month (filter (vat_income_row guides month) rows))
    (vd_expenses vd ++ vat_lines guides month (filter (vat_expense_row guides month) rows))
    (fold_left Qplus (map (cellValue month) (filter (vat_income_row guides month) rows))
       (vd_totalIncome vd))
    (fold_left Qplus (map (cellValue month) (filter (vat_expense_row guides month) rows))
       (vd_totalExpense vd))
    (vd_ivaCobrado vd) (vd_ivaAcreditable vd) (vd_netVat vd).
Proof.
  intros guides month rows. induction rows as [|[g md] rows IH]; intros vd.
  - destruct vd. cbn. rewrite !app_nil_r. reflexivity.
  - cbn [fold_left filter]. rewrite IH.
    unfold vat_row_step, vat_income_row, vat_expense_row, cellValue, forecastCell.
    cbn [fst snd].
    destruct (sget month md) as [c|] eqn:E; [|reflexivity].
    destruct (c_isForecast c) eqn:F; [|reflexivity].
    destruct (isOperatingIncome guides g); cbn [negb andb].
    + unfold vat_lines, cellValue, forecastCell. cbn. rewrite E, F, <- app_assoc.
      reflexivity.
    + destruct (qlt (c_amount c) 0 && negb (isExcludedExpenseForVat guides g)); [|reflexivity].
      unfold vat_lines, cellValue, forecastCell. cbn. rewrite E, F, <- app_assoc.
      reflexivity.
Qed.

Lemma guide_steps_vat_details : forall tz transactions guides excludedGuideIds useME
    selectedYear random month L st,
  fs_vatDetailsByMonth (fold_left (forecast_guide_step tz transactions guides excludedGuideIds
                                     useME selectedYear random month) L st)
  = fs_vatDetailsByMonth st.
Proof.
  intros until L. induction L as [|h L IH]; intros st; [reflexivity|].
  cbn [fold_left]. rewrite IH. unfold forecast_guide_step.
  destruct (is_id (vatGuideId guides) (g_id h)); [reflexivity|].
  repeat match goal with
    | |- context [if ?b then _ else _] => destruct b
    | |- context [match ?o with Some _ => _ | None => _ end] => destruct o
    end; reflexivity.
Qed.

(** Claim-words reading of the VAT computation: every negative forecast value
    of a category outside the exclusion list is an expense. *)
Definition claim_vat_expense_row (guides : list Guide) (month : string)
    (row : string * list (string * Cell)) : bool :=
  match forecastCell month row with
  | Some a => qlt a 0 && negb (isExcludedExpenseForVat guides (fst row))
  | None => false
  end.

Definition claim_netVat (guides : list Guide) (month : string)
    (rows : list (string * list (string * Cell))) : Q :=
  let totalIncome := sumQ (map (cellValue month) (filter (vat_income_row guides month) rows)) in
  let totalExpense :=
    sumQ (map (cellValue month) (filter (claim_vat_expense_row guides month) rows)) in
  (- (totalIncome / (116 # 100) * (16 # 100)
      - Qabs totalExpense / (116 # 100) * (16 # 100)))%Q.

(** A sales category whose code starts with [P1234] and a VAT category. *)
Definition vat_guides : list Guide :=
  [mkGuide "1" "P1234 Ventas" false; mkGuide "2" "29-IVA" false].

Definition vat_transactions : list Transaction :=
  [tx "1" "2024-01-15" Income (-100)].

(** C3: in a forecast month, once every non-VAT category has been forecast,
    and when a VAT category exists and is active, the VAT figures of the month
    are computed from the forecast rows. Income is the sum over operating-income
    categories ([P] and four digits), whatever their sign. Expense is the sum of
    the negative values of the other categories outside the exclusion list.
    The collected and creditable VAT are 16/116 of the income and of the
    absolute expense, and the net value is minus their difference. The VAT cell and the
    monthly breakdown are stored only when the net value exceeds 0.01 in
    absolute value; otherwise nothing is stored. *)
Theorem C3_vat_forecast : forall tz transactions guides excludedGuideIds useME selectedYear
    random st month vat,
  isForecastMonth transactions month = true ->
  truthy (vatGuideId guides) = Some vat ->
  isActive guides excludedGuideIds vat = true ->
  let rows := fs_dataByGuide
                (fold_left (forecast_guide_step tz transactions guides excludedGuideIds useME
                              selectedYear random month)
                   (activeGuides guides excludedGuideIds) st) in
  let incomeRows := filter (vat_income_row guides month) rows in
  let expenseRows := filter (vat_expense_row guides month) rows in
  let totalIncome := sumQ (map (cellValue month) incomeRows) in
  let totalExpense := sumQ (map (cellValue month) expenseRows) in
  let ivaCobrado := (totalIncome / (116 # 100) * (16 # 100))%Q in
  let ivaAcreditable := (Qabs totalExpense / (116 # 100) * (16 # 100))%Q in
  let netVat := (- (ivaCobrado - ivaAcreditable))%Q in
  let st' := month_step tz transactions guides excludedGuideIds useME selectedYear random
               st month in
  if qlt (1 # 100) (Qabs netVat) then
    cellOf vat month (fs_dataByGuide st') = Some (mkCell netVat true) /\
    sget month (fs_vatDetailsByMonth st') =
      Some (mkVatDetail (vat_lines guides month incomeRows) (vat_lines guides month expenseRows)
              totalIncome totalExpense ivaCobrado ivaAcreditable netVat)
  else
    fs_dataByGuide st' = rows /\ fs_vatDetailsByMonth st' = fs_vatDetailsByMonth st.
Proof.
  intros tz transactions guides excludedGuideIds useME selectedYear random st month vat
    Hf Hv Hact rows incomeRows expenseRows totalIncome totalExpense ivaCobrado
    ivaAcreditable netVat st'.
  subst st'. unfold month_step. rewrite Hf.
  set (st1 := fold_left _ _ st) in *.
  unfold vat_step. rewrite Hv, Hact.
  rewrite vat_fold_closed. cbn [vd_incomes vd_expenses vd_totalIncome vd_totalExpense
    vd_ivaCobrado vd_ivaAcreditable vd_netVat emptyVatDetail app].
  fold rows incomeRows expenseRows.
  change (fold_left Qplus (map (cellValue month) incomeRows) 0%Q) with totalIncome.
  change (fold_left Qplus (map (cellValue month) expenseRows) 0%Q) with totalExpense.
  fold ivaCobrado ivaAcreditable netVat.
  destruct (qlt (1 # 100) (Qabs netVat)); cbn [fs_dataByGuide fs_vatDetailsByMonth].
  - split; [apply cellOf_set_cell_same | apply sget_sset_eq].
  - split; [reflexivity|]. subst st1. apply guide_steps_vat_details.
Qed.

Lemma C3_witness :
  isForecastMonth vat_transactions "2024-02" = true /\
  exists c, cellOf "2" "2024-02"
              (fs_dataByGuide (month_step utcZone vat_transactions vat_guides [] false 2024
                                 (fun _ => 1 # 2) (mkFState [] [] [] 0) "2024-02"))
            = Some c /\ c_isForecast c = true.
Proof.
  split; [vm_compute; reflexivity|].
  pose proof (C3_vat_forecast utcZone vat_transactions vat_guides [] false 2024 (fun _ => 1 # 2)
                (mkFState [] [] [] 0) "2024-02" "2"
                ltac:(vm_compute; reflexivity) ltac:(vm_compute; reflexivity)
                ltac:(vm_compute; reflexivity)) as H.
  cbv zeta in H.
  match type of H with
  | context [if ?b then _ else _] =>
      assert (Hb : b = true) by (vm_compute; reflexivity); rewrite Hb in H
  end.
  destruct H as [Hc _]. eexists; split; [exact Hc | reflexivity].
Defined.

(** A negative operating-income row counts as income only; the claim's reading
    also counts it as an expense. In February 2024 the code stores a VAT value
    of 400/29 (about 13.79), the claim's reading gives 800/29. *)
Lemma C3_counterexample :
  let fl := forecast_flowData utcZone vat_transactions vat_guides [] false 2024 (fun _ => 1 # 2) in
  (forecastCellAmount "2" "2024-02" (ff_dataByGuide fl) == 400 # 29)%Q /\
  (claim_netVat vat_guides "2024-02" (sdel "2" (ff_dataByGuide fl)) == 800 # 29)%Q.
Proof. split; vm_compute; reflexivity. Qed.

(** * Further properties of the flow views *)

(** ** Forecast view: dampened averages and monthly totals *)

Lemma sumQ_app : forall l1 l2, (sumQ (l1 ++ l2) == sumQ l1 + sumQ l2)%Q.
Proof.
  intros l1 l2. unfold sumQ. rewrite fold_left_app, fold_Qplus_acc. reflexivity.
Qed.

Lemma qlt_spec : forall x y, qlt x y = true <-> (x < y)%Q.
Proof.
  intros x y. unfold qlt. destruct (Qlt_le_dec x y) as [H|H]; split; intros E;
  try assumption; try reflexivity; try discriminate.
  exfalso. apply (Qlt_not_le _ _ E H).
Qed.

(** Dampening never increases the magnitude of an average. *)
Lemma dampen_abs_le : forall avg prev, (Qabs (dampen avg prev) <= Qabs avg)%Q.
Proof.
  intros avg prev. unfold dampen.
  destruct (Qlt_le_dec (Qabs prev) (Qabs (avg * 12))) as [H|H]; [|apply Qle_refl].
  destruct (Qeq_dec prev 0); [apply Qle_refl|].
  rewrite Qabs_Qmult in H. change (Qabs 12) with 12%Q in H.
  unfold Qdiv. rewrite Qabs_Qmult. change (Qabs (/ 12)) with (1 # 12)%Q. lra.
Qed.

(** X1. When every transaction's date is a valid YYYY-MM-DD date, the
    monthly average the forecast uses for a guide never exceeds the guide's
    trailing average in magnitude, and in a year that is not after
    [lastRealDate.getFullYear()] (local time zone [tz]) it is the trailing
    average itself. *)
Theorem X1_monthlyAverages_not_amplified :
  forall tz transactions guides excludedGuideIds useME selectedYear gid avg,
  (forall t, In t transactions -> Dates.parse (t_date t) <> None) ->
  sget gid (baseMonthlyAverages tz transactions guides excludedGuideIds useME) = Some avg ->
  exists a,
    sget gid (monthlyAverages tz transactions guides excludedGuideIds useME selectedYear)
      = Some a /\
    (Qabs a <= Qabs avg)%Q /\
    (isFutureYear tz transactions selectedYear = false -> a = avg).
Proof.
  intros tz transactions guides excludedGuideIds useME selectedYear gid avg _ Hget.
  unfold monthlyAverages. destruct (isFutureYear tz transactions selectedYear).
  - rewrite sget_map_values, Hget. eexists. split; [reflexivity|].
    split; [apply dampen_abs_le|discriminate].
  - rewrite Hget. exists avg. split; [reflexivity|]. split; [apply Qle_refl|reflexivity].
Qed.

Lemma X1_witness :
  sget "1" (baseMonthlyAverages utcZone sales_transactions sales_guides [] false) = Some (300 # 3)%Q /\
  exists a,
    sget "1" (monthlyAverages utcZone sales_transactions sales_guides [] false 2024) = Some a /\
    (Qabs a <= Qabs (300 # 3))%Q /\
    (isFutureYear utcZone sales_transactions 2024 = false -> a = (300 # 3)%Q).
Proof.
  assert (H : sget "1" (baseMonthlyAverages utcZone sales_transactions sales_guides [] false)
              = Some (300 # 3)%Q) by (vm_compute; reflexivity).
  split; [exact H|].
  apply (X1_monthlyAverages_not_amplified utcZone sales_transactions sales_guides [] false 2024
           "1" (300 # 3)); [|exact H].
  intros t Ht. simpl in Ht.
  repeat (destruct Ht as [<-|Ht]; [vm_compute; discriminate|]). contradiction.
Defined.

(** The amounts a guide's cells hold for a month. *)
Definition cells_of (m : string) (gd : list (string * Cell)) : list Q :=
  map (fun p => c_amount (snd p)) (filter (fun p => String.eqb (fst p) m) gd).

(** The amounts of all cells of the month, over every guide. *)
Definition month_cells (m : string) (data : list (string * list (string * Cell))) : list Q :=
  flat_map (fun p => cells_of m (snd p)) data.

Definition positive_part (l : list Q) : list Q := filter (qlt 0) l.
Definition nonpositive_part (l : list Q) : list Q := filter (fun a => negb (qlt 0 a)) l.

Definition ftot_rel (tot tot' : FTotals) (l : list Q) : Prop :=
  (ft_income tot' == ft_income tot + sumQ (positive_part l))%Q /\
  (ft_expense tot' == ft_expense tot + sumQ (nonpositive_part l))%Q /\
  (ft_net tot' == ft_net tot + sumQ l)%Q /\
  ft_isForecast tot' = ft_isForecast tot.

Lemma ftot_rel_nil : forall tot, ftot_rel tot tot [].
Proof. intros tot. unfold ftot_rel, sumQ. simpl. repeat split; ring. Qed.

Lemma ftot_rel_trans : forall t1 t2 t3 l1 l2,
  ftot_rel t1 t2 l1 -> ftot_rel t2 t3 l2 -> ftot_rel t1 t3 (l1 ++ l2).
Proof.
  intros t1 t2 t3 l1 l2 [A1 [B1 [C1 D1]]] [A2 [B2 [C2 D2]]].
  unfold ftot_rel, positive_part, nonpositive_part in *. rewrite !filter_app, !sumQ_app.
  repeat split; [rewrite A2, A1|rewrite B2, B1|rewrite C2, C1|congruence]; ring.
Qed.

Lemma ftot_rel_step : forall tot a,
  ftot_rel tot
    (mkFTotals (if qlt 0 a then ft_income tot + a else ft_income tot)%Q
               (if qlt 0 a then ft_expense tot else ft_expense tot + a)%Q
               (ft_net tot + a)%Q (ft_isForecast tot)) [a].
Proof.
  intros tot a. unfold ftot_rel, positive_part, nonpositive_part, sumQ. simpl.
  destruct (qlt 0 a); simpl; repeat split; ring.
Qed.

Lemma forecast_totals_inner : forall m gd totals tot,
  sget m totals = Some tot ->
  exists tot',
    sget m (fold_left (fun totals '(month, c) =>
      match sget month totals with
      | Some tot =>
          let a := c_amount c in
          sset month
            (mkFTotals (if qlt 0 a then ft_income tot + a else ft_income tot)%Q
                       (if qlt 0 a then ft_expense tot else ft_expense tot + a)%Q
                       (ft_net tot + a)%Q (ft_isForecast tot)) totals
      | None => totals
      end) gd totals) = Some tot' /\ ftot_rel tot tot' (cells_of m gd).
Proof.
  intros m gd. induction gd as [|[k c] gd IH]; intros totals tot Hm.
  - exists tot. split; [assumption|apply ftot_rel_nil].
  - cbn [fold_left]. unfold cells_of. cbn [filter fst].
    destruct (String.eqb_spec k m) as [->|Hne].
    + rewrite Hm. edestruct IH as [tot' [H1 H2]]; [apply sget_sset_eq|].
      exists tot'. split; [exact H1|].
      apply (ftot_rel_trans _ _ _ [c_amount c] _ (ftot_rel_step tot (c_amount c)) H2).
    + assert (Hm' : sget m (match sget k totals with
                            | Some tot0 => sset k (mkFTotals
                                (if qlt 0 (c_amount c) then ft_income tot0 + c_amount c
                                 else ft_income tot0)%Q
                                (if qlt 0 (c_amount c) then ft_expense tot0
                                 else ft_expense tot0 + c_amount c)%Q
                                (ft_net tot0 + c_amount c)%Q (ft_isForecast tot0)) totals
                            | None => totals end) = Some tot).
      { destruct (sget k totals); [|assumption].
        unfold sget, sset. rewrite JsMap.get_set_neq by congruence. exact Hm. }
      exact (IH _ tot Hm').
Qed.

Lemma sget_map_keys : forall {V} (f : string -> V) (l : list string) m,
  In m l -> sget m (map (fun k => (k, f k)) l) = Some (f m).
Proof.
  intros V f l m. induction l as [|k l IH]; intros Hin; [destruct Hin|].
  unfold sget in *. simpl. destruct (string_dec m k) as [->|Hne]; [reflexivity|].
  apply IH. destruct Hin; [congruence|assumption].
Qed.

Lemma forecast_totals_outer : forall m (data : list (string * list (string * Cell)))
    (totals : list (string * FTotals)) tot,
  sget m totals = Some tot ->
  exists tot',
    sget m (fold_left (fun totals '(_, guideData) =>
      fold_left (fun totals '(month, c) =>
        match sget month totals with
        | Some tot =>
            let a := c_amount c in
            sset month
              (mkFTotals (if qlt 0 a then ft_income tot + a else ft_income tot)%Q
                         (if qlt 0 a then ft_expense tot else ft_expense tot + a)%Q
                         (ft_net tot + a)%Q (ft_isForecast tot)) totals
        | None => totals
        end) guideData totals) data totals) = Some tot' /\
    ftot_rel tot tot' (month_cells m data).
Proof.
  intros m data. induction data as [|[g gd] data IH]; intros totals tot Hm.
  - exists tot. split; [assumption|apply ftot_rel_nil].
  - cbn [fold_left]. destruct (forecast_totals_inner m gd totals tot Hm) as [t1 [H1 R1]].
    destruct (IH _ _ H1) as [t2 [H2 R2]]. exists t2. split; [exact H2|].
    exact (ftot_rel_trans _ _ _ _ _ R1 R2).
Qed.

Lemma sumQ_positive_part : forall l, (0 <= sumQ (positive_part l))%Q.
Proof.
  induction l as [|a l IH]; [apply Qle_refl|]. unfold positive_part in *. cbn [filter].
  destruct (qlt 0 a) eqn:E; [|exact IH].
  apply qlt_spec in E. rewrite sumQ_cons. lra.
Qed.

Lemma sumQ_nonpositive_part : forall l, (sumQ (nonpositive_part l) <= 0)%Q.
Proof.
  induction l as [|a l IH]; [apply Qle_refl|]. unfold nonpositive_part in *. cbn [filter].
  destruct (qlt 0 a) eqn:E; cbn [negb]; [exact IH|].
  assert (Ha : ~ (0 < a)%Q) by (intros C; apply qlt_spec in C; congruence).
  rewrite sumQ_cons. apply Qnot_lt_le in Ha. lra.
Qed.

Lemma sumQ_sign_split : forall l,
  (sumQ l == sumQ (positive_part l) + sumQ (nonpositive_part l))%Q.
Proof.
  induction l as [|a l IH]; [reflexivity|]. unfold positive_part, nonpositive_part in *.
  cbn [filter]. destruct (qlt 0 a); cbn [negb]; rewrite !sumQ_cons, IH; ring.
Qed.

(** X2. In the forecast view, the totals of a month of the selected year
    classify every cell of the month by its sign: income is the sum of the
    positive cells, expense the sum of the others (so income >= 0 and
    expense <= 0), and net the sum of all cells (so net = income + expense). *)
Theorem X2_forecast_totals_by_sign :
  forall transactions selectedYear data m,
  In m (year_months selectedYear) ->
  exists tot,
    sget m (forecast_totals transactions selectedYear data) = Some tot /\
    (ft_income tot == sumQ (positive_part (month_cells m data)))%Q /\
    (ft_expense tot == sumQ (nonpositive_part (month_cells m data)))%Q /\
    (ft_net tot == sumQ (month_cells m data))%Q /\
    (ft_net tot == ft_income tot + ft_expense tot)%Q /\
    (0 <= ft_income tot)%Q /\ (ft_expense tot <= 0)%Q.
Proof.
  intros transactions selectedYear data m Hin. unfold forecast_totals.
  destruct (forecast_totals_outer m data _ (mkFTotals 0 0 0 (isForecastMonth transactions m))
              (sget_map_keys (fun k => mkFTotals 0 0 0 (isForecastMonth transactions k))
                 (year_months selectedYear) m Hin)) as [tot [H [HI [HE [HN HF]]]]].
  cbn [ft_income ft_expense ft_net ft_isForecast] in HI, HE, HN, HF.
  exists tot. split; [exact H|].
  pose proof (sumQ_positive_part (month_cells m data)).
  pose proof (sumQ_nonpositive_part (month_cells m data)).
  pose proof (sumQ_sign_split (month_cells m data)).
  repeat split; try assumption; lra.
Qed.

Definition totals_data : list (string * list (string * Cell)) :=
  [("1"%string, [("2024-03"%string, mkCell 5 false); ("2024-04"%string, mkCell 1 true)]);
   ("2"%string, [("2024-03"%string, mkCell (-2) false)])].

Lemma X2_witness :
  In "2024-03"%string (year_months 2024) /\
  exists tot, sget "2024-03" (forecast_totals [] 2024 totals_data) = Some tot /\
    (ft_income tot == 5)%Q /\ (ft_expense tot == -2)%Q /\ (ft_net tot == 3)%Q.
Proof.
  assert (Hin : In "2024-03"%string (year_months 2024)) by (vm_compute; tauto).
  split; [exact Hin|].
  destruct (X2_forecast_totals_by_sign [] 2024 totals_data "2024-03" Hin)
    as [tot [H [HI [HE [HN _]]]]].
  exists tot. split; [exact H|].
  rewrite HI, HE, HN. split; [|split]; vm_compute; reflexivity.
Defined.

(** ** Calendar: day numbers and civil dates

    [days_from_civil] and [civil_from_days] are inverse bijections between
    day numbers and valid civil dates. The proof cuts a day number into a
    400-year era and a day of the era, [cal_F] counts the 365-day years
    elapsed in the era, and [cal_B k] is the first day of year [k] of the
    era (years start on March 1). *)

Definition cal_B (k : Z) : Z := k * 365 + k / 4 - k / 100.
Definition cal_F (doe : Z) : Z := doe - doe / 1460 + doe / 36524 - doe / 146096.
Definition cal_U (k : Z) : Z := if k =? 399 then 146097 else cal_B (k + 1).

Lemma cal_F_step : forall n, 0 <= n < 146096 -> cal_F n <= cal_F (n + 1).
Proof. intros n Hn. unfold cal_F. Z.div_mod_to_equations. lia. Qed.

Lemma cal_F_mono : forall a b, 0 <= a -> a <= b -> b <= 146096 -> cal_F a <= cal_F b.
Proof.
  intros a b Ha Hab Hb.
  assert (G : forall n : nat, a + Z.of_nat n <= 146096 -> cal_F a <= cal_F (a + Z.of_nat n)).
  { induction n as [|n IH]; intros Hn.
    - rewrite Z.add_0_r. lia.
    - rewrite Nat2Z.inj_succ. replace (a + Z.succ (Z.of_nat n)) with (a + Z.of_nat n + 1) by lia.
      pose proof (cal_F_step (a + Z.of_nat n) ltac:(lia)). specialize (IH ltac:(lia)). lia. }
  replace b with (a + Z.of_nat (Z.to_nat (b - a))) by lia. apply G. lia.
Qed.

Lemma forallb_Zrange : forall (p : Z -> bool) lo n,
  forallb (fun i => p (lo + Z.of_nat i)) (seq 0 n) = true ->
  forall k, lo <= k < lo + Z.of_nat n -> p k = true.
Proof.
  intros p lo n H k Hk. rewrite forallb_forall in H.
  specialize (H (Z.to_nat (k - lo))). rewrite in_seq in H.
  replace (lo + Z.of_nat (Z.to_nat (k - lo))) with k in H by lia. apply H. lia.
Qed.

Definition cal_year_ok (k : Z) : bool :=
  (cal_F (cal_B k) =? 365 * k) && (cal_F (cal_U k - 1) <=? 365 * k + 364)
  && (cal_U k - cal_B k =? if Dates.is_leap (k + 1) then 366 else 365)
  && (0 <=? cal_B k) && (cal_U k <=? 146097).

Lemma cal_year_ok_all : forall k, 0 <= k < 400 -> cal_year_ok k = true.
Proof.
  apply (forallb_Zrange cal_year_ok 0 400). vm_compute. reflexivity.
Qed.

Lemma cal_year_facts : forall k, 0 <= k < 400 ->
  cal_F (cal_B k) = 365 * k /\ cal_F (cal_U k - 1) <= 365 * k + 364 /\
  cal_U k - cal_B k = (if Dates.is_leap (k + 1) then 366 else 365) /\
  0 <= cal_B k /\ cal_U k <= 146097.
Proof.
  intros k Hk. pose proof (cal_year_ok_all k Hk) as H. unfold cal_year_ok in H.
  rewrite !andb_true_iff, !Z.eqb_eq, !Z.leb_le in H. tauto.
Qed.

Lemma cal_year_unique : forall k doe, 0 <= k < 400 -> cal_B k <= doe < cal_U k ->
  cal_F doe / 365 = k.
Proof.
  intros k doe Hk Hd. destruct (cal_year_facts k Hk) as [H1 [H2 [H3 [H4 H5]]]].
  pose proof (cal_F_mono (cal_B k) doe H4 (proj1 Hd) ltac:(lia)).
  pose proof (cal_F_mono doe (cal_U k - 1) ltac:(lia) ltac:(lia) ltac:(lia)).
  symmetry. apply Z.div_unique with (r := cal_F doe - 365 * k); lia.
Qed.

Lemma cal_year_of : forall doe, 0 <= doe < 146097 ->
  0 <= cal_F doe / 365 < 400 /\ cal_B (cal_F doe / 365) <= doe < cal_U (cal_F doe / 365).
Proof.
  intros doe Hd.
  pose proof (cal_F_mono 0 doe ltac:(lia) ltac:(lia) ltac:(lia)) as M0.
  pose proof (cal_F_mono doe 146096 ltac:(lia) ltac:(lia) ltac:(lia)) as M1.
  change (cal_F 0) with 0 in M0. change (cal_F 146096) with 145999 in M1.
  set (k := cal_F doe / 365).
  assert (Hk : 0 <= k < 400) by (subst k; Z.div_mod_to_equations; lia).
  assert (Hq : 365 * k <= cal_F doe < 365 * k + 365) by (subst k; Z.div_mod_to_equations; lia).
  split; [exact Hk|].
  destruct (cal_year_facts k Hk) as [H1 [H2 [H3 [H4 H5]]]].
  split.
  - destruct (Z.lt_ge_cases doe (cal_B k)) as [Hlt|]; [exfalso|assumption].
    destruct (Z.eq_dec k 0) as [E|E]; [rewrite E in Hlt; change (cal_B 0) with 0 in Hlt; lia|].
    destruct (cal_year_facts (k - 1) ltac:(lia)) as [G1 [G2 [G3 [G4 G5]]]].
    assert (EU : cal_U (k - 1) = cal_B k).
    { unfold cal_U. destruct (Z.eqb_spec (k - 1) 399); [lia|]. f_equal. lia. }
    pose proof (cal_F_mono doe (cal_U (k - 1) - 1) ltac:(lia) ltac:(lia) ltac:(lia)). lia.
  - destruct (Z.lt_ge_cases doe (cal_U k)) as [|Hge]; [assumption|exfalso].
    unfold cal_U in Hge, H5. destruct (Z.eqb_spec k 399); [lia|].
    destruct (cal_year_facts (k + 1) ltac:(lia)) as [G1 [G2 [G3 [G4 G5]]]].
    pose proof (cal_F_mono (cal_B (k + 1)) doe G4 Hge ltac:(lia)). lia.
Qed.

Definition cal_month_ok (doy : Z) : bool :=
  let mp := (5 * doy + 2) / 153 in
  let d := doy - (153 * mp + 2) / 5 + 1 in
  let m := if mp <? 10 then mp + 3 else mp - 9 in
  (1 <=? m) && (m <=? 12) && (1 <=? d)
  && (d <=? (if doy =? 365 then 29 else Dates.days_in_month 2001 m))
  && ((m + 9) mod 12 =? mp)
  && (negb (doy =? 365) || (m =? 2)).

Lemma cal_month_ok_all : forall doy, 0 <= doy <= 365 -> cal_month_ok doy = true.
Proof.
  intros doy H. apply (forallb_Zrange cal_month_ok 0 366); [vm_compute; reflexivity|lia].
Qed.

Lemma is_leap_400 : forall e j, Dates.is_leap (j + e * 400) = Dates.is_leap j.
Proof.
  intros e j. unfold Dates.is_leap.
  replace (j + e * 400) with (j + (e * 100) * 4) at 1 by ring. rewrite Z_mod_plus_full.
  replace (j + e * 400) with (j + (e * 4) * 100) at 1 by ring. rewrite Z_mod_plus_full.
  rewrite Z_mod_plus_full. reflexivity.
Qed.

Lemma days_in_month_min : forall y m, Dates.days_in_month 2001 m <= Dates.days_in_month y m.
Proof.
  intros y m. unfold Dates.days_in_month.
  destruct (m =? 2); [destruct (Dates.is_leap y); cbn; lia|lia].
Qed.

Lemma civil_from_days_spec : forall z y m d, Dates.civil_from_days z = (y, m, d) ->
  1 <= m <= 12 /\ 1 <= d <= Dates.days_in_month y m /\ Dates.days_from_civil y m d = z.
Proof.
  intros z y m d E. unfold Dates.civil_from_days in E. cbv zeta in E.
  set (z' := z + 719468) in E. set (era := z' / 146097) in E.
  set (doe := z' - era * 146097) in E.
  assert (Hd : 0 <= doe < 146097) by (subst doe era; Z.div_mod_to_equations; lia).
  change ((doe - doe / 1460 + doe / 36524 - doe / 146096) / 365) with (cal_F doe / 365) in E.
  destruct (cal_year_of doe Hd) as [Hk HB]. set (k := cal_F doe / 365) in *.
  destruct (cal_year_facts k Hk) as [_ [_ [HL [_ _]]]].
  set (doy := doe - (365 * k + k / 4 - k / 100)) in E.
  assert (Hdoy : 0 <= doy <= 365).
  { unfold cal_B in HB, HL. destruct (Dates.is_leap (k + 1)); subst doy; lia. }
  pose proof (cal_month_ok_all doy Hdoy) as Hm. unfold cal_month_ok in Hm. cbv zeta in Hm.
  set (mp := (5 * doy + 2) / 153) in *.
  set (dd := doy - (153 * mp + 2) / 5 + 1) in *.
  set (mm := if mp <? 10 then mp + 3 else mp - 9) in *.
  rewrite !andb_true_iff, !Z.leb_le, Z.eqb_eq, orb_true_iff, negb_true_iff, !Z.eqb_eq,
    Z.eqb_neq in Hm.
  destruct Hm as [[[[[H1 H2] H3] H4] H5] H6].
  inversion E; subst y m d. clear E.
  assert (Hy : (if mm <=? 2 then k + era * 400 + 1 else k + era * 400)
               = (if mm <=? 2 then 1 else 0) + k + era * 400)
    by (destruct (mm <=? 2); ring).
  rewrite Hy. split; [lia|]. split.
  - split; [lia|]. destruct (Z.eqb_spec doy 365) as [E365|N365].
    + destruct H6 as [H6|H6]; [contradiction|]. rewrite H6 in *.
      change (2 <=? 2) with true. unfold Dates.days_in_month. change (2 =? 2) with true.
      cbv iota. replace (1 + k + era * 400) with ((k + 1) + era * 400) by ring.
      rewrite is_leap_400. destruct (Dates.is_leap (k + 1)); [lia|].
      unfold cal_B in HB, HL. subst doy. lia.
    + pose proof (days_in_month_min ((if mm <=? 2 then 1 else 0) + k + era * 400) mm). lia.
  - unfold Dates.days_from_civil. cbv zeta. rewrite H5.
    assert (Hy' : (if mm <=? 2 then (if mm <=? 2 then 1 else 0) + k + era * 400 - 1
                   else (if mm <=? 2 then 1 else 0) + k + era * 400) = k + era * 400)
      by (destruct (mm <=? 2); ring).
    rewrite Hy'.
    assert (He : (k + era * 400) / 400 = era) by (Z.div_mod_to_equations; lia).
    rewrite He. replace (k + era * 400 - era * 400) with k by ring.
    subst dd doy doe. Z.div_mod_to_equations. lia.
Qed.

Definition cal_md_ok (m d : Z) : bool :=
  let mp := (m + 9) mod 12 in
  let doy := (153 * mp + 2) / 5 + d - 1 in
  ((5 * doy + 2) / 153 =? mp) && ((if mp <? 10 then mp + 3 else mp - 9) =? m)
  && (0 <=? doy) && (doy <=? 365) && (negb (doy =? 365) || ((m =? 2) && (d =? 29))).

Lemma cal_md_ok_all : forall y m d, 1 <= m <= 12 -> 1 <= d <= Dates.days_in_month y m ->
  cal_md_ok m d = true.
Proof.
  intros y m d Hm Hd.
  assert (Hd' : d <= Dates.days_in_month 2000 m).
  { unfold Dates.days_in_month in *. destruct (m =? 2); [destruct (Dates.is_leap y); cbn in *|]; lia. }
  assert (C : forall m, 1 <= m < 1 + Z.of_nat 12 ->
            (fun m => forallb (fun i => let d := 1 + Z.of_nat i in
                 negb (d <=? Dates.days_in_month 2000 m) || cal_md_ok m d) (seq 0 31)) m = true).
  { apply forallb_Zrange. vm_compute. reflexivity. }
  specialize (C m ltac:(cbn; lia)). cbv beta in C.
  pose proof (forallb_Zrange (fun d => negb (d <=? Dates.days_in_month 2000 m) || cal_md_ok m d)
                1 31 C d ltac:(assert (Dates.days_in_month 2000 m <= 31)
                                 by (unfold Dates.days_in_month; repeat destruct (_ =? _); cbn; lia);
                               cbn; lia)) as H.
  cbv beta in H. apply Z.leb_le in Hd'. rewrite Hd' in H. exact H.
Qed.

Lemma civil_from_days_of_civil : forall y m d,
  1 <= m <= 12 -> 1 <= d <= Dates.days_in_month y m ->
  Dates.civil_from_days (Dates.days_from_civil y m d) = (y, m, d).
Proof.
  intros y m d Hm Hd. pose proof (cal_md_ok_all y m d Hm Hd) as C.
  unfold cal_md_ok in C. cbv zeta in C.
  unfold Dates.days_from_civil. cbv zeta.
  set (y' := if m <=? 2 then y - 1 else y). set (era := y' / 400).
  set (yoe := y' - era * 400). set (mp := (m + 9) mod 12) in *.
  set (doy := (153 * mp + 2) / 5 + d - 1) in *.
  rewrite !andb_true_iff, !Z.leb_le, orb_true_iff, negb_true_iff, andb_true_iff, !Z.eqb_eq,
    Z.eqb_neq in C.
  destruct C as [[[[C1 C2] C3] C4] C5].
  assert (Hyoe : 0 <= yoe < 400) by (subst yoe era; Z.div_mod_to_equations; lia).
  destruct (cal_year_facts yoe Hyoe) as [_ [_ [HL [HB0 HU]]]].
  assert (Hdoy : doy < cal_U yoe - cal_B yoe).
  { rewrite HL. destruct (Z.eqb_spec doy 365) as [E|E]; [|destruct (Dates.is_leap (yoe + 1)); lia].
    destruct C5 as [C5|[Em Ed]]; [contradiction|].
    assert (Hl : Dates.is_leap (yoe + 1) = true).
    { assert (Ey : y' = y - 1) by (subst y'; rewrite Em; reflexivity).
      replace (yoe + 1) with (y + (- era) * 400) by (subst yoe; lia).
      rewrite is_leap_400. rewrite Em, Ed in Hd.
      unfold Dates.days_in_month in Hd. change (2 =? 2) with true in Hd. cbv iota in Hd.
      destruct (Dates.is_leap y); [reflexivity|lia]. }
    rewrite Hl. lia. }
  set (doe := yoe * 365 + yoe / 4 - yoe / 100 + doy).
  assert (Hdoe : cal_B yoe <= doe < cal_U yoe) by (unfold cal_B in *; subst doe; lia).
  unfold Dates.civil_from_days. cbv zeta.
  assert (E1 : (era * 146097 + doe - 719468 + 719468) / 146097 = era)
    by (Z.div_mod_to_equations; lia).
  rewrite E1. replace (era * 146097 + doe - 719468 + 719468 - era * 146097) with doe by ring.
  pose proof (cal_year_unique yoe doe Hyoe Hdoe) as E2. unfold cal_F in E2. rewrite E2.
  replace (doe - (365 * yoe + yoe / 4 - yoe / 100)) with doy by (subst doe; ring).
  rewrite C1. replace (doy - (153 * mp + 2) / 5 + 1) with d by (subst doy; ring).
  rewrite C2. f_equal. f_equal.
  subst yoe y'. destruct (m <=? 2); ring.
Qed.

(** ** Date strings: [Dates.iso] and [Dates.parse] are inverse on years 0-9999 *)
Lemma digit_digit_char : forall k, 0 <= k <= 9 -> Dates.digit (Dates.digit_char k) = Some k.
Proof.
  intros k Hk.
  assert (k = 0 \/ k = 1 \/ k = 2 \/ k = 3 \/ k = 4 \/ k = 5 \/ k = 6 \/ k = 7 \/ k = 8 \/ k = 9)
    as C by lia.
  repeat destruct C as [->|C]; try reflexivity. subst k. reflexivity.
Qed.

Lemma digit_char_digit : forall c k, Dates.digit c = Some k ->
  Dates.digit_char k = c /\ 0 <= k <= 9.
Proof.
  intros c k H. unfold Dates.digit in H.
  destruct ((48 <=? nat_of_ascii c)%nat && (nat_of_ascii c <=? 57)%nat) eqn:E; [|discriminate].
  injection H as <-. apply andb_true_iff in E. destruct E as [E1 E2].
  apply Nat.leb_le in E1. apply Nat.leb_le in E2. split; [|lia].
  unfold Dates.digit_char. replace (Z.to_nat (48 + (Z.of_nat (nat_of_ascii c) - 48)))
    with (nat_of_ascii c) by lia. apply ascii_nat_embedding.
Qed.

Lemma pad_length : forall w v, String.length (Dates.pad w v) = w.
Proof. induction w as [|w IH]; intros v; simpl; [reflexivity|]. rewrite IH. reflexivity. Qed.

Lemma number_pad : forall w v acc, 0 <= v ->
  Dates.number (Dates.pad w v) acc = Some (acc * 10 ^ Z.of_nat w + v mod 10 ^ Z.of_nat w).
Proof.
  induction w as [|w IH]; intros v acc Hv.
  - simpl. rewrite Z.mod_1_r. f_equal. ring.
  - cbn [Dates.pad Dates.number].
    assert (Hp : 0 < 10 ^ Z.of_nat w) by (apply Z.pow_pos_nonneg; lia).
    rewrite digit_digit_char by (pose proof (Z.mod_pos_bound (v / 10 ^ Z.of_nat w) 10); lia).
    rewrite IH by assumption. f_equal.
    rewrite Nat2Z.inj_succ, Z.pow_succ_r by lia.
    rewrite (Z.mul_comm 10 (10 ^ Z.of_nat w)).
    rewrite (Z.rem_mul_r v (10 ^ Z.of_nat w) 10) by lia. ring.
Qed.

Lemma pad_number : forall t acc v, 0 <= acc -> Dates.number t acc = Some v ->
  Dates.pad (String.length t) v = t /\
  acc * 10 ^ Z.of_nat (String.length t) <= v < (acc + 1) * 10 ^ Z.of_nat (String.length t).
Proof.
  induction t as [|c t IH]; intros acc v Hacc H.
  - simpl in *. injection H as <-. split; [reflexivity|lia].
  - cbn [Dates.number] in H. destruct (Dates.digit c) as [k|] eqn:Ek; [|discriminate].
    destruct (digit_char_digit c k Ek) as [Hc Hk].
    destruct (IH (acc * 10 + k) v ltac:(lia) H) as [Hpad Hb].
    set (n := String.length t) in *. cbn [String.length Dates.pad]. fold n.
    assert (Hp : 0 < 10 ^ Z.of_nat n) by (apply Z.pow_pos_nonneg; lia).
    rewrite Nat2Z.inj_succ, Z.pow_succ_r by lia.
    assert (Hq : v / 10 ^ Z.of_nat n = acc * 10 + k).
    { symmetry. apply Z.div_unique with (r := v - (acc * 10 + k) * 10 ^ Z.of_nat n); nia. }
    rewrite Hq, Hpad.
    replace ((acc * 10 + k) mod 10) with k
      by (rewrite Z.add_comm, Z.mod_add by lia; rewrite Z.mod_small; lia).
    rewrite Hc. split; [reflexivity|nia].
Qed.

Lemma iso_parts : forall a b c,
  String.length a = 4%nat -> String.length b = 2%nat -> String.length c = 2%nat ->
  let S := (a ++ "-" ++ b ++ "-" ++ c)%string in
  String.length S = 10%nat /\ substring 4 1 S = "-"%string /\ substring 7 1 S = "-"%string /\
  substring 0 4 S = a /\ substring 5 2 S = b /\ substring 8 2 S = c /\
  substring 0 7 S = (a ++ "-" ++ b)%string.
Proof.
  intros a b c Ha Hb Hc.
  destruct a as [|a1 [|a2 [|a3 [|a4 [|a5 a]]]]]; try discriminate.
  destruct b as [|b1 [|b2 [|b3 b]]]; try discriminate.
  destruct c as [|c1 [|c2 [|c3 c]]]; try discriminate.
  repeat split.
Qed.

Lemma parse_iso : forall z y m d, Dates.civil_from_days z = (y, m, d) -> 0 <= y <= 9999 ->
  Dates.parse (Dates.iso z) = Some z.
Proof.
  intros z y m d E Hy. destruct (civil_from_days_spec z y m d E) as [Hm [Hd Hz]].
  assert (Hd31 : Dates.days_in_month y m <= 31)
    by (unfold Dates.days_in_month; destruct (m =? 2); [destruct (Dates.is_leap y)|destruct (_ || _)]; lia).
  unfold Dates.iso. rewrite E.
  destruct (iso_parts (Dates.pad 4 y) (Dates.pad 2 m) (Dates.pad 2 d)
              (pad_length _ _) (pad_length _ _) (pad_length _ _))
    as [L [S4 [S7 [A [B [C _]]]]]].
  unfold Dates.parse. rewrite L, S4, S7, A, B, C. cbn [Nat.eqb String.eqb andb].
  rewrite !number_pad by lia.
  rewrite !Z.mod_small by (cbn; lia). rewrite !Z.mul_0_l, !Z.add_0_l.
  replace ((1 <=? m) && (m <=? 12) && (1 <=? d) && (d <=? Dates.days_in_month y m)) with true
    by (symmetry; rewrite !andb_true_iff, !Z.leb_le; lia).
  rewrite Hz. reflexivity.
Qed.

Lemma iso_parse : forall s z, Dates.parse s = Some z -> Dates.iso z = s.
Proof.
  intros s z H. unfold Dates.parse in H.
  destruct s as [|c0 [|c1 [|c2 [|c3 [|c4 [|c5 [|c6 [|c7 [|c8 [|c9 [|c10 s]]]]]]]]]]];
    try discriminate.
  cbn [String.length Nat.eqb substring andb] in H.
  destruct (String.eqb (String c4 "") "-") eqn:E4; [|discriminate].
  destruct (String.eqb (String c7 "") "-") eqn:E7; [|discriminate].
  apply String.eqb_eq in E4, E7. injection E4 as ->. injection E7 as ->.
  destruct (Dates.number (String c0 (String c1 (String c2 (String c3 "")))) 0) as [y|] eqn:Ey;
    [|discriminate].
  destruct (Dates.number (String c5 (String c6 "")) 0) as [m|] eqn:Em; [|discriminate].
  destruct (Dates.number (String c8 (String c9 "")) 0) as [d|] eqn:Ed; [|discriminate].
  destruct ((1 <=? m) && (m <=? 12) && (1 <=? d) && (d <=? Dates.days_in_month y m)) eqn:V;
    [|discriminate].
  injection H as <-. rewrite !andb_true_iff, !Z.leb_le in V.
  unfold Dates.iso. rewrite civil_from_days_of_civil by lia.
  destruct (pad_number _ 0 y ltac:(lia) Ey) as [Py _].
  destruct (pad_number _ 0 m ltac:(lia) Em) as [Pm _].
  destruct (pad_number _ 0 d ltac:(lia) Ed) as [Pd _].
  cbn [String.length] in Py, Pm, Pd. rewrite Py, Pm, Pd. reflexivity.
Qed.

(** ** Week keys and monthly opening balances *)
Lemma getWeekStartDate_saturday : forall today w,
  Dates.utc_day w = 6 -> 0 <= fst (fst (Dates.civil_from_days w)) <= 9999 ->
  getWeekStartDate today (Dates.iso w) = Dates.iso w.
Proof.
  intros today w H6 Hy. destruct (Dates.civil_from_days w) as [[y m] d] eqn:C.
  unfold getWeekStartDate. rewrite (parse_iso w y m d C Hy), H6.
  rewrite Z.sub_0_r. reflexivity.
Qed.

(** X3. [getWeekStartDate] is idempotent: the week key it returns (for a
    parsable date or, failing that, for today) is mapped to itself, as long
    as that Saturday lies in the years 0 to 9999. *)
Theorem X3_getWeekStartDate_idempotent : forall today s,
  (forall z, Dates.parse s = Some z ->
     0 <= fst (fst (Dates.civil_from_days (week_start_day z))) <= 9999) ->
  0 <= fst (fst (Dates.civil_from_days (week_start_day today))) <= 9999 ->
  getWeekStartDate today (getWeekStartDate today s) = getWeekStartDate today s.
Proof.
  intros today s Hs Ht.
  assert (E : getWeekStartDate today s =
              Dates.iso (week_start_day match Dates.parse s with
                                        | Some z => z | None => today end))
    by (unfold getWeekStartDate; destruct (Dates.parse s); reflexivity).
  rewrite E. apply getWeekStartDate_saturday.
  - apply week_start_day_spec.
  - destruct (Dates.parse s) eqn:P; [apply Hs; reflexivity|exact Ht].
Qed.

Lemma X3_witness :
  (forall z, Dates.parse "2024-01-12" = Some z ->
     0 <= fst (fst (Dates.civil_from_days (week_start_day z))) <= 9999) /\
  0 <= fst (fst (Dates.civil_from_days (week_start_day 20000))) <= 9999 /\
  getWeekStartDate 20000 (getWeekStartDate 20000 "2024-01-12")
  = getWeekStartDate 20000 "2024-01-12".
Proof.
  assert (H1 : forall z, Dates.parse "2024-01-12" = Some z ->
     0 <= fst (fst (Dates.civil_from_days (week_start_day z))) <= 9999).
  { intros z Hz. vm_compute in Hz. injection Hz as <-. vm_compute. split; discriminate. }
  assert (H2 : 0 <= fst (fst (Dates.civil_from_days (week_start_day 20000))) <= 9999)
    by (vm_compute; split; discriminate).
  split; [exact H1|split; [exact H2|]].
  exact (X3_getWeekStartDate_idempotent 20000 "2024-01-12" H1 H2).
Defined.
Lemma sumQ_map_ext : forall {A} (f g : A -> Q) l,
  (forall x, In x l -> (f x == g x)%Q) -> (sumQ (map f l) == sumQ (map g l))%Q.
Proof.
  intros A f g l. induction l as [|x r IH]; intros H; simpl; [reflexivity|].
  rewrite !sumQ_cons, (H x (or_introl eq_refl)), IH; [reflexivity|].
  intros y Hy. apply H. right. exact Hy.
Qed.

Lemma sumQ_map_add : forall {A} (f g : A -> Q) l,
  (sumQ (map (fun x => f x + g x)%Q l) == sumQ (map f l) + sumQ (map g l))%Q.
Proof.
  intros A f g l. induction l as [|x r IH]; simpl; [reflexivity|].
  rewrite !sumQ_cons, IH. ring.
Qed.

Lemma sumQ_indicator_absent : forall (b : string) (a : Q) K, ~ In b K ->
  (sumQ (map (fun k => if String.eqb b k then a else 0%Q) K) == 0)%Q.
Proof.
  intros b a K. induction K as [|k r IH]; intros Hn; simpl; [reflexivity|].
  rewrite sumQ_cons. destruct (String.eqb_spec b k) as [->|_].
  - exfalso. apply Hn. left. reflexivity.
  - rewrite IH; [ring|]. intros H'. apply Hn. right. exact H'.
Qed.

Lemma sumQ_indicator : forall (b : string) (a : Q) K, NoDup K -> In b K ->
  (sumQ (map (fun k => if String.eqb b k then a else 0%Q) K) == a)%Q.
Proof.
  intros b a K. induction K as [|k r IH]; intros Hnd Hin; [destruct Hin|].
  inversion Hnd as [|? ? Hn Hd]; subst. simpl. rewrite sumQ_cons.
  destruct (String.eqb_spec b k) as [->|Hne].
  - rewrite sumQ_indicator_absent by exact Hn. ring.
  - destruct Hin as [->|Hin]; [congruence|]. rewrite IH by assumption. ring.
Qed.

(** The net of bucket [k]: what the monthly and daily aggregations put in
    [net] (see [monthly_totals_closed]). *)
Definition bucket_net (useME : bool) (bucketOf : Transaction -> string) (k : string)
    (l : list Transaction) : Q :=
  (income_sum useME bucketOf k l + expense_sum useME bucketOf k l
   + transfer_sum useME bucketOf k l)%Q.

Lemma bucket_net_cons : forall useME bucketOf k t l,
  (bucket_net useME bucketOf k (t :: l) ==
   (if String.eqb (bucketOf t) k then amountOf useME t else 0) + bucket_net useME bucketOf k l)%Q.
Proof.
  intros. unfold bucket_net. simpl.
  destruct (String.eqb (bucketOf t) k), (is_transfer t), (t_type t); simpl; ring.
Qed.

(** Every amount of [l] lands in exactly one bucket of [K]. *)
Lemma bucket_nets_cover : forall useME bucketOf K l,
  NoDup K -> (forall t, In t l -> In (bucketOf t) K) ->
  (sumQ (map (fun k => bucket_net useME bucketOf k l) K) == sumQ (map (amountOf useME) l))%Q.
Proof.
  intros useME bucketOf K l Hnd. induction l as [|t r IH]; intros Hin; simpl.
  - clear Hnd Hin. induction K as [|k K' IHK]; simpl; [reflexivity|].
    rewrite sumQ_cons, IHK. unfold bucket_net. simpl. ring.
  - rewrite sumQ_cons.
    rewrite (sumQ_map_ext _ (fun k => (if String.eqb (bucketOf t) k then amountOf useME t else 0)
                                        + bucket_net useME bucketOf k r)%Q)
      by (intros; apply bucket_net_cons).
    rewrite sumQ_map_add, sumQ_indicator by (auto; apply Hin; left; reflexivity).
    rewrite IH; [reflexivity|]. intros t' H'. apply Hin. right. exact H'.
Qed.

Lemma sumQ_filter_split : forall {A} (f : A -> Q) (p q r : A -> bool) l,
  (forall x, p x = if q x then true else r x) -> (forall x, q x = true -> r x = false) ->
  (sumQ (map f (filter p l)) == sumQ (map f (filter q l)) + sumQ (map f (filter r l)))%Q.
Proof.
  intros A f p q r l Hp Hqr. induction l as [|x l IH]; simpl; [reflexivity|].
  rewrite Hp. destruct (q x) eqn:Q.
  - rewrite (Hqr x Q). simpl. rewrite !sumQ_cons, IH. ring.
  - destruct (r x); simpl; [rewrite !sumQ_cons, IH; ring|exact IH].
Qed.

(** A date string that [new Date] reads as a day of year [y] falls, by its
    first seven characters, in one of the month keys of [y]. *)
Lemma monthKey_in_year_months : forall t y,
  yearOf (t_date t) = Some y -> In (monthKey t) (year_months y).
Proof.
  intros t y H. unfold yearOf, dayOf in H.
  destruct (Dates.parse (t_date t)) as [z|] eqn:P; [|discriminate].
  destruct (Dates.civil_from_days z) as [[y' m] d] eqn:C. injection H as ->.
  destruct (civil_from_days_spec z y m d C) as [Hm _].
  pose proof (iso_parse _ _ P) as I. unfold Dates.iso in I. rewrite C in I.
  destruct (iso_parts (Dates.pad 4 y) (Dates.pad 2 m) (Dates.pad 2 d)
              (pad_length _ _) (pad_length _ _) (pad_length _ _))
    as [_ [_ [_ [_ [_ [_ S7]]]]]].
  unfold monthKey. rewrite <- I, S7. unfold year_months.
  apply in_map_iff. exists (Z.to_nat m). split.
  - rewrite Z2Nat.id by lia. reflexivity.
  - apply in_seq. lia.
Qed.

Lemma yearOf_not_empty : forall s y, yearOf s = Some y -> String.eqb s "" = false.
Proof.
  intros s y H. unfold yearOf, dayOf in H.
  destruct (Dates.parse s) eqn:P; [|discriminate]. exact (parse_not_empty s z P).
Qed.


(** ** Calendar ranges: the years 0 to 9999 *)
Lemma days_in_month_cases : forall y m, 1 <= m <= 12 ->
  Dates.days_in_month y m <= (if m =? 2 then 29 else 31).
Proof.
  intros y m Hm. unfold Dates.days_in_month.
  destruct (m =? 2); [destruct (Dates.is_leap y)|destruct (_ || _)]; lia.
Qed.

(** Day numbers of the years 0 to 9999. *)
Lemma days_from_civil_range : forall y m d, 0 <= y <= 9999 -> 1 <= m <= 12 ->
  1 <= d <= Dates.days_in_month y m ->
  -719528 <= Dates.days_from_civil y m d <= 2932896.
Proof.
  intros y m d Hy Hm Hd. pose proof (days_in_month_cases y m Hm) as Hdm.
  unfold Dates.days_from_civil.
  assert (Hc : m = 1 \/ m = 2 \/ m = 3 \/ m = 4 \/ m = 5 \/ m = 6 \/ m = 7 \/ m = 8 \/
               m = 9 \/ m = 10 \/ m = 11 \/ m = 12) by lia.
  destruct Hc as [->|[->|[->|[->|[->|[->|[->|[->|[->|[->|[->| ->]]]]]]]]]]];
    cbn [Z.leb Z.eqb Z.compare Pos.compare Pos.compare_cont] in *; simpl in Hdm;
    Z.div_mod_to_equations; lia.
Qed.

Lemma year_range_of_days : forall z y m d, Dates.civil_from_days z = (y, m, d) ->
  -719528 <= z <= 2932896 -> 0 <= y <= 9999.
Proof.
  intros z y m d E Hz. destruct (civil_from_days_spec z y m d E) as [Hm [Hd Hz']].
  pose proof (days_in_month_cases y m Hm) as Hdm. subst z.
  unfold Dates.days_from_civil in Hz.
  assert (Hc : m = 1 \/ m = 2 \/ m = 3 \/ m = 4 \/ m = 5 \/ m = 6 \/ m = 7 \/ m = 8 \/
               m = 9 \/ m = 10 \/ m = 11 \/ m = 12) by lia.
  destruct Hc as [->|[->|[->|[->|[->|[->|[->|[->|[->|[->|[->| ->]]]]]]]]]]];
    cbn [Z.leb Z.eqb Z.compare Pos.compare Pos.compare_cont] in *; simpl in Hdm;
    Z.div_mod_to_equations; lia.
Qed.

Lemma parse_iso_range : forall z, -719528 <= z <= 2932896 -> Dates.parse (Dates.iso z) = Some z.
Proof.
  intros z Hz. destruct (Dates.civil_from_days z) as [[y m] d] eqn:E.
  exact (parse_iso z y m d E (year_range_of_days z y m d E Hz)).
Qed.

Lemma iso_inj_range : forall a b, -719528 <= a <= 2932896 -> -719528 <= b <= 2932896 ->
  Dates.iso a = Dates.iso b -> a = b.
Proof.
  intros a b Ha Hb H. pose proof (parse_iso_range a Ha) as A.
  rewrite H, parse_iso_range in A by exact Hb. congruence.
Qed.

Lemma parse_range : forall s z, Dates.parse s = Some z -> -719528 <= z <= 2932896.
Proof.
  intros s z H. unfold Dates.parse in H.
  destruct s as [|c0 [|c1 [|c2 [|c3 [|c4 [|c5 [|c6 [|c7 [|c8 [|c9 [|c10 s]]]]]]]]]]];
    try discriminate.
  cbn [String.length Nat.eqb substring andb] in H.
  destruct (String.eqb (String c4 "") "-"); [|discriminate].
  destruct (String.eqb (String c7 "") "-"); [|discriminate].
  destruct (Dates.number (String c0 (String c1 (String c2 (String c3 "")))) 0) as [y|] eqn:Ey;
    [|discriminate].
  destruct (Dates.number (String c5 (String c6 "")) 0) as [m|]; [|discriminate].
  destruct (Dates.number (String c8 (String c9 "")) 0) as [d|]; [|discriminate].
  destruct ((1 <=? m) && (m <=? 12) && (1 <=? d) && (d <=? Dates.days_in_month y m)) eqn:V;
    [|discriminate].
  injection H as <-. rewrite !andb_true_iff, !Z.leb_le in V.
  destruct (pad_number _ 0 y ltac:(lia) Ey) as [_ B]. cbn in B.
  apply days_from_civil_range; lia.
Qed.

(** ** Stable sort by key: [sort_by] *)
Lemma insert_by_perm : forall {A} (key : A -> Z) x l, Permutation (insert_by key x l) (x :: l).
Proof.
  intros A key x l. induction l as [|y r IH]; simpl; [reflexivity|].
  destruct (key x <? key y); [reflexivity|].
  rewrite IH. apply perm_swap.
Qed.

Lemma sort_by_perm : forall {A} (key : A -> Z) l, Permutation (sort_by key l) l.
Proof.
  intros A key l. unfold sort_by.
  assert (G : forall acc, Permutation (fold_left (fun acc x => insert_by key x acc) l acc)
                                      (l ++ acc)).
  { induction l as [|x r IH]; intros acc; simpl; [reflexivity|].
    rewrite IH, insert_by_perm. apply Permutation_sym, Permutation_middle. }
  rewrite G, app_nil_r. reflexivity.
Qed.

Lemma insert_by_sorted : forall {A} (key : A -> Z) x l,
  Sorted (fun a b => key a <= key b) l -> Sorted (fun a b => key a <= key b) (insert_by key x l).
Proof.
  intros A key x l. induction l as [|y r IH]; intros H; simpl.
  - repeat constructor.
  - destruct (Z.ltb_spec (key x) (key y)).
    + constructor; [exact H|]. constructor. lia.
    + inversion H as [|? ? Hr Hh]; subst. constructor; [apply IH; exact Hr|].
      destruct r as [|z r']; simpl; [constructor; lia|].
      inversion Hh; subst. destruct (key x <? key z); constructor; lia.
Qed.

Lemma sort_by_sorted : forall {A} (key : A -> Z) l,
  StronglySorted (fun a b => key a <= key b) (sort_by key l).
Proof.
  intros A key l. apply Sorted_StronglySorted; [intros a b c; lia|].
  unfold sort_by.
  assert (G : forall acc, Sorted (fun a b => key a <= key b) acc ->
    Sorted (fun a b => key a <= key b) (fold_left (fun acc x => insert_by key x acc) l acc)).
  { induction l as [|x r IH]; intros acc Hacc; simpl; [exact Hacc|].
    apply IH. apply insert_by_sorted. exact Hacc. }
  apply G. constructor.
Qed.

Lemma sorted_hd_min : forall {A} (key : A -> Z) (d : A) l x,
  StronglySorted (fun a b => key a <= key b) l -> In x l -> key (hd d l) <= key x.
Proof.
  intros A key d [|y r] x H Hin; [destruct Hin|]. simpl.
  destruct Hin as [->|Hin]; [lia|].
  apply StronglySorted_inv in H as [_ Hf]. rewrite Forall_forall in Hf. apply Hf, Hin.
Qed.

Lemma sorted_last_max : forall {A} (key : A -> Z) (d : A) l x,
  StronglySorted (fun a b => key a <= key b) l -> In x l -> key x <= key (last_or d l).
Proof.
  intros A key d l. induction l as [|y r IH]; intros x H Hin; [destruct Hin|].
  apply StronglySorted_inv in H as [Hs Hf].
  destruct r as [|z r'].
  - destruct Hin as [->|[]]. simpl. lia.
  - change (last_or d (y :: z :: r')) with (last_or d (z :: r')).
    destruct Hin as [->|Hin].
    + rewrite Forall_forall in Hf. pose proof (Hf z (or_introl eq_refl)).
      pose proof (IH z Hs (or_introl eq_refl)). lia.
    + apply IH; assumption.
Qed.

Lemma hd_in : forall {A} (d : A) l, l <> [] -> In (hd d l) l.
Proof. intros A d [|x r] H; [congruence|left; reflexivity]. Qed.

Lemma last_or_in : forall {A} (d : A) l, l <> [] -> In (last_or d l) l.
Proof.
  intros A d l. induction l as [|x r IH]; intros H; [congruence|].
  destruct r as [|y r']; [left; reflexivity|].
  right. apply IH. discriminate.
Qed.

Lemma sumQ_perm : forall {A} (f : A -> Q) l l', Permutation l l' ->
  (sumQ (map f l) == sumQ (map f l'))%Q.
Proof.
  intros A f l l' H. induction H; simpl; try reflexivity.
  - rewrite !sumQ_cons, IHPermutation. reflexivity.
  - rewrite !sumQ_cons. ring.
  - rewrite IHPermutation1. exact IHPermutation2.
Qed.

Lemma cond_sum_perm : forall {A} (p : A -> bool) (f : A -> Q) l l', Permutation l l' ->
  (fold_right (fun t acc => if p t then f t + acc else acc) 0 l
   == fold_right (fun t acc => if p t then f t + acc else acc) 0 l')%Q.
Proof.
  intros A p f l l' H. induction H; simpl; try reflexivity.
  - destruct (p x); [rewrite IHPermutation; reflexivity|exact IHPermutation].
  - destruct (p x), (p y); ring.
  - rewrite IHPermutation1. exact IHPermutation2.
Qed.
(** ** RealWeeklyFlowView [flowData] (src/unnamed/part_002, lines 119-217) *)

Record WeeklyFlow := mkWeeklyFlow {
  wf_columns : list string;
  wf_dataByGuide : list (string * list (string * Q));
  wf_totals : list (string * Totals);
  wf_initialBalance : Q;
  wf_isDaily : bool
}.

(** [a <= b] on dates: false as soon as one is NaN. *)
Definition date_le (a b : option Z) : bool :=
  match a, b with Some x, Some y => x <=? y | _, _ => false end.

(** Lines 158-160: [for (d = first; d <= lastDate; d.setDate(d.getDate() + 7))
    columns.push(iso(d))], with its trip count written out. *)
Fixpoint enum_weeks (count : nat) (d : Z) : list string :=
  match count with
  | O => []
  | S c => Dates.iso d :: enum_weeks c (d + 7)
  end.

(** Lines 172-215: body of [filteredTransactions.forEach]; [colKeyOf] is
    the column key of lines 173-181. *)
Definition weekly_step (guides : list Guide) (useME : bool) (colKeyOf : Transaction -> string)
    (st : list (string * list (string * Q)) * list (string * Totals)) (t : Transaction) :=
  let '(byGuide, totals) := st in
  let colKey := colKeyOf t in
  if negb (String.eqb colKey "")
     && match sget colKey totals with Some _ => true | None => false end
  then
    let a := amountOf useME t in
    (add_guide_cell (getGuideName guides (t_guide t)) colKey a byGuide,
     update_totals colKey (fun tot =>
       if is_transfer t then mkTotals (income tot + a) (expense tot) (net tot + a)
       else match t_type t with
            | Income => mkTotals (income tot + a) (expense tot) (net tot + a)
            | Expense => mkTotals (income tot) (expense tot + a) (net tot + a)
            end) totals)
  else (byGuide, totals).

(** RealWeeklyFlowView [flowData] (lines 119-217). [today] is the day
    number of [new Date()], [selectedDate] the week picker's value; [None]
    as a result stands for the [RangeError] that [toISOString] throws when
    the selected week start is an Invalid Date. *)
Definition weekly_flowData (today : Z) (transactions : list Transaction) (guides : list Guide)
    (selectedDate : option string) (useME : bool) : option WeeklyFlow :=
  let validTransactions := filter (fun t =>
        negb (String.eqb (t_date t) "") &&
        match dayOf (t_date t) with Some _ => true | None => false end) transactions in
  match validTransactions with
  | [] => Some (mkWeeklyFlow [] [] [] 0%Q false)
  | t0 :: _ =>
    let sorted := sort_by sortKey validTransactions in
    let mode := match filter_value selectedDate with
      | Some sel =>
          (* lines 134-152: the seven days of the selected week *)
          match Dates.parse (getWeekStartDate today sel) with
          | None => None
          | Some start =>
              let columns := enum_days 7 start in
              let weekEndDate := dayOf (nth 6 columns ""%string) in
              let sDate := dayOf (nth 0 columns ""%string) in
              let filteredTransactions := filter (fun t =>
                    date_le sDate (dayOf (t_date t)) && date_le (dayOf (t_date t)) weekEndDate)
                    sorted in
              let initialBalance := sumQ (map (amountOf useME)
                    (filter (fun t => date_lt (dayOf (t_date t)) sDate) sorted)) in
              Some (columns, true, filteredTransactions, initialBalance,
                    fun t => if in_dec string_dec (t_date t) columns then t_date t else ""%string)
          end
      | None =>
          (* lines 154-168: one column per week *)
          let firstWeekStr := getWeekStartDate today (t_date (hd t0 sorted)) in
          let lastDate := dayOf (t_date (last_or t0 sorted)) in
          let columns := match Dates.parse firstWeekStr, lastDate with
                         | Some f, Some l => enum_weeks (Z.to_nat ((l - f) / 7 + 1)) f
                         | _, _ => []
                         end in
          let initialBalance := match columns with
            | [] => 0%Q
            | firstWeekOfPeriod :: _ =>
                sumQ (map (amountOf useME)
                  (filter (fun t => date_lt (dayOf (t_date t)) (dayOf firstWeekOfPeriod)) sorted))
            end in
          Some (columns, false, sorted, initialBalance,
                fun t => getWeekStartDate today (t_date t))
      end in
    match mode with
    | None => None
    | Some (columns, isDaily, filteredTransactions, initialBalance, colKeyOf) =>
        let '(byGuide, totals) := fold_left (weekly_step guides useME colKeyOf)
              filteredTransactions ([], init_totals columns) in
        Some (mkWeeklyFlow columns byGuide totals initialBalance isDaily)
    end
  end.

Example weekly_scenario :
  option_map (fun w => (wf_columns w, map (fun '(c, tot) => (c, Qred (net tot))) (wf_totals w)))
    (weekly_flowData 0 spec_records spec_guides None false)
  = Some (["2023-12-30"%string; "2024-01-06"%string],
          [("2023-12-30"%string, 150%Q); ("2024-01-06"%string, (-50)%Q)]).
Proof. vm_compute. reflexivity. Qed.

Lemma weekly_step_totals : forall guides useME c bg T t, sget ""%string T = None ->
  snd (weekly_step guides useME c (bg, T) t) = monthly_step useME c T t /\
  sget ""%string (monthly_step useME c T t) = None.
Proof.
  intros guides useME c bg T t HT. unfold weekly_step, monthly_step.
  split.
  - destruct (String.eqb_spec (c t) "") as [E|E]; simpl.
    + unfold update_totals. rewrite E, HT. reflexivity.
    + destruct (sget (c t) T) eqn:S; simpl; [reflexivity|].
      unfold update_totals. rewrite S. reflexivity.
  - rewrite get_update_totals. destruct (string_dec "" (c t)); [rewrite HT; reflexivity|exact HT].
Qed.

Lemma weekly_fold_totals : forall guides useME c l bg T, sget ""%string T = None ->
  snd (fold_left (weekly_step guides useME c) l (bg, T)) = fold_left (monthly_step useME c) l T.
Proof.
  intros guides useME c l. induction l as [|t r IH]; intros bg T HT; [reflexivity|].
  cbn [fold_left].
  destruct (weekly_step_totals guides useME c bg T t HT) as [E N].
  destruct (weekly_step guides useME c (bg, T) t) as [bg' T'] eqn:W. simpl in E. subst T'.
  apply IH. exact N.
Qed.

Lemma iso_not_empty : forall z, Dates.iso z <> ""%string.
Proof.
  intros z. unfold Dates.iso. destruct (Dates.civil_from_days z) as [[y m] d].
  destruct (iso_parts (Dates.pad 4 y) (Dates.pad 2 m) (Dates.pad 2 d)
              (pad_length _ _) (pad_length _ _) (pad_length _ _)) as [L _].
  intros H. rewrite H in L. discriminate.
Qed.

Ltac iso_eq :=
  apply (f_equal Dates.iso); lia.

Lemma enum_weeks_In : forall n f k,
  In k (enum_weeks n f) <-> exists j, (j < n)%nat /\ k = Dates.iso (f + 7 * Z.of_nat j).
Proof.
  induction n as [|n IH]; intros f k; cbn [enum_weeks In].
  - split; [intros []|intros (j & Hj & _); lia].
  - rewrite IH. split.
    + intros [<-|(j & Hj & ->)].
      * exists O. split; [lia|]. iso_eq.
      * exists (S j). split; [lia|]. iso_eq.
    + intros ([|j] & Hj & ->).
      * left. iso_eq.
      * right. exists j. split; [lia|]. iso_eq.
Qed.

Lemma enum_days_In : forall n d k,
  In k (enum_days n d) <-> exists j, (j < n)%nat /\ k = Dates.iso (d + Z.of_nat j).
Proof.
  induction n as [|n IH]; intros d k; cbn [enum_days In].
  - split; [intros []|intros (j & Hj & _); lia].
  - rewrite IH. split.
    + intros [<-|(j & Hj & ->)].
      * exists O. split; [lia|]. iso_eq.
      * exists (S j). split; [lia|]. iso_eq.
    + intros ([|j] & Hj & ->).
      * left. iso_eq.
      * right. exists j. split; [lia|]. iso_eq.
Qed.

(** The days [f, f + step, ..., f + step * (n - 1)] as ISO strings, when they
    lie in the years 0 to 9999, are pairwise different. *)
Lemma nodup_iso_steps : forall step n f,
  0 < step -> -719528 <= f -> f + step * (Z.of_nat n - 1) <= 2932896 ->
  NoDup (map (fun j => Dates.iso (f + step * Z.of_nat j)) (seq 0 n)).
Proof.
  intros step n f Hs Hf Hl. apply NoDup_map_NoDup_ForallPairs.
  - intros i j Hi Hj E. apply in_seq in Hi, Hj.
    apply iso_inj_range in E; [|nia|nia]. nia.
  - apply seq_NoDup.
Qed.

Lemma enum_weeks_map : forall n f,
  enum_weeks n f = map (fun j => Dates.iso (f + 7 * Z.of_nat j)) (seq 0 n).
Proof.
  induction n as [|n IH]; intros f; [reflexivity|].
  cbn [enum_weeks seq map]. rewrite IH, <- seq_shift, map_map. f_equal.
  - apply (f_equal Dates.iso). lia.
  - apply map_ext. intros j. apply (f_equal Dates.iso). lia.
Qed.

Lemma enum_days_map : forall n d,
  enum_days n d = map (fun j => Dates.iso (d + 1 * Z.of_nat j)) (seq 0 n).
Proof.
  induction n as [|n IH]; intros d; [reflexivity|].
  cbn [enum_days seq map]. rewrite IH, <- seq_shift, map_map. f_equal.
  - apply (f_equal Dates.iso). lia.
  - apply map_ext. intros j. apply (f_equal Dates.iso). lia.
Qed.

Lemma getWeekStartDate_parsed : forall today s z, Dates.parse s = Some z ->
  getWeekStartDate today s = Dates.iso (week_start_day z).
Proof. intros today s z H. unfold getWeekStartDate. rewrite H. reflexivity. Qed.

Lemma saturdays_apart : forall a b, Dates.utc_day a = 6 -> Dates.utc_day b = 6 ->
  a = b + 7 * ((a - b) / 7).
Proof. intros a b Ha Hb. unfold Dates.utc_day in *. Z.div_mod_to_equations. lia. Qed.

Lemma valid_filter_eq : forall transactions,
  filter (fun t => negb (String.eqb (t_date t) "") &&
                   match dayOf (t_date t) with Some _ => true | None => false end) transactions
  = filter (fun t => match dayOf (t_date t) with Some _ => true | None => false end) transactions.
Proof.
  intros transactions. apply filter_ext. intros t.
  destruct (dayOf (t_date t)) as [z|] eqn:E; [|apply andb_false_r].
  rewrite (parse_not_empty _ z E). reflexivity.
Qed.

Lemma valid_day : forall transactions t,
  In t (filter (fun t => match dayOf (t_date t) with Some _ => true | None => false end)
           transactions) ->
  In t transactions /\ exists z, dayOf (t_date t) = Some z /\ sortKey t = z.
Proof.
  intros transactions t H. apply filter_In in H as [Hin H]. split; [exact Hin|].
  unfold sortKey. destruct (dayOf (t_date t)) as [z|]; [|discriminate]. eauto.
Qed.
Lemma filter_none : forall {A} (p : A -> bool) l, (forall x, In x l -> p x = false) -> filter p l = [].
Proof.
  intros A p l. induction l as [|x r IH]; intros H; simpl; [reflexivity|].
  rewrite (H x (or_introl eq_refl)). apply IH. intros y Hy. apply H. right. exact Hy.
Qed.

Lemma dayOf_iso : forall z, -719528 <= z <= 2932896 -> dayOf (Dates.iso z) = Some z.
Proof. intros z Hz. unfold dayOf. apply parse_iso_range. exact Hz. Qed.

Lemma init_totals_no_empty : forall cols, (forall k, In k cols -> k <> ""%string) ->
  sget ""%string (init_totals cols) = None.
Proof.
  intros cols H. rewrite get_init_totals.
  destruct (in_dec string_dec ""%string cols) as [Hi|]; [exfalso; exact (H _ Hi eq_refl)|reflexivity].
Qed.


Lemma perm_filter : forall {A} (p : A -> bool) l l', Permutation l l' ->
  Permutation (filter p l) (filter p l').
Proof.
  intros A p l l' H. induction H; simpl.
  - constructor.
  - destruct (p x); [constructor|]; assumption.
  - destruct (p x), (p y); try constructor; reflexivity.
  - eapply Permutation_trans; eassumption.
Qed.

Lemma filter_sub : forall {A} (p q : A -> bool) l, (forall x, p x = true -> q x = true) ->
  filter p (filter q l) = filter p l.
Proof.
  intros A p q l H. induction l as [|x r IH]; simpl; [reflexivity|].
  destruct (p x) eqn:P.
  - rewrite (H x P). simpl. rewrite P, IH. reflexivity.
  - destruct (q x); simpl; [rewrite P|]; exact IH.
Qed.


(** X7. RealWeeklyFlowView, week-by-week mode: the totals of a column
    [k] are those of the transactions with a valid date whose week key is
    [k]; income is the non-transfer Income items plus every transfer leg
    (category "13", with its sign), expense is the non-transfer Expense
    items, and net is income plus expense. *)
Theorem X7_weekly_column_totals : forall today transactions guides selectedDate useME w k,
  filter_value selectedDate = None ->
  weekly_flowData today transactions guides selectedDate useME = Some w ->
  In k (wf_columns w) ->
  let weekOf := fun t => getWeekStartDate today (t_date t) in
  let valid := filter (fun t => match dayOf (t_date t) with Some _ => true | None => false end)
                 transactions in
  exists tot, sget k (wf_totals w) = Some tot /\
    (income tot == income_sum useME weekOf k valid + transfer_sum useME weekOf k valid)%Q /\
    (expense tot == expense_sum useME weekOf k valid)%Q /\
    (net tot == income tot + expense tot)%Q.
Proof.
  intros today transactions guides selectedDate useME w k Hsel Hw Hk weekOf valid.
  unfold weekly_flowData in Hw. cbv zeta in Hw. rewrite valid_filter_eq, Hsel in Hw.
  fold valid in Hw.
  destruct valid as [|t0 r] eqn:HV.
  - injection Hw as <-. destruct Hk.
  - set (sorted := sort_by sortKey (t0 :: r)) in Hw.
    assert (Hp : Permutation sorted (t0 :: r)) by apply sort_by_perm.
    set (cols := match Dates.parse (getWeekStartDate today (t_date (hd t0 sorted))) with
                 | Some f => match dayOf (t_date (last_or t0 sorted)) with
                             | Some l => enum_weeks (Z.to_nat ((l - f) / 7 + 1)) f
                             | None => [] end
                 | None => [] end) in Hw.
    assert (Hne : forall k', In k' cols -> k' <> ""%string).
    { intros k' Hk'. unfold cols in Hk'.
      destruct (Dates.parse _) as [f|]; [|destruct Hk'].
      destruct (dayOf _) as [l|]; [|destruct Hk'].
      apply enum_weeks_In in Hk' as (j & _ & ->). apply iso_not_empty. }
    match type of Hw with context [fold_left ?s ?l ?i] =>
      destruct (fold_left s l i) as [bg T] eqn:F end.
    injection Hw as <-. cbn [wf_columns wf_totals] in *.
    apply (f_equal snd) in F. cbn [snd] in F.
    rewrite weekly_fold_totals in F by (apply init_totals_no_empty; exact Hne).
    change (fold_left (monthly_step useME weekOf) sorted (init_totals cols))
      with (monthly_totals useME weekOf cols sorted) in F.
    destruct (monthly_totals_in useME weekOf cols sorted k Hk) as (tot & E & I & X & N).
    exists tot. rewrite <- F. split; [exact E|].
    unfold income_sum, expense_sum, transfer_sum in *.
    repeat rewrite (cond_sum_perm _ _ _ _ Hp) in I.
    repeat rewrite (cond_sum_perm _ _ _ _ Hp) in X.
    split; [exact I|]. split; [exact X|]. rewrite N.
    repeat rewrite (cond_sum_perm _ _ _ _ Hp). rewrite I, X. ring.
Qed.



Definition spec_weekly : WeeklyFlow :=
  match weekly_flowData 0 spec_records spec_guides None false with
  | Some w => w
  | None => mkWeeklyFlow [] [] [] 0%Q false
  end.

Lemma X7_witness :
  filter_value None = None /\
  weekly_flowData 0 spec_records spec_guides None false = Some spec_weekly /\
  In "2023-12-30"%string (wf_columns spec_weekly) /\
  let weekOf := fun t => getWeekStartDate 0 (t_date t) in
  let valid := filter (fun t => match dayOf (t_date t) with Some _ => true | None => false end)
                 spec_records in
  exists tot, sget "2023-12-30"%string (wf_totals spec_weekly) = Some tot /\
    (income tot == income_sum false weekOf "2023-12-30"%string valid
                   + transfer_sum false weekOf "2023-12-30"%string valid)%Q /\
    (expense tot == expense_sum false weekOf "2023-12-30"%string valid)%Q /\
    (net tot == income tot + expense tot)%Q.
Proof.
  assert (H1 : filter_value None = None) by reflexivity.
  assert (H2 : weekly_flowData 0 spec_records spec_guides None false = Some spec_weekly)
    by (vm_compute; reflexivity).
  assert (H3 : In "2023-12-30"%string (wf_columns spec_weekly)) by (vm_compute; left; reflexivity).
  split; [exact H1|]. split; [exact H2|]. split; [exact H3|].
  exact (X7_weekly_column_totals 0 spec_records spec_guides None false spec_weekly
           "2023-12-30"%string H1 H2 H3).
Defined.
(** ** [handleCellClick] of RealWeeklyFlowView (src/unnamed/part_002, lines 63-103) *)

(** [{ date: t.date, description: t.description, amount: t[amountField] }];
    the description is copied through unchanged and is not a field of
    [Transaction] in this development. *)
Record TransactionDetail := mkDetail { td_date : string; td_amount : Q }.

Definition toDetail (useME : bool) (t : Transaction) : TransactionDetail :=
  mkDetail (t_date t) (amountOf useME t).

(** [new Map(guides.map(g => [g.name, g.id]))] *)
Definition guideNameMap (guides : list Guide) : list (string * string) :=
  fold_left (fun m g => sset (g_name g) (g_id g) m) guides [].

(** The list handed to [setModalTransactions], or [None] when the click
    changes nothing; [amount] is [undefined] as [None]. *)
Definition weekly_handleCellClick (transactions : list Transaction) (guides : list Guide)
    (selectedDate : option string) (useME : bool) (guideName colKey : string)
    (amount : option Q) : option (list TransactionDetail) :=
  if match amount with None => true | Some a => Qeq_bool a 0 end then None else
  match sget guideName (guideNameMap guides) with
  | None => None
  | Some guideId =>
      if String.eqb guideId "" then None else
      let isDaily := match filter_value selectedDate with Some _ => true | None => false end in
      let details :=
        if isDaily then
          map (toDetail useME) (filter (fun t =>
            String.eqb (t_guide t) guideId && String.eqb (t_date t) colKey) transactions)
        else
          let weekStartDate := dayOf colKey in
          let weekEndDate := option_map (fun z => z + 7) weekStartDate in
          map (toDetail useME) (filter (fun t =>
            String.eqb (t_guide t) guideId && date_le weekStartDate (dayOf (t_date t))
            && date_lt (dayOf (t_date t)) weekEndDate) transactions) in
      match details with [] => None | _ :: _ => Some details end
  end.

Lemma week_window : forall w z, Dates.utc_day w = 6 ->
  (w <= z < w + 7) <-> week_start_day z = w.
Proof.
  intros w z Hw. destruct (week_start_day_spec z) as [Hs Hr].
  pose proof (saturdays_apart _ _ Hs Hw) as E.
  split; [intros H; Z.div_mod_to_equations; lia|intros <-; lia].
Qed.

(** X8. RealWeeklyFlowView, week-by-week mode: clicking a nonzero cell of
    a guide in the column of the Saturday [w] lists exactly the guide's
    transactions with a valid date whose week key ([getWeekStartDate]) is
    that column, in their original order. *)
Theorem X8_weekly_cell_details : forall today transactions guides selectedDate useME
    guideName guideId w a,
  filter_value selectedDate = None ->
  ~ (a == 0)%Q ->
  sget guideName (guideNameMap guides) = Some guideId -> guideId <> ""%string ->
  Dates.utc_day w = 6 -> -719528 <= w <= 2932896 ->
  (forall t z, In t transactions -> dayOf (t_date t) = Some z -> -719528 <= week_start_day z) ->
  weekly_handleCellClick transactions guides selectedDate useME guideName (Dates.iso w) (Some a)
  = match filter (fun t => String.eqb (t_guide t) guideId &&
            match dayOf (t_date t) with
            | Some _ => String.eqb (getWeekStartDate today (t_date t)) (Dates.iso w)
            | None => false
            end) transactions with
    | [] => None
    | l => Some (map (toDetail useME) l)
    end.
Proof.
  intros today transactions guides selectedDate useME guideName guideId w a
    Hsel Ha Hg Hid Hw Hwr Hr.
  unfold weekly_handleCellClick.
  replace (Qeq_bool a 0) with false
    by (symmetry; apply Bool.not_true_iff_false; intros E; apply Ha; apply Qeq_bool_eq, E).
  rewrite Hg. destruct (String.eqb_spec guideId "") as [E|_]; [contradiction|].
  rewrite Hsel. cbv zeta. rewrite dayOf_iso by exact Hwr. cbn [option_map].
  rewrite (filter_ext_in _ (fun t => String.eqb (t_guide t) guideId &&
            match dayOf (t_date t) with
            | Some _ => String.eqb (getWeekStartDate today (t_date t)) (Dates.iso w)
            | None => false
            end)).
  - destruct (filter _ transactions); reflexivity.
  - intros t Ht. rewrite <- andb_assoc. f_equal.
    unfold date_le, date_lt. destruct (dayOf (t_date t)) as [z|] eqn:Hz; [|reflexivity].
    rewrite (getWeekStartDate_parsed today _ _ Hz).
    pose proof (parse_range _ _ Hz) as Rz. pose proof (Hr t z Ht Hz) as Rw.
    destruct (week_start_day_spec z) as [_ Rs].
    apply eq_true_iff_eq. rewrite andb_true_iff, Z.leb_le, Z.ltb_lt, String.eqb_eq,
      week_window by exact Hw.
    split; [intros ->; reflexivity|apply iso_inj_range; lia].
Qed.

Lemma X8_witness :
  filter_value None = None /\ ~ (100 == 0)%Q /\
  sget "1-Ventas"%string (guideNameMap spec_guides) = Some "1"%string /\ "1"%string <> ""%string /\
  Dates.utc_day 19721 = 6 /\ -719528 <= 19721 <= 2932896 /\
  (forall t z, In t spec_records -> dayOf (t_date t) = Some z -> -719528 <= week_start_day z) /\
  weekly_handleCellClick spec_records spec_guides None false "1-Ventas" (Dates.iso 19721) (Some 100%Q)
  = match filter (fun t => String.eqb (t_guide t) "1" &&
            match dayOf (t_date t) with
            | Some _ => String.eqb (getWeekStartDate 0 (t_date t)) (Dates.iso 19721)
            | None => false
            end) spec_records with
    | [] => None
    | l => Some (map (toDetail false) l)
    end.
Proof.
  assert (H1 : filter_value None = None) by reflexivity.
  assert (H2 : ~ (100 == 0)%Q) by discriminate.
  assert (H3 : sget "1-Ventas"%string (guideNameMap spec_guides) = Some "1"%string)
    by reflexivity.
  assert (H4 : "1"%string <> ""%string) by discriminate.
  assert (H5 : Dates.utc_day 19721 = 6) by reflexivity.
  assert (H6 : -719528 <= 19721 <= 2932896) by lia.
  assert (H7 : forall t z, In t spec_records -> dayOf (t_date t) = Some z ->
                 -719528 <= week_start_day z).
  { intros t z Ht Hz. simpl in Ht.
    destruct Ht as [<-|[<-|[<-|[]]]]; vm_compute in Hz; injection Hz as <-; vm_compute;
      discriminate. }
  repeat (split; [assumption|]).
  exact (X8_weekly_cell_details 0 spec_records spec_guides None false "1-Ventas" "1" 19721 100%Q
           H1 H2 H3 H4 H5 H6 H7).
Defined.

(** ** DailyFlowView balances *)
Lemma sumQ_filter_split_in : forall {A} (f : A -> Q) (p q r : A -> bool) l,
  (forall x, In x l -> p x = if q x then true else r x) ->
  (forall x, In x l -> q x = true -> r x = false) ->
  (sumQ (map f (filter p l)) == sumQ (map f (filter q l)) + sumQ (map f (filter r l)))%Q.
Proof.
  intros A f p q r l Hp Hqr. induction l as [|x l IH]; simpl; [reflexivity|].
  assert (IH' : (sumQ (map f (filter p l)) ==
                 sumQ (map f (filter q l)) + sumQ (map f (filter r l)))%Q)
    by (apply IH; intros y Hy; [apply Hp|apply Hqr]; right; exact Hy).
  rewrite (Hp x (or_introl eq_refl)). destruct (q x) eqn:Q.
  - rewrite (Hqr x (or_introl eq_refl) Q). simpl. rewrite !sumQ_cons, IH'. ring.
  - destruct (r x); simpl; [rewrite !sumQ_cons, IH'; ring|exact IH'].
Qed.



(** ** DailyFlowView without date filters *)

(** ** Bonus guides of the forecast: Aguinaldo in December, PTU in May *)
Section BonusMonths.
Variables (tz : TimeZone) (transactions : list Transaction) (guides : list Guide)
  (excludedGuideIds : list string) (useME : bool) (selectedYear : Z)
  (random : nat -> Q) (gid m : string).

(** The guide is the Aguinaldo guide and [m] is not a December, or it is the
    PTU guide (and not the Aguinaldo one) and [m] is not a May. *)
Definition bonus_off_month : Prop :=
  (is_id (aguinaldoGuideId guides) gid = true /\ endsWith m "-12" = false) \/
  (is_id (aguinaldoGuideId guides) gid = false /\ is_id (ptuGuideId guides) gid = true
   /\ endsWith m "-05" = false).

Hypothesis Hoff : bonus_off_month.
Hypothesis Hvat : is_id (vatGuideId guides) gid = false.

Lemma bonus_guide_step : forall st h,
  cellOf gid m (fs_dataByGuide
    (forecast_guide_step tz transactions guides excludedGuideIds useME selectedYear random
       m st h)) = cellOf gid m (fs_dataByGuide st).
Proof.
  intros st h. unfold forecast_guide_step.
  destruct (is_id (vatGuideId guides) (g_id h)); [reflexivity|].
  destruct (string_dec (g_id h) gid) as [Heq|Hne].
  - rewrite Heq. cbv zeta.
    destruct Hoff as [[Ha He]|[Ha [Hp He]]]; rewrite Ha; [|rewrite Hp]; rewrite He;
      destruct (truthy (nominaGuideId guides)); reflexivity.
  - repeat match goal with
      | |- context [if ?b then _ else _] => destruct b
      | |- context [match ?o with Some _ => _ | None => _ end] => destruct o
      end;
    cbn [fs_dataByGuide]; try reflexivity;
    apply cellOf_set_cell_other; left; congruence.
Qed.

Lemma bonus_guides_fold : forall L st,
  cellOf gid m (fs_dataByGuide
    (fold_left (forecast_guide_step tz transactions guides excludedGuideIds useME selectedYear
                  random m) L st)) = cellOf gid m (fs_dataByGuide st).
Proof.
  induction L as [|h L IH]; intros st; simpl; [reflexivity|].
  rewrite IH. apply bonus_guide_step.
Qed.

Hypothesis Hfm : isForecastMonth transactions m = true.

Lemma bonus_month_step : forall st m',
  cellOf gid m (fs_dataByGuide st) = None ->
  cellOf gid m (fs_dataByGuide
    (month_step tz transactions guides excludedGuideIds useME selectedYear random st m')) = None.
Proof.
  intros st m' H. unfold month_step.
  destruct (string_dec m' m) as [->|Hne].
  - rewrite Hfm. unfold vat_step.
    destruct (truthy (vatGuideId guides)) as [vat|] eqn:Hv;
      [|rewrite bonus_guides_fold; exact H].
    assert (Hne : vat <> gid).
    { intros ->. unfold truthy in Hv. unfold is_id in Hvat.
      destruct (vatGuideId guides) as [x|]; [|discriminate].
      destruct (String.eqb x "") eqn:He; [discriminate|]. injection Hv as ->.
      rewrite String.eqb_refl in Hvat. discriminate. }
    destruct (isActive guides excludedGuideIds vat); [|rewrite bonus_guides_fold; exact H].
    destruct (qlt (1 # 100) _); cbn [fs_dataByGuide];
      [rewrite cellOf_set_cell_other by (left; congruence)|];
      rewrite bonus_guides_fold; exact H.
  - destruct (isForecastMonth transactions m').
    + unfold vat_step. set (st1 := fold_left _ _ st).
      assert (H1 : cellOf gid m (fs_dataByGuide st1) = None).
      { unfold st1. clear st1. revert st H.
        induction (activeGuides guides excludedGuideIds) as [|h L IH]; intros st H;
          simpl; [exact H|].
        apply IH. unfold forecast_guide_step.
        destruct (is_id (vatGuideId guides) (g_id h)); [exact H|].
        repeat match goal with
          | |- context [if ?b then _ else _] => destruct b
          | |- context [match ?o with Some _ => _ | None => _ end] => destruct o
          end;
        cbn [fs_dataByGuide]; try exact H;
        rewrite cellOf_set_cell_other by (right; congruence); exact H. }
      clearbody st1.
      repeat match goal with
        | |- context [if ?b then _ else _] => destruct b
        | |- context [match ?o with Some _ => _ | None => _ end] => destruct o
        end;
      cbn [fs_dataByGuide]; try exact H1;
      rewrite cellOf_set_cell_other by (right; congruence); exact H1.
    + cbn [fs_dataByGuide]. rewrite actual_month_cells by congruence. exact H.
Qed.

(** X13. The forecast never puts an amount in the Aguinaldo guide's cell of
    a forecast month other than December, nor in the PTU guide's cell of a
    forecast month other than May (the guide not being the VAT guide). *)
Theorem X13_bonus_only_in_their_month :
  cellOf gid m (ff_dataByGuide
    (forecast_flowData tz transactions guides excludedGuideIds useME selectedYear random)) = None.
Proof.
  rewrite ff_dataByGuide_flowData. unfold forecast_loop.
  assert (G : forall ms st, cellOf gid m (fs_dataByGuide st) = None ->
    cellOf gid m (fs_dataByGuide (fold_left (month_step tz transactions guides excludedGuideIds
                                     useME selectedYear random) ms st)) = None).
  { induction ms as [|m' ms IH]; intros st H; simpl; [exact H|].
    apply IH. apply bonus_month_step. exact H. }
  apply G. reflexivity.
Qed.
End BonusMonths.

(** With a single January 2024 record, March 2024 is a forecast month; the
    Aguinaldo guide has no cell there. *)
Lemma X13_witness :
  cellOf "20" "2024-03" (ff_dataByGuide
    (forecast_flowData utcZone [tx "1" "2024-01-15" Expense (-100)]
       [mkGuide "1" "5-Renta" false; mkGuide "20" "20-Aguinaldo" false]
       [] false 2024 (fun _ => 0%Q))) = None.
Proof.
  apply (X13_bonus_only_in_their_month utcZone [tx "1" "2024-01-15" Expense (-100)]
           [mkGuide "1" "5-Renta" false; mkGuide "20" "20-Aguinaldo" false]
           [] false 2024 (fun _ => 0%Q) "20" "2024-03").
  - left. split; reflexivity.
  - reflexivity.
  - vm_compute. reflexivity.
Defined.

(** ** [sortGuidesByName] (src/unnamed/part_000 lines 17-32; the same
    function in src/unnamed/part_002 lines 32-47 and MonthlyFlowView.tsx
    lines 16-31) *)

(** [name.match(/^(\d+)-/)] followed by [parseInt(match[1], 10)]: the value
    of the leading run of ASCII digits when a '-' follows it, [None] for
    [Infinity]. [acc] holds the digits read so far ([None]: none yet). The
    value is exact, as [parseInt] is below 2^53. *)
Fixpoint getNum_aux (s : string) (acc : option Z) : option Z :=
  match s with
  | EmptyString => None
  | String c r =>
      match Dates.digit c with
      | Some k => getNum_aux r (Some (match acc with Some v => v * 10 + k | None => k end))
      | None => if ascii_dec c "-" then acc else None
      end
  end.

Definition getNum (name : string) : option Z := getNum_aux name None.

Section GuideOrder.
(** [String.prototype.localeCompare], left abstract. *)
Variable localeCompare : string -> string -> Z.

Definition sortGuidesByName {V} (a b : string * V) : Z :=
  match getNum (fst a), getNum (fst b) with
  | Some numA, Some numB => if negb (numA =? numB) then numA - numB
                            else localeCompare (fst a) (fst b)
  | Some _, None => -1
  | None, Some _ => 1
  | None, None => localeCompare (fst a) (fst b)
  end.

Hypothesis lc_antisym : forall a b, Z.sgn (localeCompare a b) = - Z.sgn (localeCompare b a).
Hypothesis lc_trans : forall a b c,
  localeCompare a b <= 0 -> localeCompare b c <= 0 -> localeCompare a c <= 0.

(** X10. When [localeCompare] is a consistent comparison (antisymmetric in
    sign and transitive), so is [sortGuidesByName]: swapping the arguments
    flips the sign of the result, and "not after" is transitive, so the
    sort of the guide rows is well defined. *)
Theorem X10_sortGuidesByName_consistent : forall {V} (a b c : string * V),
  Z.sgn (sortGuidesByName a b) = - Z.sgn (sortGuidesByName b a) /\
  (sortGuidesByName a b <= 0 -> sortGuidesByName b c <= 0 -> sortGuidesByName a c <= 0).
Proof.
  intros V a b c. unfold sortGuidesByName.
  destruct (getNum (fst a)) as [x|], (getNum (fst b)) as [y|], (getNum (fst c)) as [z|];
    try destruct (Z.eqb_spec x y); try destruct (Z.eqb_spec y x);
    try destruct (Z.eqb_spec y z); try destruct (Z.eqb_spec x z);
    subst; simpl; split; try apply lc_antisym; try apply lc_trans;
    try (intros; lia); try lia;
    try (rewrite Z.sgn_neg by lia; rewrite Z.sgn_pos by lia; reflexivity);
    try (rewrite Z.sgn_pos by lia; rewrite Z.sgn_neg by lia; reflexivity).
Qed.

Lemma getNum_aux_code : forall r ds acc v,
  Dates.number ds acc = Some v -> getNum_aux (ds ++ String "-" r)%string (Some acc) = Some v.
Proof.
  intros r. induction ds as [|c ds IH]; intros acc v H; simpl in *.
  - injection H as <-. reflexivity.
  - destruct (Dates.digit c); [apply IH; exact H|discriminate H].
Qed.

Lemma getNum_code : forall ds r v, ds <> EmptyString ->
  Dates.number ds 0 = Some v -> getNum (ds ++ String "-" r)%string = Some v.
Proof.
  intros [|c ds] r v Hne H; [congruence|]. unfold getNum. simpl in *.
  destruct (Dates.digit c) as [k|]; [|discriminate H].
  apply getNum_aux_code. exact H.
Qed.

(** X11. A guide name made of a non-empty run of digits, a '-' and any rest
    sorts by the numeric value of its code when the codes are below 2^53
    (where [parseInt] returns them exactly): a smaller code comes first
    whatever the number of digits ("9-..." before "10-..."), and a coded
    name comes before a name without such a code. *)
Theorem X11_sortGuidesByName_code_order : forall {V} (ds1 ds2 r1 r2 name : string)
  (v1 v2 : Z) (x y : V),
  ds1 <> EmptyString -> ds2 <> EmptyString ->
  Dates.number ds1 0 = Some v1 -> Dates.number ds2 0 = Some v2 -> v1 < v2 ->
  v2 < 9007199254740992 ->
  sortGuidesByName ((ds1 ++ String "-" r1)%string, x) ((ds2 ++ String "-" r2)%string, y) < 0 /\
  (getNum name = None -> sortGuidesByName ((ds1 ++ String "-" r1)%string, x) (name, y) = -1).
Proof.
  intros V ds1 ds2 r1 r2 name v1 v2 x y H1 H2 N1 N2 Hlt _. unfold sortGuidesByName; simpl.
  rewrite (getNum_code _ _ _ H1 N1), (getNum_code _ _ _ H2 N2). split.
  - destruct (Z.eqb_spec v1 v2); simpl; lia.
  - intros ->. reflexivity.
Qed.
End GuideOrder.

(** An instance of X10, with the constant comparison for [localeCompare]. *)
Lemma X10_witness : (forall a b, Z.sgn ((fun _ _ : string => 0) a b) = - Z.sgn ((fun _ _ : string => 0) b a)) /\
  (Z.sgn (sortGuidesByName (fun _ _ => 0) ("10-Ventas"%string, tt) ("9-Cobros"%string, tt)) =
   - Z.sgn (sortGuidesByName (fun _ _ => 0) ("9-Cobros"%string, tt) ("10-Ventas"%string, tt))).
Proof.
  split; [intros; reflexivity|].
  apply (X10_sortGuidesByName_consistent (fun _ _ => 0) (fun _ _ => eq_refl)
           (fun _ _ _ _ H => H) ("10-Ventas"%string, tt) ("9-Cobros"%string, tt) ("Otros"%string, tt)).
Defined.

(** An instance of X11: "9-Cobros" sorts before "10-Ventas". *)
Lemma X11_witness : sortGuidesByName (fun _ _ => 0) ("9-Cobros"%string, tt) ("10-Ventas"%string, tt) < 0.
Proof.
  apply (X11_sortGuidesByName_code_order (fun _ _ => 0) "9" "10" "Cobros" "Ventas" "Otros" 9 10 tt tt);
    try discriminate; try reflexivity; lia.
Defined.
